(** * Ergo: the condition-constrained distribution fitting engine

    A shallow embedding of the distribution, condition and fitting code of
    the [ergo] package, and the properties of its specification.

    Numeric model.  A Python float is a real number: rounding, overflow and
    underflow are not modelled.  Where the source itself handles the
    infinities (the default bounds of [IntervalCondition], the points at
    which a [cdf] is queried) the extended reals [ereal] are used, and where
    it tests for NaN ([fit_mixture]) array entries are [npfloat].  Library
    routines whose code is not part of the package (scipy's maximum
    likelihood fit, JAX's automatic differentiation and gradient clipping)
    are Section variables. *)

From Stdlib Require Import Reals Lra Lia List Bool Arith String.
Import ListNotations.
Open Scope R_scope.

(** ** Python runtime: exceptions and results *)

Inductive exn : Type :=
| ValueError
| IndexError
| TypeError
| KeyError
| FloatingPointError
| NotImplementedError.

Inductive outcome (A : Type) : Type :=
| Returned (a : A)
| Raised (e : exn).

Arguments Returned {A} a.
Arguments Raised {A} e.

Definition bind {A B : Type} (m : outcome A) (k : A -> outcome B) : outcome B :=
  match m with
  | Returned a => k a
  | Raised e => Raised e
  end.

Definition fmap {A B : Type} (f : A -> B) (m : outcome A) : outcome B :=
  bind m (fun a => Returned (f a)).

Notation "x <- m ;; k" := (bind m (fun x => k))
  (at level 61, m at next level, right associativity).
Notation "' p <- m ;; k" := (bind m (fun p => k))
  (at level 61, p pattern, m at next level, right associativity).

Fixpoint mapM {A B : Type} (f : A -> outcome B) (l : list A) : outcome (list B) :=
  match l with
  | [] => Returned []
  | a :: l' => b <- f a ;; bs <- mapM f l' ;; Returned (b :: bs)
  end.

Definition raises {A : Type} (m : outcome A) : Prop := exists e, m = Raised e.

(** ** Python values crossing the structure/destructure boundary *)

Inductive pyclass : Type :=
| CScale
| CPointDensity
| CHistogramDist
| CTruncatedLogisticMixture
| CLogistic
| CMeanCondition
| CPercentileCondition
| CIntervalCondition.

#[local] Set Warnings "-register-all".

Inductive pyval : Type :=
| VClass (c : pyclass)
| VNum (r : R)
| VInt (n : nat)
| VArray (a : list R)
| VTuple (t : list pyval)
| VList (l : list pyval).

(** [a, b = v]: unpacking a sequence of exactly two items. *)
Definition unpack2 (v : pyval) : outcome (pyval * pyval) :=
  match v with
  | VTuple [a; b] | VList [a; b] => Returned (a, b)
  | VTuple _ | VList _ => Raised ValueError
  | VArray [a; b] => Returned (VNum a, VNum b)
  | VArray _ => Raised ValueError
  | _ => Raised TypeError
  end.

(** [a, b, c = v]. *)
Definition unpack3 (v : pyval) : outcome (pyval * pyval * pyval) :=
  match v with
  | VTuple [a; b; c] | VList [a; b; c] => Returned (a, b, c)
  | VTuple _ | VList _ => Raised ValueError
  | VArray [a; b; c] => Returned (VNum a, VNum b, VNum c)
  | VArray _ => Raised ValueError
  | _ => Raised TypeError
  end.

(** [v[i]]. *)
Definition subscript (v : pyval) (i : nat) : outcome pyval :=
  match v with
  | VTuple t | VList t =>
      match nth_error t i with
      | Some x => Returned x
      | None => Raised IndexError
      end
  | VArray a =>
      match nth_error a i with
      | Some x => Returned (VNum x)
      | None => Raised IndexError
      end
  | _ => Raised TypeError
  end.

(** The items of a sequence, as [*v] or a [for] loop sees them. *)
Definition items (v : pyval) : outcome (list pyval) :=
  match v with
  | VTuple t | VList t => Returned t
  | VArray a => Returned (map VNum a)
  | _ => Raised TypeError
  end.

Definition as_num (v : pyval) : outcome R :=
  match v with
  | VNum r => Returned r
  | _ => Raised TypeError
  end.

Definition as_array (v : pyval) : outcome (list R) :=
  match v with
  | VArray a => Returned a
  | VTuple t | VList t => mapM as_num t
  | _ => Raised TypeError
  end.

(** ** Floats *)

Definition Rleb (a b : R) : bool := if Rle_dec a b then true else false.
Definition Rltb (a b : R) : bool := if Rlt_dec a b then true else false.

Definition Reqb (a b : R) : bool := if Req_dec_T a b then true else false.

(** Extended reals: the values a float takes when NaN is left out. *)
Inductive ereal : Type :=
| Fin (r : R)
| PInf
| NInf.

(** [x <= y] on floats. *)
Definition ele (x y : ereal) : bool :=
  match x, y with
  | NInf, _ => true
  | _, PInf => true
  | Fin a, Fin b => Rleb a b
  | _, _ => false
  end.

(** [x < y] on floats. *)
Definition elt (x y : ereal) : bool :=
  match x, y with
  | PInf, _ => false
  | _, NInf => false
  | Fin a, Fin b => Rltb a b
  | _, _ => true
  end.

(** A float object: the interpreter gives every object an identity, which
    [is] and [is not] compare; [==] and [<=] compare the values. *)
Record pyfloat : Type := { oid : nat; oval : ereal }.

(** The allocator: the identity the next object gets.  Every live object
    has a smaller identity. *)
Definition heap : Type := nat.

(** [float(s)]: parsing a string makes a new float object. *)
Definition float_new (v : ereal) (h : heap) : pyfloat * heap :=
  ({| oid := h; oval := v |}, S h).

Definition is_not (a b : pyfloat) : bool := negb (Nat.eqb (oid a) (oid b)).

Definition live (h : heap) (o : pyfloat) : Prop := (oid o < h)%nat.

(** ** Array routines of numpy and jax.numpy *)

Module Np.

Definition sum (l : list R) : R := fold_right Rplus 0 l.

(** [cumsum]: running totals. *)
Fixpoint cumsum_from (acc : R) (l : list R) : list R :=
  match l with
  | [] => []
  | x :: l' => (acc + x) :: cumsum_from (acc + x) l'
  end.

Definition cumsum (l : list R) : list R := cumsum_from 0 l.

Definition dot (a b : list R) : R :=
  sum (map (fun '(x, y) => x * y) (combine a b)).

(** [linspace(start, stop, num)]: [num] evenly spaced points, both ends
    included. *)
Definition linspace (start stop : R) (num : nat) : list R :=
  map (fun i => start + INR i * ((stop - start) / INR (num - 1))) (seq 0 num).

(** Index of the first [true]; [None] when there is none. *)
Fixpoint first_true (l : list bool) : option nat :=
  match l with
  | [] => None
  | true :: _ => Some O
  | false :: l' => option_map S (first_true l')
  end.

(** [argmax] of a boolean array: the first [True], and index 0 when every
    entry is [False]; an empty array is an error. *)
Definition argmax (l : list bool) : outcome nat :=
  match l with
  | [] => Raised ValueError
  | _ => Returned (match first_true l with Some i => i | None => O end)
  end.

(** [argmin] of a real array: the first index carrying the minimum. *)
Fixpoint argmin_from (best : R) (besti i : nat) (l : list R) : nat :=
  match l with
  | [] => besti
  | x :: l' =>
      if Rltb x best then argmin_from x i (S i) l'
      else argmin_from best besti (S i) l'
  end.

Definition argmin (l : list R) : outcome nat :=
  match l with
  | [] => Raised ValueError
  | x :: l' => Returned (argmin_from x O 1%nat l')
  end.

(** [a[i]]: an index past the end is an error. *)
Definition getitem {A : Type} (a : list A) (i : nat) : outcome A :=
  match nth_error a i with
  | Some x => Returned x
  | None => Raised IndexError
  end.

(** Elementwise product with broadcasting of a one-element operand. *)
Definition multiply (a b : list R) : outcome (list R) :=
  if Nat.eqb (List.length a) (List.length b)
  then Returned (map (fun '(x, y) => x * y) (combine a b))
  else match a, b with
       | [x], _ => Returned (map (fun y => x * y) b)
       | _, [y] => Returned (map (fun x => x * y) a)
       | _, _ => Raised ValueError
       end.

(** [where(c, a, b)] on scalars. *)
Definition where_ {A : Type} (c : bool) (a b : A) : A := if c then a else b.

(** [scipy.special.expit]: the standard logistic function. *)
Definition expit (y : R) : R := 1 / (1 + exp (- y)).

(** [jax.nn.softmax]: a normalized exponential, entry by entry; of the
    empty array it is the empty array, and it raises nothing. *)
Definition softmax (x : list R) : outcome (list R) :=
  Returned (map (fun xi => exp xi / sum (map exp x)) x).

(** [jax.nn.log_softmax], likewise. *)
Definition log_softmax (x : list R) : outcome (list R) :=
  Returned (map (fun xi => xi - ln (sum (map exp x))) x).

(** [a[-k]] for [k >= 1]: the [k]-th item from the end. *)
Definition getitem_neg {A : Type} (a : list A) (k : nat) : outcome A :=
  getitem (rev a) (k - 1).

(** [jax.numpy.dot] of two one-dimensional arrays, which must have the
    same length. *)
Definition dot_1d (a b : list R) : outcome R :=
  if Nat.eqb (List.length a) (List.length b) then Returned (dot a b)
  else Raised TypeError.

End Np.

(** ** ergo.scale *)

Module Scale.

(** Modelled from the spec: the module [ergo/scale.py] is not among the
    sources.  "Scale - attributes: low, high ...  Invariant: high > low";
    "constructing a Scale with high <= low is a configuration error";
    [normalize_point] maps the true value to [0,1] and [denormalize_point]
    is its inverse; densities are multiplied by the derivative of the
    transform.  Only the linear scale is modelled. *)
Record Scale : Type := { low : R; high : R }.

(** Modelled from the spec: "constructing a Scale with high <= low is a
    configuration error". *)
Definition __init__ (lo hi : R) : outcome Scale :=
  if Rltb lo hi then Returned {| low := lo; high := hi |}
  else Raised ValueError.

(** Modelled from the spec: the width of the true domain. *)
Definition range (s : Scale) : R := high s - low s.

(** Modelled from the spec: "normalize_point(x) -> u maps true value to
    [0,1]". *)
Definition normalize_point (s : Scale) (x : R) : R := (x - low s) / range s.

(** Modelled from the spec: "denormalize_point(u) -> x is its exact
    inverse". *)
Definition denormalize_point (s : Scale) (u : R) : R := u * range s + low s.

(** Modelled from the spec: "normalize_points/denormalize_points
    (vectorized)". *)
Definition normalize_points (s : Scale) (xs : list R) : list R :=
  map (normalize_point s) xs.

(** Modelled from the spec: "normalize_points/denormalize_points
    (vectorized)". *)
Definition denormalize_points (s : Scale) (us : list R) : list R :=
  map (denormalize_point s) us.

(** Modelled from the spec: "density values adjusted by the local
    derivative of the transform". *)
Definition normalize_densities (s : Scale) (_ : list R) (ds : list R) : list R :=
  map (fun d => d * range s) ds.

(** Modelled from the spec: "normalize_density/denormalize_density multiply
    by the local derivative of the inverse transform"; for the linear scale
    the true density is the normalized one over the range. *)
Definition denormalize_density (s : Scale) (_ : R) (d : R) : R := d / range s.

(** Modelled from the spec: [Scale.destructure] is missing; "destructure()
    returns (static_token, numeric_payload)".  The static token is the
    tuple of classes whose first item [PointDensity.structure] calls. *)
Definition destructure (s : Scale) : pyval * pyval :=
  (VTuple [VClass CScale], VTuple [VNum (low s); VNum (high s)]).

(** Modelled from the spec: [Scale.structure] is missing; "structure(
    static_token, numeric_payload) is its exact inverse". *)
Definition structure (params : pyval) : outcome Scale :=
  '(_, numeric) <- unpack2 params ;;
  '(lo, hi) <- unpack2 numeric ;;
  lo <- as_num lo ;;
  hi <- as_num hi ;;
  __init__ lo hi.

(** Modelled from the spec: [normalize_point] at a float that may be
    infinite; the range is positive, so a point at infinity stays there. *)
Definition normalize_query (s : Scale) (x : ereal) : ereal :=
  match x with
  | Fin r => Fin (normalize_point s r)
  | PInf => PInf
  | NInf => NInf
  end.

End Scale.

(** ** The interface every distribution implements *)

Class Distribution (D : Type) : Type :=
  { cdf : D -> ereal -> outcome R }.

(** ** ergo.distributions.conditions *)

Module Conditions.

Record PercentileCondition : Type :=
  { percentile : R; value : R; pc_weight : R }.

Record IntervalCondition : Type :=
  { p : R; min : pyfloat; max : pyfloat; weight : R }.

(** The default bounds are made once, when the class is defined. *)
Definition default_min : pyfloat := {| oid := 0; oval := NInf |}.
Definition default_max : pyfloat := {| oid := 1; oval := PInf |}.

Module Percentile.

Definition __init__ (percentile value weight : R) : outcome PercentileCondition :=
  if negb (Rleb 0 percentile && Rleb percentile 1)
  then Raised ValueError
  else Returned {| percentile := percentile; value := value; pc_weight := weight |}.

(** Modelled from the spec: this version of the class has no [structure];
    "structure(static_token, numeric_payload) is its exact inverse", the
    payload being the constructor's arguments as in
    [MeanCondition.destructure]. *)
Definition structure (params : pyval) : outcome PercentileCondition :=
  '(percentile, value, weight) <- unpack3 params ;;
  percentile <- as_num percentile ;;
  value <- as_num value ;;
  weight <- as_num weight ;;
  __init__ percentile value weight.

Definition loss {D : Type} `{Distribution D} (self : PercentileCondition) (dist : D)
  : outcome R :=
  let target_percentile := percentile self in
  actual_percentile <- cdf dist (Fin (value self)) ;;
  Returned (pc_weight self * (actual_percentile - target_percentile) ^ 2).

End Percentile.

Module Interval.

Definition __init__ (p : R) (min max : pyfloat) (weight : R)
  : outcome IntervalCondition :=
  if ele (oval max) (oval min)
  then Raised ValueError
  else Returned {| p := p; min := min; max := max; weight := weight |}.

(** [loss] makes two float objects, so it runs against the allocator. *)
Definition loss {D : Type} `{Distribution D} (self : IntervalCondition) (dist : D)
           (h : heap) : outcome R * heap :=
  let (ninf, h1) := float_new NInf h in
  match (if is_not (min self) ninf then cdf dist (oval (min self)) else Returned 0) with
  | Raised e => (Raised e, h1)
  | Returned cdf_at_min =>
      let (pinf, h2) := float_new PInf h1 in
      match (if is_not (max self) pinf then cdf dist (oval (max self)) else Returned 1) with
      | Raised e => (Raised e, h2)
      | Returned cdf_at_max =>
          let actual_p := cdf_at_max - cdf_at_min in
          (Returned (weight self * (actual_p - p self) ^ 2), h2)
      end
  end.

End Interval.

End Conditions.

(** ** ergo.conditions.mean *)

Module Mean.

Record MeanCondition : Type := { mean : R; weight : R }.

Definition __init__ (mean weight : R) : MeanCondition :=
  {| mean := mean; weight := weight |}.

Definition normalize (self : MeanCondition) (scale_min scale_max : R)
  : outcome MeanCondition :=
  scale <- Scale.__init__ scale_min scale_max ;;
  let normalized_mean := Scale.normalize_point scale (mean self) in
  Returned (__init__ normalized_mean (weight self)).

Definition denormalize (self : MeanCondition) (scale_min scale_max : R)
  : outcome MeanCondition :=
  scale <- Scale.__init__ scale_min scale_max ;;
  let denormalized_mean := Scale.denormalize_point scale (mean self) in
  Returned (__init__ denormalized_mean (weight self)).

Definition destructure (self : MeanCondition) : pyval :=
  VTuple [VClass CMeanCondition; VTuple [VNum (mean self); VNum (weight self)]].

End Mean.

(** ** ergo.distributions.location_scale_family *)

Module LocationScale.

(** The classes of the family; [self.__class__] is one of them. *)
Inductive lsclass : Type := LSDistribution_ | Logistic | Normal.

Definition metadata_t : Type := list (string * string).

Record LSDistribution : Type :=
  { cls : lsclass; loc : R; scale : R; metadata : option metadata_t }.

Definition __init__ (cls : lsclass) (loc scale : R) (metadata : option metadata_t)
  : LSDistribution :=
  {| cls := cls; loc := loc; scale := Rmax scale 0.0000001; metadata := metadata |}.

Definition __mul__ (self : LSDistribution) (x : R) : LSDistribution :=
  __init__ (cls self) (loc self * x) (scale self * x) None.

(** [cdf]: [y = (x - loc) / scale] and the standard logistic function of
    [y]; the scale is positive, so a point at infinity gives 0 or 1. *)
Definition cdf_ (self : LSDistribution) (x : ereal) : R :=
  match x with
  | Fin r => Np.expit ((r - loc self) / scale self)
  | PInf => 1
  | NInf => 0
  end.

#[global] Instance LSDistribution_Distribution : Distribution LSDistribution :=
  { cdf := fun self x => Returned (cdf_ self x) }.

Definition normalize (self : LSDistribution) (scale_min scale_max : R)
  : outcome LSDistribution :=
  scale <- Scale.__init__ scale_min scale_max ;;
  let normalized_loc := Scale.normalize_point scale (loc self) in
  let normalized_scale := LocationScale.scale self / Scale.range scale in
  Returned (__init__ (cls self) normalized_loc normalized_scale (metadata self)).

Definition denormalize (self : LSDistribution) (scale_min scale_max : R)
  : outcome LSDistribution :=
  scale <- Scale.__init__ scale_min scale_max ;;
  let denormalized_loc := Scale.denormalize_point scale (loc self) in
  let denormalized_scale := LocationScale.scale self * Scale.range scale in
  Returned (__init__ (cls self) denormalized_loc denormalized_scale (metadata self)).

Section FromSamples.

(** [odist.fit]: scipy's maximum likelihood estimate of (loc, scale), run
    with every numpy floating point warning turned into an error. *)
Variable odist_fit : list R -> outcome (R * R).

Definition from_samples_scipy (cls : lsclass) (samples : list R)
  : outcome LSDistribution :=
  '(loc, scale) <- odist_fit samples ;;
  Returned (__init__ cls loc scale None).

End FromSamples.

End LocationScale.

(** ** ergo.logistic *)

Module Logistic.

(** An array entry: a number or NaN. *)
Inductive npfloat : Type :=
| Num (r : R)
| NaN.

Definition isnan (x : npfloat) : bool :=
  match x with
  | NaN => true
  | Num _ => false
  end.

Definition nadd (x y : npfloat) : npfloat :=
  match x, y with
  | Num a, Num b => Num (a + b)
  | _, _ => NaN
  end.

Definition nscale (c : R) (x : npfloat) : npfloat :=
  match x with
  | Num a => Num (c * a)
  | NaN => NaN
  end.

Definition nexp (x : npfloat) : npfloat :=
  match x with
  | Num a => Num (exp a)
  | NaN => NaN
  end.

(** A two-dimensional array, row by row. *)
Definition matrix : Type := list (list npfloat).

Definition any_isnan (m : matrix) : bool :=
  existsb (fun row => existsb isnan row) m.

Definition madd (a b : matrix) : matrix :=
  map (fun '(ra, rb) => map (fun '(x, y) => nadd x y) (combine ra rb)) (combine a b).

Definition mscale (c : R) (a : matrix) : matrix := map (map (nscale c)) a.

(** [a.shape], row by row. *)
Definition shape (a : matrix) : list nat := map (@List.length npfloat) a.

Definition numbers (l : list npfloat) : option (list R) :=
  fold_right (fun x acc =>
                match x, acc with
                | Num r, Some rs => Some (r :: rs)
                | _, _ => None
                end) (Some []) l.

(** [nn.log_softmax] on an array that may hold NaN: one NaN makes every
    entry NaN. *)
Definition log_softmax (l : list npfloat) : outcome (list npfloat) :=
  match numbers l with
  | Some rs => fmap (map Num) (Np.log_softmax rs)
  | None => Returned (map (fun _ => NaN) l)
  end.

Record LogisticParams : Type := { loc : npfloat; scale : npfloat }.

Record LogisticMixtureParams : Type :=
  { components : list LogisticParams; probs : list npfloat }.

Section Fitting.

(** [oscipy.stats.logistic.fit] under [errstate(all='raise')]. *)
Variable logistic_fit : list R -> outcome (R * R).

(** [grad_mixture_logpdf]: the gradient of the mixture log likelihood with
    respect to the components, by automatic differentiation. *)
Variable grad_mixture_logpdf : list R -> matrix -> matrix.

(** [clip_grads] of [jax.experimental.optimizers]. *)
Variable clip_grads : matrix -> R -> matrix.

Definition fit_single_scipy (samples : list R) : outcome LogisticParams :=
  '(loc, scale) <- logistic_fit samples ;;
  let scale := Rmin (Rmax scale 0.02) 10 in
  let loc := Rmin (Rmax loc (-0.1565)) 1.1565 in
  Returned {| loc := Num loc; scale := Num scale |}.

(** [initialize_components]: [draws] are the uniform random numbers of
    [onp.random.rand(num_components, 3)], one triple a row. *)
Definition initialize_components (num_components : nat) (draws : list (R * R * R))
  : matrix :=
  map (fun '(u0, u1, _) =>
         [Num (u0 * 0.1 + 1); Num (u1 * 0.1 + 1); Num (- INR num_components)])
      (firstn num_components draws).

Definition structure_mixture_params (components : matrix)
  : outcome LogisticMixtureParams :=
  unnormalized_weights <- mapM (fun component => Np.getitem component 2) components ;;
  logps <- log_softmax unnormalized_weights ;;
  let probs := map nexp logps in
  component_params <-
    mapM (fun component =>
            c0 <- Np.getitem component 0 ;;
            c1 <- Np.getitem component 1 ;;
            Returned {| loc := c0; scale := c1 |}) components ;;
  Returned {| components := component_params; probs := probs |}.

Definition step_size : R := 0.01.

(** One pass of the loop body past the NaN test; the gradient has the
    shape of the components. *)
Definition update (data : list R) (components : matrix) : matrix :=
  madd components (mscale step_size (clip_grads (grad_mixture_logpdf data components) 1)).

(** The NaN test that leaves the loop. *)
Definition diverged (data : list R) (components : matrix) : bool :=
  any_isnan (clip_grads (grad_mixture_logpdf data components) 1)
  || any_isnan components.

(** The components after [k] passes. *)
Fixpoint after (k : nat) (data : list R) (components : matrix) : matrix :=
  match k with
  | O => components
  | S k' => after k' data (update data components)
  end.

(** [for n in range(iterations)]: the components when the loop is left.
    The score printed every hundred passes has no part in the result. *)
Fixpoint descend (iterations : nat) (data : list R) (components : matrix) : matrix :=
  match iterations with
  | O => components
  | S n =>
      if diverged data components then components
      else descend n data (update data components)
  end.

Definition fit_mixture (data : list R) (num_components : nat) (draws : list (R * R * R))
  : outcome LogisticMixtureParams :=
  let components := initialize_components num_components draws in
  structure_mixture_params (descend 1000 data components).

Definition fit_single (samples : list R) (draws : list (R * R * R))
  : outcome LogisticParams :=
  params <- fit_mixture samples 1 draws ;;
  Np.getitem (components params) 0.

End Fitting.

Definition nabs (x : npfloat) : npfloat :=
  match x with
  | Num a => Num (Rabs a)
  | NaN => NaN
  end.

Definition nopp (x : npfloat) : npfloat :=
  match x with
  | Num a => Num (- a)
  | NaN => NaN
  end.

(** [scipy.stats.logistic.logpdf]: the log density of the standard
    logistic. *)
Definition std_logistic_logpdf (y : R) : R := - y - 2 * ln (1 + exp (- y)).

Definition logistic_logpdf (x : R) (loc scale : npfloat) : npfloat :=
  match loc, scale with
  | Num loc, Num scale =>
      let y := (x - loc) / scale in
      Num (std_logistic_logpdf y - ln scale)
  | _, _ => NaN
  end.

(** [scipy.special.logsumexp] of at least one score.  Of no score at all
    the result is not a number of this model (minus infinity, or an error
    of the maximum it takes first, by the version of the library); the
    error stands for both. *)
Definition logsumexp (l : list npfloat) : outcome npfloat :=
  match l with
  | [] => Raised ValueError
  | _ => Returned (match numbers l with
                   | Some rs => Num (ln (Np.sum (map exp rs)))
                   | None => NaN
                   end)
  end.

(** The score of one datum: the body of the outer loop. *)
Definition datum_logpdf (datum : R) (components : matrix) : outcome npfloat :=
  unnormalized_weights <- mapM (fun component => Np.getitem component 2) components ;;
  weights <- log_softmax unnormalized_weights ;;
  component_scores <-
    mapM (fun '(component, weight) =>
            loc <- Np.getitem component 0 ;;
            c1 <- Np.getitem component 1 ;;
            let scale := nabs c1 in
            Returned (nadd (logistic_logpdf datum loc scale) weight))
         (combine components weights) ;;
  logsumexp component_scores.

Definition mixture_logpdf (data : list R) (components : matrix) : outcome npfloat :=
  fold_left (fun score datum =>
               s <- score ;;
               l <- datum_logpdf datum components ;;
               Returned (nadd s l))
            data (Returned (Num 0)).

End Logistic.

(** ** ergo.distributions.histogram *)

Module Histogram.

Record HistogramDist : Type :=
  { logps : list R;
    ps : list R;
    cum_ps : list R;
    normed_bins : list R;
    size : nat;
    scale : Scale.Scale;
    true_bins : option (list R) }.

(** The [direct_init] branch of the constructor. *)
Definition direct_init (logps ps cum_ps normed_bins : list R) (size : nat)
           (scale : Scale.Scale) : HistogramDist :=
  {| logps := logps; ps := ps; cum_ps := cum_ps; normed_bins := normed_bins;
     size := size; scale := scale; true_bins := None |}.

(** The other branch.  A list is true when it is not empty. *)
Definition __init__ (logps : list R) (scale : option Scale.Scale)
           (normed_bins true_bins : option (list R)) : outcome HistogramDist :=
  let ps := map exp logps in
  let cum_ps := Np.cumsum ps in
  let size := List.length logps in
  scale <- match scale with
           | Some s => Returned s
           | None => Scale.__init__ 0 1
           end ;;
  match true_bins, normed_bins with
  | Some (_ :: _ as true_bins), _ =>
      Returned {| logps := logps; ps := ps; cum_ps := cum_ps;
                  normed_bins := Scale.normalize_points scale true_bins;
                  size := size; scale := scale; true_bins := Some true_bins |}
  | _, Some (_ :: _ as normed_bins) =>
      Returned {| logps := logps; ps := ps; cum_ps := cum_ps;
                  normed_bins := normed_bins;
                  size := size; scale := scale;
                  true_bins := Some (Scale.denormalize_points scale normed_bins) |}
  | _, _ =>
      let normed_bins := Np.linspace 0 1 (List.length logps) in
      Returned {| logps := logps; ps := ps; cum_ps := cum_ps;
                  normed_bins := normed_bins;
                  size := size; scale := scale;
                  true_bins := Some (Scale.denormalize_points scale normed_bins) |}
  end.

Definition entropy (self : HistogramDist) : R := - Np.dot (ps self) (logps self).

Definition cross_entropy (self q_dist : HistogramDist) : R :=
  - Np.dot (ps self) (logps q_dist).

(** [argmax(self.normed_bins >= self.scale.normalize_point(x))]. *)
Definition bin_of (self : HistogramDist) (x : ereal) : outcome nat :=
  Np.argmax (map (fun b => ele (Scale.normalize_query (scale self) x) (Fin b))
                 (normed_bins self)).

Definition pdf (self : HistogramDist) (x : ereal) : outcome R :=
  i <- bin_of self x ;; Np.getitem (ps self) i.

Definition cdf_ (self : HistogramDist) (x : ereal) : outcome R :=
  i <- bin_of self x ;; Np.getitem (cum_ps self) i.

#[global] Instance HistogramDist_Distribution : Distribution HistogramDist :=
  { cdf := cdf_ }.

Definition denormalize (self : HistogramDist) (scale : Scale.Scale)
  : outcome HistogramDist :=
  __init__ (logps self) (Some scale) None None.

(** [ppf]: the first bin whose cumulative probability reaches [q], as a
    fraction of the number of bins; no such bin is an index error. *)
Definition ppf (self : HistogramDist) (q : R) : outcome R :=
  match Np.first_true (map (fun c => Rleb q c) (cum_ps self)) with
  | Some i =>
      Returned (Scale.denormalize_point (scale self)
                  (INR i / INR (List.length (cum_ps self))))
  | None => Raised IndexError
  end.

Definition from_params (params : list R) : outcome HistogramDist :=
  logps <- Np.log_softmax params ;;
  __init__ logps None None None.

Definition initialize_params (num_bins : nat) : list R :=
  repeat (- INR num_bins) num_bins.

(** [destructure]: the class, the five numeric attributes, and then the two
    items of the scale's own pair, spliced in. *)
Definition destructure (self : HistogramDist) : pyval :=
  let '(scale_token, scale_numeric) := Scale.destructure (scale self) in
  VTuple [VClass CHistogramDist;
          VTuple [VArray (logps self); VArray (ps self); VArray (cum_ps self);
                  VArray (normed_bins self); VInt (size self)];
          scale_token; scale_numeric].

(** Calling [f] on the items of [args], where [f] should be the class [Scale]. *)
Definition call_scale (f args : pyval) : outcome Scale.Scale :=
  match f with
  | VClass CScale =>
      '(lo, hi) <- unpack2 args ;;
      lo <- as_num lo ;;
      hi <- as_num hi ;;
      Scale.__init__ lo hi
  | _ => Raised TypeError
  end.

Definition as_size (v : pyval) : outcome nat :=
  match v with
  | VInt n => Returned n
  | _ => Raised TypeError
  end.

(** [structure(cls, *params)]: [params] are the positional arguments.  The
    seven items are read in the order of the source; the attributes are
    typed here, so an item of the wrong kind, which Python would store as
    it is, ends as a [TypeError] once all seven have been read. *)
Definition structure (params : list pyval) : outcome HistogramDist :=
  _ <- Np.getitem params 3 ;;
  p0 <- Np.getitem params 0 ;;
  p1 <- Np.getitem params 1 ;;
  p2 <- Np.getitem params 2 ;;
  p3 <- Np.getitem params 3 ;;
  p4 <- Np.getitem params 4 ;;
  p5 <- Np.getitem params 5 ;;
  p6 <- Np.getitem params 6 ;;
  scale <- call_scale p5 p6 ;;
  logps <- as_array p0 ;;
  ps <- as_array p1 ;;
  cum_ps <- as_array p2 ;;
  normed_bins <- as_array p3 ;;
  size <- as_size p4 ;;
  Returned (direct_init logps ps cum_ps normed_bins size scale).

Section StaticLoss.

(** The condition classes: [cond_class.structure(cond_param)] builds a
    condition from its numeric payload, and a condition scores a
    distribution. *)
Context {cond_class cond_param condition : Type}.
Variable structure_condition : cond_class -> cond_param -> outcome condition.
Variable loss : condition -> HistogramDist -> outcome R.

Definition static_condition_loss (dist_params : list R) (cond_class_ : cond_class)
           (cond_param_ : cond_param) : outcome R :=
  dist <- from_params dist_params ;;
  condition <- structure_condition cond_class_ cond_param_ ;;
  l <- loss condition dist ;;
  Returned (l * 100).

Definition static_loss (dist_params : list R) (cond_classes : list cond_class)
           (cond_params : list cond_param) : outcome R :=
  fold_left (fun total_loss '(cond_class_, cond_param_) =>
               total <- total_loss ;;
               l <- static_condition_loss dist_params cond_class_ cond_param_ ;;
               Returned (total + l))
            (combine cond_classes cond_params) (Returned 0).

End StaticLoss.

End Histogram.

(** ** ergo.distributions.point_density *)

Module PointDensity.

Record PointDensity : Type :=
  { normed_xs : list R;
    normed_densities : list R;
    bin_probs : list R;
    scale : Scale.Scale;
    cumulative_normed_ps : list R;
    normed_log_densities : list R }.

Section Constants.

(** [constants.bin_sizes]: the module [constants] is not among the sources. *)
Variable bin_sizes : list R.

(** [traceable] chooses between numpy and jax.numpy, which agree here. *)
Definition __init__ (xs densities : list R) (scale : option Scale.Scale)
           (normalized traceable : bool) (cumulative_normed_ps : option (list R))
  : outcome PointDensity :=
  match scale with
  | None => Raised ValueError
  | Some scale =>
      let normed_xs :=
        if normalized then xs else Scale.normalize_points scale xs in
      let normed_densities :=
        if normalized then densities
        else Scale.normalize_densities scale normed_xs densities in
      bin_probs <- Np.multiply normed_densities bin_sizes ;;
      let cumulative_normed_ps :=
        match cumulative_normed_ps with
        | Some c => c
        | None => 0 :: Np.cumsum bin_probs
        end in
      Returned {| normed_xs := normed_xs;
                  normed_densities := normed_densities;
                  bin_probs := bin_probs;
                  scale := scale;
                  cumulative_normed_ps := cumulative_normed_ps;
                  normed_log_densities := map ln normed_densities |}
  end.

(** [argmin(abs(self.normed_xs - x))]; at an infinite [x] every distance is
    infinite and the first index wins. *)
Definition nearest (self : PointDensity) (x : ereal) : outcome nat :=
  match x with
  | Fin r => Np.argmin (map (fun nx => Rabs (nx - r)) (normed_xs self))
  | _ => Np.argmin (map (fun _ => 0) (normed_xs self))
  end.

Definition cdf_ (self : PointDensity) (x : ereal) : outcome R :=
  let x := Scale.normalize_query (scale self) x in
  bin <- nearest self x ;;
  c <- Np.getitem (cumulative_normed_ps self) bin ;;
  Returned (Np.where_ (elt x (Fin 0)) 0 (Np.where_ (elt (Fin 1) x) 1 c)).

Definition normalize (self : PointDensity) : outcome PointDensity :=
  scale <- Scale.__init__ 0 1 ;;
  __init__ (normed_xs self) (normed_densities self) (Some scale) true false None.

Definition denormalize (self : PointDensity) (scale : Scale.Scale)
  : outcome PointDensity :=
  __init__ (normed_xs self) (normed_densities self) (Some scale) true false None.

Definition structure (params : pyval) : outcome PointDensity :=
  '(class_params, numeric_params) <- unpack2 params ;;
  '(density_class, scale_classes) <- unpack2 class_params ;;
  '(density_numeric, scale_numeric) <- unpack2 numeric_params ;;
  xs <- subscript density_numeric 0 ;;
  densities <- subscript density_numeric 1 ;;
  scale_class <- subscript scale_classes 0 ;;
  scale <- match scale_class with
           | VClass CScale => Scale.structure (VTuple [scale_classes; scale_numeric])
           | _ => Raised TypeError
           end ;;
  cumulative_normed_ps <- subscript density_numeric 2 ;;
  match density_class with
  | VClass CPointDensity =>
      xs <- as_array xs ;;
      densities <- as_array densities ;;
      cumulative_normed_ps <- as_array cumulative_normed_ps ;;
      __init__ xs densities (Some scale) true true (Some cumulative_normed_ps)
  | _ => Raised TypeError
  end.

Definition destructure (self : PointDensity) : pyval :=
  let '(scale_classes, scale_numeric) := Scale.destructure (scale self) in
  let class_params := VTuple [VClass CPointDensity; scale_classes] in
  let self_numeric :=
    VTuple [VArray (normed_xs self); VArray (normed_densities self);
            VArray (cumulative_normed_ps self)] in
  let numeric_params := VTuple [self_numeric; scale_numeric] in
  VTuple [class_params; numeric_params].

#[global] Instance PointDensity_Distribution : Distribution PointDensity :=
  { cdf := cdf_ }.

Definition pdf (self : PointDensity) (x : ereal) : outcome R :=
  let x := Scale.normalize_query (scale self) x in
  bin <- nearest self x ;;
  nx <- Np.getitem (normed_xs self) bin ;;
  nd <- Np.getitem (normed_densities self) bin ;;
  Returned (Np.where_ (elt x (Fin 0) || elt (Fin 1) x) 0
              (Scale.denormalize_density (scale self)
                 (Scale.denormalize_point (scale self) nx) nd)).

(** [fixed_params]: a dict from strings to arrays. *)
Definition fixed_params_t : Type := list (string * list R).

Fixpoint lookup (d : fixed_params_t) (k : string) : outcome (list R) :=
  match d with
  | [] => Raised KeyError
  | (k', v) :: d' => if String.eqb k k' then Returned v else lookup d' k
  end.

Definition from_params (fixed_params : fixed_params_t) (opt_params : list R)
           (scale : option Scale.Scale) (traceable : bool) : outcome PointDensity :=
  scale <- match scale with
           | None => Scale.__init__ 0 1
           | Some s => Returned s
           end ;;
  xs <- lookup fixed_params "xs" ;;
  probs <- Np.softmax opt_params ;;
  let densities := map (fun p => p * INR (List.length opt_params)) probs in
  __init__ xs densities (Some scale) true true None.

Definition initialize_optimizable_params (fixed_params : fixed_params_t)
  : outcome (list R) :=
  xs <- lookup fixed_params "xs" ;;
  let num_points := List.length xs in
  Returned (repeat 1 num_points).

Definition normalize_fixed_params (fixed_params : fixed_params_t) (scale : Scale.Scale)
  : outcome fixed_params_t :=
  xs <- lookup fixed_params "xs" ;;
  Returned [("xs"%string, Scale.normalize_points scale xs)].

(** [add_endpoints], on lists or numpy arrays as the package's test and
    [to_arrays] pass them, where an index past the end is an [IndexError].
    When the first two points coincide and the first is not 0, or the last
    two coincide and the last is not 1, [xdiff_ratio] is zero and the code
    divides by it: a [ZeroDivisionError] on lists, an infinite or undefined
    density on arrays.  Those inputs are outside this model, whose
    division is that of the real numbers; the statements about
    [add_endpoints] exclude them by hypothesis. *)
Definition add_endpoints (xs densities : list R) : outcome (list R * list R) :=
  x0 <- Np.getitem xs 0 ;;
  '(xs, densities) <-
    (if negb (Reqb x0 0)
     then
       x1 <- Np.getitem xs 1 ;;
       let xdiff_ratio := (x1 - x0) / x0 in
       d0 <- Np.getitem densities 0 ;;
       d1 <- Np.getitem densities 1 ;;
       let density := (d0 - d1) / xdiff_ratio + d0 in
       let clamped_density := Rmax density 0 in
       Returned (0 :: xs, clamped_density :: densities)
     else Returned (xs, densities)) ;;
  xn <- Np.getitem_neg xs 1 ;;
  if negb (Reqb xn 1)
  then
    xm <- Np.getitem_neg xs 2 ;;
    let xdiff_ratio := (xn - xm) / (1 - xn) in
    dn <- Np.getitem_neg densities 1 ;;
    dm <- Np.getitem_neg densities 2 ;;
    let density := (dn - dm) / xdiff_ratio + dn in
    let clamped_density := Rmax density 0 in
    Returned (xs ++ [1], densities ++ [clamped_density])
  else Returned (xs, densities).

Definition mean (self : PointDensity) : outcome R :=
  Np.dot_1d (Scale.denormalize_points (scale self) (normed_xs self)) (bin_probs self).

Definition variance (self : PointDensity) : outcome R :=
  mean <- mean self ;;
  let true_xs := Scale.denormalize_points (scale self) (normed_xs self) in
  Np.dot_1d (bin_probs self) (map (fun x => (x - mean) ^ 2) true_xs).

End Constants.

End PointDensity.

(** ** ergo.distributions.truncated_logistic_mixture *)

Module TruncatedMixture.

Record TruncatedLogisticMixture : Type :=
  { components : list LocationScale.LSDistribution;
    probs : list R;
    floor : R;
    ceiling : R }.

(** Modelled from the spec: the base class [Mixture] is missing; a mixture
    has "component location-scale pairs + mixing weights", and its [cdf] is
    the sum of the component cdfs, each times its weight. *)
Definition mixture_cdf (components : list LocationScale.LSDistribution)
           (probs : list R) (x : ereal) : R :=
  Np.sum (map (fun '(c, p) => LocationScale.cdf_ c x * p) (combine components probs)).

(** The attributes [__post_init__] derives from the four fields. *)
Definition p_inside (self : TruncatedLogisticMixture) : R :=
  let p_below := mixture_cdf (components self) (probs self) (Fin (floor self)) in
  let p_above := 1 - mixture_cdf (components self) (probs self) (Fin (ceiling self)) in
  1 - (p_below + p_above).

Definition logp_inside (self : TruncatedLogisticMixture) : R := ln (p_inside self).

Definition cdf_ (self : TruncatedLogisticMixture) (x : ereal) : R :=
  let cdf_x := mixture_cdf (components self) (probs self) x / p_inside self in
  Np.where_ (elt x (Fin (floor self))) 0
            (Np.where_ (elt (Fin (ceiling self)) x) 1 cdf_x).

#[global] Instance TruncatedLogisticMixture_Distribution
  : Distribution TruncatedLogisticMixture :=
  { cdf := fun self x => Returned (cdf_ self x) }.

(** [fixed_params]: a dict with string keys. *)
Definition fixed_params_t : Type := list (string * R).

Fixpoint lookup (d : fixed_params_t) (k : string) : outcome R :=
  match d with
  | [] => Raised KeyError
  | (k', v) :: d' => if String.eqb k k' then Returned v else lookup d' k
  end.

(** [opt_params.reshape((-1, 3))]. *)
Fixpoint reshape3 (l : list R) : outcome (list (R * R * R)) :=
  match l with
  | [] => Returned []
  | a :: b :: c :: l' => rows <- reshape3 l' ;; Returned ((a, b, c) :: rows)
  | _ => Raised ValueError
  end.

Definition from_params (fixed_params : fixed_params_t) (opt_params : list R)
  : outcome TruncatedLogisticMixture :=
  floor <- lookup fixed_params "floor" ;;
  ceiling <- lookup fixed_params "ceiling" ;;
  let loc_floor := floor + (ceiling - floor) * -2 in
  let loc_ceiling := floor + (ceiling - floor) * 3 in
  structured_params <- reshape3 opt_params ;;
  let locs :=
    map (fun '(c0, _, _) => loc_floor + Np.expit c0 * (loc_ceiling - loc_floor))
        structured_params in
  let scales := map (fun '(_, c1, _) => Rabs c1) structured_params in
  probs <- Np.softmax (map (fun '(_, _, c2) => c2) structured_params) ;;
  let component_dists :=
    map (fun '(l, s) => LocationScale.__init__ LocationScale.Logistic l s None)
        (combine locs scales) in
  Returned {| components := component_dists; probs := probs;
              floor := floor; ceiling := ceiling |}.

Definition normalize (self : TruncatedLogisticMixture) (scale_min scale_max : R)
  : outcome TruncatedLogisticMixture :=
  normalized_components <-
    mapM (fun component => LocationScale.normalize component scale_min scale_max)
         (components self) ;;
  s <- Scale.__init__ scale_min scale_max ;;
  let floor := Scale.normalize_point s (floor self) in
  let ceiling := Scale.normalize_point s (ceiling self) in
  Returned {| components := normalized_components; probs := probs self;
              floor := floor; ceiling := ceiling |}.

Definition denormalize (self : TruncatedLogisticMixture) (scale_min scale_max : R)
  : outcome TruncatedLogisticMixture :=
  denormalized_components <-
    mapM (fun component => LocationScale.denormalize component scale_min scale_max)
         (components self) ;;
  s <- Scale.__init__ scale_min scale_max ;;
  let floor := Scale.denormalize_point s (floor self) in
  let ceiling := Scale.denormalize_point s (ceiling self) in
  Returned {| components := denormalized_components; probs := probs self;
              floor := floor; ceiling := ceiling |}.

(** [d[k] = v] on a dict. *)
Fixpoint assign (d : fixed_params_t) (k : string) (v : R) : fixed_params_t :=
  match d with
  | [] => [(k, v)]
  | (k', v') :: d' =>
      if String.eqb k k' then (k, v) :: d' else (k', v') :: assign d' k v
  end.

Definition normalize_fixed_params (fixed_params : fixed_params_t)
           (scale_min scale_max : R) : outcome fixed_params_t :=
  s <- Scale.__init__ scale_min scale_max ;;
  let norm_fixed_params := fixed_params in
  floor <- lookup fixed_params "floor" ;;
  let norm_fixed_params := assign norm_fixed_params "floor" (Scale.normalize_point s floor) in
  ceiling <- lookup fixed_params "ceiling" ;;
  let norm_fixed_params :=
    assign norm_fixed_params "ceiling" (Scale.normalize_point s ceiling) in
  Returned norm_fixed_params.

Definition destructure (self : TruncatedLogisticMixture) : pyval :=
  let params :=
    VTuple [VList (map (fun c => VTuple [VNum (LocationScale.loc c);
                                         VNum (LocationScale.scale c)])
                       (components self));
            VList (map VNum (probs self));
            VTuple [VNum (floor self); VNum (ceiling self)]] in
  VTuple [VClass CTruncatedLogisticMixture; params].

Definition structure (params : pyval) : outcome TruncatedLogisticMixture :=
  '(component_params, probs, limits) <- unpack3 params ;;
  component_params <- items component_params ;;
  components <-
    mapM (fun ls =>
            '(l, s) <- unpack2 ls ;;
            l <- as_num l ;;
            s <- as_num s ;;
            Returned (LocationScale.__init__ LocationScale.Logistic l s None))
         component_params ;;
  limits0 <- subscript limits 0 ;;
  limits1 <- subscript limits 1 ;;
  probs <- as_array probs ;;
  floor <- as_num limits0 ;;
  ceiling <- as_num limits1 ;;
  Returned {| components := components; probs := probs;
              floor := floor; ceiling := ceiling |}.

End TruncatedMixture.

(** ** Inputs used below *)

(** [HistogramDist.from_params(np.array([0., 0.]))]: two bins of
    probability one half on the unit scale. *)
Definition two_bins : Histogram.HistogramDist :=
  {| Histogram.logps := [- ln 2; - ln 2];
     Histogram.ps := [1 / 2; 1 / 2];
     Histogram.cum_ps := [1 / 2; 1];
     Histogram.normed_bins := [0; 1];
     Histogram.size := 2;
     Histogram.scale := {| Scale.low := 0; Scale.high := 1 |};
     Histogram.true_bins := Some [0; 1] |}.

(** [IntervalCondition(p=0.5, max=0.5)], the lower bound left at its
    default, and [IntervalCondition(p=0.5, min=0.5)], the upper bound left
    at its default; the explicit bound is an object made before the call. *)
Definition below_half : Conditions.IntervalCondition :=
  {| Conditions.p := 1 / 2;
     Conditions.min := Conditions.default_min;
     Conditions.max := {| oid := 2; oval := Fin (1 / 2) |};
     Conditions.weight := 1 |}.

Definition above_half : Conditions.IntervalCondition :=
  {| Conditions.p := 1 / 2;
     Conditions.min := {| oid := 2; oval := Fin (1 / 2) |};
     Conditions.max := Conditions.default_max;
     Conditions.weight := 1 |}.

(** [PointDensity([0.25, 0.75], [1, 1], Scale(0, 1), normalized=True)]
    when the bin sizes are one half each. *)
Definition two_points : PointDensity.PointDensity :=
  {| PointDensity.normed_xs := [1 / 4; 3 / 4];
     PointDensity.normed_densities := [1; 1];
     PointDensity.bin_probs := [1 * (1 / 2); 1 * (1 / 2)];
     PointDensity.scale := {| Scale.low := 0; Scale.high := 1 |};
     PointDensity.cumulative_normed_ps :=
       [0; 0 + 1 * (1 / 2); 0 + 1 * (1 / 2) + 1 * (1 / 2)];
     PointDensity.normed_log_densities := [ln 1; ln 1] |}.

(** The components with the sign of every second entry changed. *)
Definition negate_scales (components : Logistic.matrix) : Logistic.matrix :=
  map (fun row => match row with
                  | a :: b :: rest => a :: Logistic.nopp b :: rest
                  | _ => row
                  end) components.

(** [TruncatedLogisticMixture([Logistic(0, 1)], [1.0], -1, 0)]: one
    standard logistic kept between -1 and 0. *)
Definition one_logistic : TruncatedMixture.TruncatedLogisticMixture :=
  {| TruncatedMixture.components :=
       [LocationScale.__init__ LocationScale.Logistic 0 1 None];
     TruncatedMixture.probs := [1];
     TruncatedMixture.floor := -1;
     TruncatedMixture.ceiling := 0 |}.

(** * Properties *)

(** ** Comparisons, results *)

Lemma Rleb_true (a b : R) : Rleb a b = true <-> a <= b.
Proof. unfold Rleb. destruct (Rle_dec a b); split; auto; discriminate. Qed.

Lemma Rleb_false (a b : R) : Rleb a b = false <-> b < a.
Proof.
  unfold Rleb. destruct (Rle_dec a b); split; intros; try discriminate; auto; lra.
Qed.

Lemma Rltb_true (a b : R) : Rltb a b = true <-> a < b.
Proof. unfold Rltb. destruct (Rlt_dec a b); split; auto; discriminate. Qed.

Lemma Rltb_false (a b : R) : Rltb a b = false <-> b <= a.
Proof.
  unfold Rltb. destruct (Rlt_dec a b); split; intros; try discriminate; auto; lra.
Qed.

(** On the extended reals [max <= min] fails exactly when [min < max]. *)
Lemma ele_false_elt (x y : ereal) : ele x y = false <-> elt y x = true.
Proof.
  destruct x, y; simpl; try (split; congruence).
  rewrite Rleb_false, Rltb_true. tauto.
Qed.

Lemma Scale_init_ok (lo hi : R) :
  lo < hi -> Scale.__init__ lo hi = Returned {| Scale.low := lo; Scale.high := hi |}.
Proof.
  intros H. unfold Scale.__init__.
  destruct (Rltb lo hi) eqn:E; [reflexivity|].
  apply Rltb_false in E. lra.
Qed.

Lemma Scale_init_unit : Scale.__init__ 0 1 = Returned {| Scale.low := 0; Scale.high := 1 |}.
Proof. apply Scale_init_ok. lra. Qed.

Lemma bind_Returned {A B : Type} (m : outcome A) (k : A -> outcome B) (b : B) :
  bind m k = Returned b -> exists a, m = Returned a /\ k a = Returned b.
Proof. destruct m; simpl; [eauto | discriminate]. Qed.

(** ** Conditions: what the constructors refuse (C5) *)

Lemma Percentile_init_spec (percentile value weight : R) :
  (0 <= percentile <= 1 /\
   Conditions.Percentile.__init__ percentile value weight =
     Returned {| Conditions.percentile := percentile; Conditions.value := value;
                 Conditions.pc_weight := weight |})
  \/ (~ (0 <= percentile <= 1) /\
      Conditions.Percentile.__init__ percentile value weight = Raised ValueError).
Proof.
  unfold Conditions.Percentile.__init__.
  destruct (Rleb 0 percentile) eqn:E0; destruct (Rleb percentile 1) eqn:E1; simpl;
    rewrite ?Rleb_true, ?Rleb_false in *; [left | right ..]; split; auto; lra.
Qed.

Lemma Interval_init_spec (p : R) (min max : pyfloat) (weight : R) :
  (elt (oval min) (oval max) = true /\ ele (oval max) (oval min) = false /\
   Conditions.Interval.__init__ p min max weight =
     Returned {| Conditions.p := p; Conditions.min := min; Conditions.max := max;
                 Conditions.weight := weight |})
  \/ (ele (oval max) (oval min) = true /\
      Conditions.Interval.__init__ p min max weight = Raised ValueError).
Proof.
  unfold Conditions.Interval.__init__.
  destruct (ele (oval max) (oval min)) eqn:E; [right | left]; auto.
  split; auto. apply ele_false_elt. assumption.
Qed.

(** C5.  [PercentileCondition(percentile, value, weight)] raises
    [ValueError] exactly when the percentile is outside [0,1] and otherwise
    returns the condition holding its arguments;
    [IntervalCondition(p, min, max, weight)] raises [ValueError] exactly when
    [max <= min] and otherwise returns the condition holding its arguments.
    The test is the constructor's own, so every condition a constructor
    returned satisfies its constraint. *)
Theorem condition_constructors_check_eagerly :
  (forall percentile value weight,
      Conditions.Percentile.__init__ percentile value weight = Raised ValueError
      <-> ~ (0 <= percentile <= 1))
  /\ (forall percentile value weight c,
         Conditions.Percentile.__init__ percentile value weight = Returned c
         <-> 0 <= percentile <= 1
             /\ c = {| Conditions.percentile := percentile; Conditions.value := value;
                       Conditions.pc_weight := weight |})
  /\ (forall p min max weight,
         Conditions.Interval.__init__ p min max weight = Raised ValueError
         <-> ele (oval max) (oval min) = true)
  /\ (forall p min max weight c,
         Conditions.Interval.__init__ p min max weight = Returned c
         <-> elt (oval min) (oval max) = true
             /\ c = {| Conditions.p := p; Conditions.min := min; Conditions.max := max;
                       Conditions.weight := weight |}).
Proof.
  split; [|split; [|split]].
  - intros percentile value weight.
    destruct (Percentile_init_spec percentile value weight) as [[I E]|[N E]];
      rewrite E; split; intros; try congruence; tauto.
  - intros percentile value weight c.
    destruct (Percentile_init_spec percentile value weight) as [[I E]|[N E]];
      rewrite E; split.
    + intros [= <-]. auto.
    + intros [_ ->]. reflexivity.
    + discriminate.
    + tauto.
  - intros p min max weight.
    destruct (Interval_init_spec p min max weight) as [[I [N E]]|[N E]];
      rewrite E; split; intros; congruence.
  - intros p min max weight c.
    destruct (Interval_init_spec p min max weight) as [[I [N E]]|[N E]];
      rewrite E; split.
    + intros [= <-]. auto.
    + intros [_ ->]. reflexivity.
    + discriminate.
    + intros [I _]. apply ele_false_elt in I. congruence.
Qed.

(** A percentile of 2 is refused, and so is the interval from 1 down to 0. *)
Lemma condition_constructors_check_eagerly_witness :
  Conditions.Percentile.__init__ 2 0 1 = Raised ValueError
  /\ Conditions.Interval.__init__ (1/2) {| oid := 2; oval := Fin 1 |}
       {| oid := 3; oval := Fin 0 |} 1 = Raised ValueError.
Proof.
  split.
  - apply (proj1 condition_constructors_check_eagerly 2 0 1). lra.
  - apply (proj1 (proj2 (proj2 condition_constructors_check_eagerly))).
    simpl. apply Rleb_true. lra.
Defined.

(** ** Location-scale distributions: the floor under the scale (C8) *)

(** C8.  Whatever location and scale the constructor of [LSDistribution]
    is given, zero and negative scales included, the scale attribute of the
    distribution is at least 0.0000001, so it is positive and never 0. *)
Theorem LSDistribution_scale_floor :
  forall cls loc scale metadata,
    0.0000001 <= LocationScale.scale (LocationScale.__init__ cls loc scale metadata)
    /\ 0 < LocationScale.scale (LocationScale.__init__ cls loc scale metadata)
    /\ LocationScale.scale (LocationScale.__init__ cls loc scale metadata) <> 0.
Proof.
  intros cls loc scale metadata. simpl.
  pose proof (Rmax_r scale 0.0000001). lra.
Qed.

(** ** Normalizing and denormalizing (C9) *)

Lemma normalize_denormalize_point (s : Scale.Scale) (x : R) :
  Scale.low s < Scale.high s ->
  Scale.denormalize_point s (Scale.normalize_point s x) = x.
Proof.
  intros H. unfold Scale.denormalize_point, Scale.normalize_point, Scale.range.
  field. lra.
Qed.

(** A logistic of scale 1 sent to the unit interval of the scale from 0 to
    one billion and back has scale 100: the normalized scale, 1e-9, is
    below the floor and is raised to it. *)
Lemma LSDistribution_round_trip_changes_scale :
  exists d' d'',
    LocationScale.normalize (LocationScale.__init__ LocationScale.Logistic 0 1 None)
                            0 1000000000 = Returned d'
    /\ LocationScale.denormalize d' 0 1000000000 = Returned d''
    /\ LocationScale.scale (LocationScale.__init__ LocationScale.Logistic 0 1 None) = 1
    /\ LocationScale.scale d'' = 100.
Proof.
  unfold LocationScale.normalize, LocationScale.denormalize.
  rewrite (Scale_init_ok 0 1000000000) by lra. simpl.
  eexists. eexists. split; [reflexivity|]. split; [reflexivity|].
  unfold Scale.range. simpl.
  split.
  - apply Rmax_left. lra.
  - rewrite (Rmax_left 1 0.0000001) by lra.
    rewrite (Rmax_right (1 / (1000000000 - 0)) 0.0000001) by lra.
    rewrite Rmax_left by lra. lra.
Qed.

(** C9 (amended).  For bounds [scale_min < scale_max], [normalize] and
    [denormalize] of a [MeanCondition] return a [MeanCondition] with the
    weight unchanged, and [denormalize] after [normalize] gives back the
    mean.  For an [LSDistribution] the round trip keeps the class and the
    metadata and gives back [loc]; it gives back [scale] when
    [scale / (scale_max - scale_min)] is at least the floor 0.0000001, and
    otherwise the result's scale is the larger of
    [0.0000001 * (scale_max - scale_min)] and 0.0000001. *)
Theorem normalize_denormalize_round_trip :
  forall (c : Mean.MeanCondition) cls loc scale metadata scale_min scale_max,
    scale_min < scale_max ->
    let d := LocationScale.__init__ cls loc scale metadata in
    let width := scale_max - scale_min in
    exists c' c'' d' d'',
      Mean.normalize c scale_min scale_max = Returned c'
      /\ Mean.weight c' = Mean.weight c
      /\ Mean.mean c' = (Mean.mean c - scale_min) / width
      /\ Mean.denormalize c' scale_min scale_max = Returned c''
      /\ c'' = c
      /\ LocationScale.normalize d scale_min scale_max = Returned d'
      /\ LocationScale.cls d' = cls
      /\ LocationScale.loc d' = (loc - scale_min) / width
      /\ LocationScale.denormalize d' scale_min scale_max = Returned d''
      /\ LocationScale.cls d'' = cls
      /\ LocationScale.metadata d'' = metadata
      /\ LocationScale.loc d'' = loc
      /\ (0.0000001 <= LocationScale.scale d / width ->
          LocationScale.scale d'' = LocationScale.scale d)
      /\ (LocationScale.scale d / width < 0.0000001 ->
          LocationScale.scale d'' = Rmax (0.0000001 * width) 0.0000001).
Proof.
  intros c cls loc scale metadata scale_min scale_max H d width.
  unfold Mean.normalize, Mean.denormalize, LocationScale.normalize,
    LocationScale.denormalize.
  rewrite (Scale_init_ok _ _ H). simpl.
  do 4 eexists.
  split; [reflexivity|]. split; [reflexivity|]. split; [reflexivity|].
  split; [reflexivity|].
  split.
  { destruct c as [m w]. unfold Mean.__init__. simpl. f_equal.
    apply (normalize_denormalize_point {| Scale.low := scale_min; Scale.high := scale_max |}).
    simpl. assumption. }
  split; [reflexivity|]. split; [reflexivity|]. split; [reflexivity|].
  split; [reflexivity|]. split; [reflexivity|]. split; [reflexivity|].
  split.
  { apply (normalize_denormalize_point {| Scale.low := scale_min; Scale.high := scale_max |}).
    simpl. assumption. }
  unfold Scale.range. simpl. fold width.
  assert (Hw : 0 < width) by (unfold width; lra).
  assert (Hs : 0.0000001 <= Rmax scale 0.0000001) by apply Rmax_r.
  split.
  - intros Hge.
    rewrite (Rmax_left (Rmax scale 0.0000001 / width)) by assumption.
    replace (Rmax scale 0.0000001 / width * width) with (Rmax scale 0.0000001)
      by (field; lra).
    apply Rmax_left. assumption.
  - intros Hlt.
    rewrite (Rmax_right (Rmax scale 0.0000001 / width)) by lra.
    reflexivity.
Qed.

(** The mean 3 and a logistic at 2 of scale 1, on the scale from 0 to 10. *)
Lemma normalize_denormalize_round_trip_witness :
  exists c' c'' d' d'',
    Mean.normalize (Mean.__init__ 3 1) 0 10 = Returned c'
    /\ Mean.weight c' = 1
    /\ Mean.mean c' = (3 - 0) / (10 - 0)
    /\ Mean.denormalize c' 0 10 = Returned c''
    /\ c'' = Mean.__init__ 3 1
    /\ LocationScale.normalize (LocationScale.__init__ LocationScale.Logistic 2 1 None)
         0 10 = Returned d'
    /\ LocationScale.cls d' = LocationScale.Logistic
    /\ LocationScale.loc d' = (2 - 0) / (10 - 0)
    /\ LocationScale.denormalize d' 0 10 = Returned d''
    /\ LocationScale.cls d'' = LocationScale.Logistic
    /\ LocationScale.metadata d'' = None
    /\ LocationScale.loc d'' = 2
    /\ (0.0000001 <=
        LocationScale.scale (LocationScale.__init__ LocationScale.Logistic 2 1 None)
        / (10 - 0) ->
        LocationScale.scale d'' =
        LocationScale.scale (LocationScale.__init__ LocationScale.Logistic 2 1 None))
    /\ (LocationScale.scale (LocationScale.__init__ LocationScale.Logistic 2 1 None)
        / (10 - 0) < 0.0000001 ->
        LocationScale.scale d'' = Rmax (0.0000001 * (10 - 0)) 0.0000001).
Proof.
  apply (normalize_denormalize_round_trip (Mean.__init__ 3 1) LocationScale.Logistic
           2 1 None 0 10).
  lra.
Defined.

(** ** Maximum likelihood fit of one logistic (C10) *)

Lemma clamp_bounds (x lo hi : R) : lo <= hi -> lo <= Rmin (Rmax x lo) hi <= hi.
Proof.
  intros H. unfold Rmin, Rmax.
  repeat match goal with |- context [Rle_dec ?a ?b] => destruct (Rle_dec a b) end; lra.
Qed.

(** C10.  Whenever [fit_single_scipy] returns, scipy's fit returned some
    estimates [(mle_loc, mle_scale)] and the returned parameters are those
    estimates clamped, without any signal, into [-0.1565, 1.1565] and
    [0.02, 10]; and it returns whenever scipy's fit does. *)
Theorem fit_single_scipy_clamps :
  forall (logistic_fit : list R -> outcome (R * R)) samples,
    (forall params,
        Logistic.fit_single_scipy logistic_fit samples = Returned params ->
        exists mle_loc mle_scale loc scale,
          logistic_fit samples = Returned (mle_loc, mle_scale)
          /\ params = {| Logistic.loc := Logistic.Num loc;
                         Logistic.scale := Logistic.Num scale |}
          /\ scale = Rmin (Rmax mle_scale 0.02) 10
          /\ loc = Rmin (Rmax mle_loc (-0.1565)) 1.1565
          /\ 0.02 <= scale <= 10
          /\ -0.1565 <= loc <= 1.1565)
    /\ (forall mle, logistic_fit samples = Returned mle ->
                    exists params,
                      Logistic.fit_single_scipy logistic_fit samples = Returned params)
    /\ (forall e, logistic_fit samples = Raised e ->
                  Logistic.fit_single_scipy logistic_fit samples = Raised e).
Proof.
  intros logistic_fit samples. unfold Logistic.fit_single_scipy.
  repeat split.
  - intros params H. apply bind_Returned in H. destruct H as [[l s] [E H]].
    injection H as <-.
    exists l, s. do 2 eexists. split; [exact E|]. split; [reflexivity|].
    split; [reflexivity|]. split; [reflexivity|].
    split; apply clamp_bounds; lra.
  - intros [l s] E. rewrite E. simpl. eexists. reflexivity.
  - intros e E. rewrite E. reflexivity.
Qed.

(** Estimates (5, 0), far outside both ranges, come back as (1.1565, 0.02). *)
Lemma fit_single_scipy_clamps_witness :
  exists mle_loc mle_scale loc scale,
    Returned (5, 0) = Returned (mle_loc, mle_scale)
    /\ {| Logistic.loc := Logistic.Num (Rmin (Rmax 5 (-0.1565)) 1.1565);
          Logistic.scale := Logistic.Num (Rmin (Rmax 0 0.02) 10) |}
       = {| Logistic.loc := Logistic.Num loc; Logistic.scale := Logistic.Num scale |}
    /\ scale = Rmin (Rmax mle_scale 0.02) 10
    /\ loc = Rmin (Rmax mle_loc (-0.1565)) 1.1565
    /\ 0.02 <= scale <= 10
    /\ -0.1565 <= loc <= 1.1565.
Proof.
  apply (proj1 (fit_single_scipy_clamps (fun _ => Returned (5, 0)) [])).
  reflexivity.
Defined.

(** ** The cumulative distribution functions (C1) *)

Lemma expit_pos (y : R) : 0 < Np.expit y.
Proof.
  unfold Np.expit. pose proof (exp_pos (- y)).
  apply Rdiv_lt_0_compat; lra.
Qed.

Lemma expit_lt_1 (y : R) : Np.expit y < 1.
Proof.
  unfold Np.expit. pose proof (exp_pos (- y)).
  apply (Rmult_lt_reg_r (1 + exp (- y))); [lra|].
  unfold Rdiv. rewrite Rmult_assoc, Rinv_l by lra. lra.
Qed.

Lemma expit_increasing (a b : R) : a < b -> Np.expit a < Np.expit b.
Proof.
  intros H. unfold Np.expit.
  pose proof (exp_pos (- a)). pose proof (exp_pos (- b)).
  assert (exp (- b) < exp (- a)) by (apply exp_increasing; lra).
  unfold Rdiv. rewrite !Rmult_1_l.
  apply Rinv_lt_contravar; [nra | lra].
Qed.

Lemma expit_0 : Np.expit 0 = 1 / 2.
Proof. unfold Np.expit. rewrite Ropp_0, exp_0. lra. Qed.

(** Evaluating comparisons of numerals. *)
Ltac numeral :=
  unfold Scale.normalize_point, Scale.denormalize_point, Scale.range; simpl; lra.

Ltac decide_R :=
  repeat match goal with
    | |- context [Rleb ?a ?b] =>
        first [ rewrite (proj2 (Rleb_true a b)) by numeral
              | rewrite (proj2 (Rleb_false a b)) by numeral ]
    | |- context [Rltb ?a ?b] =>
        first [ rewrite (proj2 (Rltb_true a b)) by numeral
              | rewrite (proj2 (Rltb_false a b)) by numeral ]
    end.

Lemma exp_minus_ln_2 : exp (- ln 2) = 1 / 2.
Proof. rewrite exp_Ropp, exp_ln by lra. lra. Qed.

Lemma from_params_two_bins : Histogram.from_params [0; 0] = Returned two_bins.
Proof.
  unfold Histogram.from_params, Np.log_softmax, Histogram.__init__. simpl.
  rewrite Scale_init_unit. simpl. unfold two_bins, Np.cumsum, Np.linspace. simpl.
  rewrite exp_0.
  replace (1 + (1 + 0)) with 2 by lra.
  replace (0 - ln 2) with (- ln 2) by lra.
  rewrite exp_minus_ln_2.
  unfold Scale.denormalize_points, Scale.denormalize_point, Scale.range. simpl.
  replace (0 + 0 * ((1 - 0) / 1)) with 0 by lra.
  replace (0 + 1 * ((1 - 0) / 1)) with 1 by lra.
  replace (0 * (1 - 0) + 0) with 0 by lra.
  replace (1 * (1 - 0) + 0) with 1 by lra.
  replace (0 + 1 / 2) with (1 / 2) by lra.
  replace (1 / 2 + 1 / 2) with 1 by lra.
  reflexivity.
Qed.

(** In a truncated mixture of one logistic the value at the ceiling is the
    untruncated cdf there over the mass between floor and ceiling, which
    is smaller: the value is above 1. *)
Lemma truncated_cdf_at_ceiling (loc scale floor ceiling : R) :
  floor < ceiling ->
  1 < TruncatedMixture.cdf_
        {| TruncatedMixture.components :=
             [LocationScale.__init__ LocationScale.Logistic loc scale None];
           TruncatedMixture.probs := [1];
           TruncatedMixture.floor := floor;
           TruncatedMixture.ceiling := ceiling |} (Fin ceiling).
Proof.
  intros H.
  unfold TruncatedMixture.cdf_, TruncatedMixture.p_inside, TruncatedMixture.mixture_cdf.
  simpl.
  rewrite (proj2 (Rltb_false ceiling floor)) by lra.
  rewrite (proj2 (Rltb_false ceiling ceiling)) by lra.
  simpl.
  set (s := Rmax scale 0.0000001).
  assert (Hs : 0 < s) by (unfold s; pose proof (Rmax_r scale 0.0000001); lra).
  set (Fc := Np.expit ((ceiling - loc) / s)).
  set (Ff := Np.expit ((floor - loc) / s)).
  assert (Hlt : Ff < Fc).
  { apply expit_increasing. unfold Rdiv.
    apply Rmult_lt_compat_r; [apply Rinv_0_lt_compat; assumption | lra]. }
  assert (Hf : 0 < Ff) by apply expit_pos.
  replace (1 - (Ff * 1 + 0 + (1 - (Fc * 1 + 0)))) with (Fc - Ff) by lra.
  replace (Fc * 1 + 0) with Fc by lra.
  apply (Rmult_lt_reg_r (Fc - Ff)); [lra|].
  unfold Rdiv. rewrite Rmult_assoc, Rinv_l by lra. lra.
Qed.

(** At the floor the value is the untruncated mass below the floor over
    the mass between floor and ceiling; for the standard logistic between
    -1 and 0 that is at least 1, since e <= 3. *)
Lemma truncated_cdf_at_floor : 1 <= TruncatedMixture.cdf_ one_logistic (Fin (-1)).
Proof.
  unfold TruncatedMixture.cdf_, TruncatedMixture.p_inside, TruncatedMixture.mixture_cdf,
    one_logistic.
  simpl. decide_R. simpl.
  rewrite (Rmax_left 1 0.0000001) by lra.
  replace ((0 - 0) / 1) with 0 by lra.
  replace ((-1 - 0) / 1) with (- (1)) by lra.
  rewrite expit_0. unfold Np.expit. rewrite Ropp_involutive.
  pose proof exp_le_3 as H3. pose proof (exp_pos 1) as H0.
  set (e := exp 1) in *.
  assert (Hq : 1 / 4 <= 1 / (1 + e)).
  { unfold Rdiv. rewrite !Rmult_1_l. apply Rinv_le_contravar; lra. }
  assert (Hh : 1 / (1 + e) < 1 / 2).
  { unfold Rdiv. rewrite !Rmult_1_l. apply Rinv_lt_contravar; [nra | ].
    pose proof (exp_increasing 0 1 ltac:(lra)) as Hi. rewrite exp_0 in Hi.
    fold e in Hi. lra. }
  set (F := 1 / (1 + e)) in *.
  replace (1 - (F * 1 + 0 + (1 - (1 / 2 * 1 + 0)))) with (1 / 2 - F) by lra.
  replace (F * 1 + 0) with F by lra.
  apply (Rmult_le_reg_r (1 / 2 - F)); [lra|].
  replace (F / (1 / 2 - F) * (1 / 2 - F)) with F by (field; lra).
  lra.
Qed.

(** C1, on the code.  The truncated mixture of one standard logistic
    between -1 and 0 has a cdf value of at least 1 at the floor -1, a value
    above 1 at the ceiling 0, and the value 1 at the larger point 1: the
    cdf leaves [0,1], is not monotone, and is near neither 0 at the low
    boundary nor 1 at the high one.  The histogram of two equal bins has
    cdf 1 at the high boundary 1 and one half at the larger point 2, and
    one half at the low boundary 0. *)
Theorem cdf_not_monotone_nor_bounded :
  (exists v, cdf one_logistic (Fin (-1)) = Returned v /\ 1 <= v)
  /\ (exists v, cdf one_logistic (Fin 0) = Returned v /\ 1 < v)
  /\ cdf one_logistic (Fin 1) = Returned 1
  /\ Histogram.from_params [0; 0] = Returned two_bins
  /\ cdf two_bins (Fin 0) = Returned (1 / 2)
  /\ cdf two_bins (Fin 1) = Returned 1
  /\ cdf two_bins (Fin 2) = Returned (1 / 2).
Proof.
  split; [|split; [|split; [|split; [|split; [|split]]]]].
  - eexists. split; [reflexivity|]. apply truncated_cdf_at_floor.
  - eexists. split; [reflexivity|].
    apply (truncated_cdf_at_ceiling 0 1 (-1) 0). lra.
  - simpl. unfold TruncatedMixture.cdf_. simpl. decide_R. reflexivity.
  - apply from_params_two_bins.
  - simpl. unfold Histogram.cdf_, Histogram.bin_of. simpl. decide_R. reflexivity.
  - simpl. unfold Histogram.cdf_, Histogram.bin_of. simpl. decide_R. reflexivity.
  - simpl. unfold Histogram.cdf_, Histogram.bin_of. simpl. decide_R. reflexivity.
Qed.

(** ** The loss of an interval condition (C4) *)

Lemma is_not_fresh (o : pyfloat) (v : ereal) (h : heap) :
  live h o -> is_not o (fst (float_new v h)) = true.
Proof.
  unfold live, is_not, float_new. simpl. intros H.
  apply negb_true_iff, Nat.eqb_neq. lia.
Qed.

(** The float made inside [loss] is a new object, so neither [is not] test
    can fail: the cdf is asked at both bounds, whatever their values. *)
Lemma Interval_loss_queries_both_bounds {D : Type} `{Distribution D}
      (self : Conditions.IntervalCondition) (dist : D) (h : heap) :
  live h (Conditions.min self) ->
  live h (Conditions.max self) ->
  fst (Conditions.Interval.loss self dist h) =
    (cdf_at_min <- cdf dist (oval (Conditions.min self)) ;;
     cdf_at_max <- cdf dist (oval (Conditions.max self)) ;;
     Returned (Conditions.weight self
               * (cdf_at_max - cdf_at_min - Conditions.p self) ^ 2)).
Proof.
  intros Hmin Hmax. unfold Conditions.Interval.loss.
  pose proof (is_not_fresh _ NInf h Hmin) as E1.
  assert (Hmax' : live (S h) (Conditions.max self)) by (unfold live in *; lia).
  pose proof (is_not_fresh _ PInf (S h) Hmax') as E2.
  simpl in E1, E2. simpl. rewrite E1.
  destruct (cdf dist (oval (Conditions.min self))) as [lo|e]; simpl; [|reflexivity].
  rewrite E2.
  destruct (cdf dist (oval (Conditions.max self))) as [hi|e]; reflexivity.
Qed.

Lemma cdf_two_bins_half : cdf two_bins (Fin (1 / 2)) = Returned 1.
Proof. simpl. unfold Histogram.cdf_, Histogram.bin_of. simpl. decide_R. reflexivity. Qed.

Lemma cdf_two_bins_NInf : cdf two_bins NInf = Returned (1 / 2).
Proof. reflexivity. Qed.

Lemma cdf_two_bins_PInf : cdf two_bins PInf = Returned (1 / 2).
Proof. reflexivity. Qed.

(** C4, on the code.  For the histogram of two equal bins,
    [IntervalCondition(p=0.5, max=0.5)] has loss 0: the cdf is asked at the
    lower bound minus infinity and answers one half, where the claim puts
    the constant 0 and arrives at the loss one quarter.
    [IntervalCondition(p=0.5, min=0.5)] has loss 1: the cdf is asked at plus
    infinity and answers one half, where the claim puts the constant 1 and
    arrives at one quarter. *)
Theorem interval_loss_asks_cdf_at_infinity :
  Conditions.Interval.__init__ (1 / 2) Conditions.default_min
    {| oid := 2; oval := Fin (1 / 2) |} 1 = Returned below_half
  /\ Conditions.Interval.__init__ (1 / 2) {| oid := 2; oval := Fin (1 / 2) |}
       Conditions.default_max 1 = Returned above_half
  /\ cdf two_bins NInf = Returned (1 / 2)
  /\ cdf two_bins (Fin (1 / 2)) = Returned 1
  /\ cdf two_bins PInf = Returned (1 / 2)
  /\ fst (Conditions.Interval.loss below_half two_bins 3%nat) = Returned 0
  /\ 1 * (1 - 0 - 1 / 2) ^ 2 = 1 / 4
  /\ fst (Conditions.Interval.loss above_half two_bins 3%nat) = Returned 1
  /\ 1 * (1 - 1 - 1 / 2) ^ 2 = 1 / 4.
Proof.
  split; [|split; [|split; [|split; [|split; [|split; [|split; [|split]]]]]]].
  - reflexivity.
  - unfold Conditions.Interval.__init__. simpl. reflexivity.
  - apply cdf_two_bins_NInf.
  - apply cdf_two_bins_half.
  - apply cdf_two_bins_PInf.
  - rewrite Interval_loss_queries_both_bounds
      by (unfold live, below_half; simpl; lia).
    unfold below_half at 1 2. simpl oval.
    rewrite cdf_two_bins_NInf, cdf_two_bins_half. simpl. f_equal. lra.
  - lra.
  - rewrite Interval_loss_queries_both_bounds
      by (unfold live, above_half; simpl; lia).
    unfold above_half at 1 2. simpl oval.
    rewrite cdf_two_bins_PInf, cdf_two_bins_half. simpl. f_equal. lra.
  - lra.
Qed.

(** ** The total loss of the fitting engine (C3) *)

Lemma fold_Raised {A B : Type} (f : outcome A -> B -> outcome A) (l : list B) (e : exn) :
  (forall b, f (Raised e) b = Raised e) ->
  fold_left f l (Raised e) = Raised e.
Proof. intros Hf. induction l as [|b l IH]; simpl; [reflexivity|]. rewrite Hf. exact IH. Qed.

Lemma fold_left_ext {A B : Type} (f g : A -> B -> A) (l : list B) (a : A) :
  (forall x b, f x b = g x b) -> fold_left f l a = fold_left g l a.
Proof.
  intros H. revert a. induction l as [|b l IH]; intros a; simpl; [reflexivity|].
  rewrite H. apply IH.
Qed.

(** From any running total, a loop that adds one hundred times each loss
    ends on the total plus one hundred times their sum, or on the first
    error. *)
Lemma scaled_sum_from {B : Type} (g : B -> outcome R) (l : list B) (a : R) :
  fold_left (fun total_loss b =>
               total <- total_loss ;;
               x <- (y <- g b ;; Returned (y * 100)) ;;
               Returned (total + x)) l (Returned a)
  = fmap (fun ls => a + 100 * Np.sum ls) (mapM g l).
Proof.
  revert a. induction l as [|b l IH]; intros a.
  - simpl. f_equal. lra.
  - cbn [fold_left mapM]. destruct (g b) as [y|e]; cbn [bind].
    + rewrite IH. unfold fmap. destruct (mapM g l) as [ls|e]; simpl; [|reflexivity].
      f_equal. lra.
    + apply fold_Raised. reflexivity.
Qed.

(** C3 (amended).  [static_loss] is one hundred times the sum, over the
    class/parameter pairs that [zip] pairs up, of the loss of the condition
    rebuilt from the pair on the histogram rebuilt from the distribution
    parameters; the condition's own loss carries its weight.  When
    rebuilding or a loss raises, the first such error is the result. *)
Theorem static_loss_is_scaled_sum :
  forall {cond_class cond_param condition : Type}
         (structure_condition : cond_class -> cond_param -> outcome condition)
         (loss : condition -> Histogram.HistogramDist -> outcome R)
         (dist_params : list R) (cond_classes : list cond_class)
         (cond_params : list cond_param),
    Histogram.static_loss structure_condition loss dist_params cond_classes cond_params
    = fmap (fun losses => 100 * Np.sum losses)
           (mapM (fun cp =>
                    dist <- Histogram.from_params dist_params ;;
                    condition <- structure_condition (fst cp) (snd cp) ;;
                    loss condition dist)
                 (combine cond_classes cond_params)).
Proof.
  intros. unfold Histogram.static_loss.
  rewrite (fold_left_ext _
             (fun total_loss b =>
                total <- total_loss ;;
                x <- (y <- (dist <- Histogram.from_params dist_params ;;
                            condition <- structure_condition (fst b) (snd b) ;;
                            loss condition dist) ;;
                      Returned (y * 100)) ;;
                Returned (total + x))).
  - rewrite scaled_sum_from. unfold fmap.
    match goal with |- context [mapM ?f ?l] => destruct (mapM f l) as [ls|e] end;
      simpl; [|reflexivity].
    f_equal. lra.
  - intros total [k q]. unfold Histogram.static_condition_loss. cbn [fst snd].
    destruct total as [t|e]; cbn [bind]; [|reflexivity].
    destruct (Histogram.from_params dist_params) as [d|e]; cbn [bind]; [|reflexivity].
    destruct (structure_condition k q) as [c|e]; cbn [bind]; [|reflexivity].
    destruct (loss c d) as [x|e]; reflexivity.
Qed.

(** One condition, [PercentileCondition(percentile=0, value=0.5,
    weight=1)], its class standing for its [structure] method, and the
    parameters (0, 0), a histogram of two equal bins: the weighted loss of
    the condition is 1 and [static_loss] is 100. *)
Lemma static_loss_is_not_the_sum :
  Histogram.static_loss (fun cond_class cond_param => cond_class cond_param)
    Conditions.Percentile.loss [0; 0]
    [Conditions.Percentile.structure] [VTuple [VNum 0; VNum (1 / 2); VNum 1]]
  = Returned 100
  /\ (dist <- Histogram.from_params [0; 0] ;;
      condition <- Conditions.Percentile.structure
                     (VTuple [VNum 0; VNum (1 / 2); VNum 1]) ;;
      Conditions.Percentile.loss condition dist) = Returned 1
  /\ 100 <> 1.
Proof.
  assert (E : Conditions.Percentile.structure (VTuple [VNum 0; VNum (1 / 2); VNum 1])
              = Returned {| Conditions.percentile := 0; Conditions.value := 1 / 2;
                            Conditions.pc_weight := 1 |}).
  { simpl. destruct (Percentile_init_spec 0 (1 / 2) 1) as [[_ I]|[N _]]; [exact I | lra]. }
  split; [|split].
  - unfold Histogram.static_loss, Histogram.static_condition_loss.
    cbn [combine fold_left bind].
    rewrite from_params_two_bins, E. cbn [bind].
    unfold Conditions.Percentile.loss. cbn [Conditions.value].
    rewrite cdf_two_bins_half. simpl. f_equal. lra.
  - rewrite from_params_two_bins, E. cbn [bind].
    unfold Conditions.Percentile.loss. cbn [Conditions.value].
    rewrite cdf_two_bins_half. simpl. f_equal. lra.
  - lra.
Qed.

(** ** Rebuilding a truncated mixture from raw parameters (C6) *)

Lemma sum_map_div {A : Type} (f : A -> R) (s : R) (l : list A) :
  Np.sum (map (fun a => f a / s) l) = Np.sum (map f l) / s.
Proof.
  induction l as [|a l IH]; simpl.
  - unfold Rdiv. rewrite Rmult_0_l. reflexivity.
  - rewrite IH. unfold Rdiv. rewrite Rmult_plus_distr_r. reflexivity.
Qed.

Lemma sum_exp_pos (l : list R) : l <> [] -> 0 < Np.sum (map exp l).
Proof.
  destruct l as [|x l]; [congruence|]. intros _. simpl.
  assert (H : 0 <= Np.sum (map exp l)).
  { induction l as [|y l IH]; simpl; [lra|]. pose proof (exp_pos y). lra. }
  pose proof (exp_pos x). lra.
Qed.

Lemma softmax_nonempty (x : list R) :
  x <> [] -> Np.softmax x = Returned (map (fun xi => exp xi / Np.sum (map exp x)) x).
Proof. reflexivity. Qed.

(** What [softmax] returns: positive entries, one for each entry of the
    array, which sum to 1 unless the array is empty. *)
Lemma softmax_Returned (x probs : list R) :
  Np.softmax x = Returned probs ->
  probs = map (fun xi => exp xi / Np.sum (map exp x)) x
  /\ Forall (fun p => 0 < p) probs
  /\ (x <> [] -> Np.sum probs = 1).
Proof.
  intros H. injection H as <-.
  split; [reflexivity|]. split.
  - apply Forall_forall. intros p Hp. apply in_map_iff in Hp.
    destruct Hp as [xi [<- Hin]]. apply Rdiv_lt_0_compat; [apply exp_pos|].
    apply sum_exp_pos. intros ->. contradiction.
  - intros Hne. pose proof (sum_exp_pos _ Hne) as Hpos.
    rewrite (sum_map_div exp). unfold Rdiv. apply Rinv_r. lra.
Qed.

Lemma reshape3_rows (n : nat) :
  forall l, List.length l = (3 * n)%nat ->
            exists rows, TruncatedMixture.reshape3 l = Returned rows
                         /\ List.length rows = n.
Proof.
  induction n as [|n IH]; intros l Hl.
  - destruct l; [|simpl in Hl; lia]. exists []. split; reflexivity.
  - destruct l as [|a [|b [|c l]]]; simpl in Hl; try lia.
    destruct (IH l) as [rows [E Hr]]; [lia|].
    exists ((a, b, c) :: rows). simpl. rewrite E. simpl. split; [reflexivity | lia].
Qed.

Lemma reshape3_nil (l : list R) :
  TruncatedMixture.reshape3 l = Returned [] -> l = [].
Proof.
  destruct l as [|a [|b [|c l]]]; simpl; try discriminate; [reflexivity|].
  destruct (TruncatedMixture.reshape3 l); discriminate.
Qed.

Lemma map_combine_same {A B C D : Type} (f : A -> B) (g : A -> C) (h : B * C -> D)
      (l : list A) :
  map h (combine (map f l) (map g l)) = map (fun a => h (f a, g a)) l.
Proof. induction l as [|a l IH]; simpl; [reflexivity|]. rewrite IH. reflexivity. Qed.




(** ** Gradient ascent on the mixture likelihood (C7) *)

Lemma mapM_Returned {A B : Type} (f : A -> outcome B) (g : A -> B) (l : list A) :
  (forall a, In a l -> f a = Returned (g a)) ->
  mapM f l = Returned (map g l).
Proof.
  induction l as [|a l IH]; intros H; simpl; [reflexivity|].
  rewrite (H a) by (left; reflexivity). simpl.
  rewrite IH by (intros; apply H; right; assumption). reflexivity.
Qed.

Lemma log_softmax_nonempty (x : list R) :
  x <> [] ->
  Np.log_softmax x = Returned (map (fun xi => xi - ln (Np.sum (map exp x))) x).
Proof. reflexivity. Qed.

Lemma numbers_Num (l : list R) : Logistic.numbers (map Logistic.Num l) = Some l.
Proof. induction l as [|x l IH]; simpl; [reflexivity|]. simpl in IH. rewrite IH. reflexivity. Qed.

Lemma mapM_exists {A B : Type} (f : A -> outcome B) (l : list A) :
  (forall a, In a l -> exists b, f a = Returned b) ->
  exists bs, mapM f l = Returned bs /\ List.length bs = List.length l.
Proof.
  induction l as [|a l IH]; intros H; simpl.
  - exists []. split; reflexivity.
  - destruct (H a) as [b Eb]; [left; reflexivity|]. rewrite Eb. simpl.
    destruct IH as [bs [Ebs Hl]]; [intros; apply H; right; assumption|].
    rewrite Ebs. simpl. exists (b :: bs). split; [reflexivity | simpl; lia].
Qed.

Lemma log_softmax_total (l : list Logistic.npfloat) :
  exists logps, Logistic.log_softmax l = Returned logps
                /\ List.length logps = List.length l.
Proof.
  unfold Logistic.log_softmax. destruct (Logistic.numbers l) as [rs|] eqn:E.
  - unfold Np.log_softmax. cbn [fmap bind]. eexists. split; [reflexivity|].
    rewrite !length_map. clear -E. revert rs E.
    induction l as [|x l IH]; intros rs E; simpl in E.
    + injection E as <-. reflexivity.
    + destruct x as [r|]; [|discriminate].
      fold (Logistic.numbers l) in E.
      destruct (Logistic.numbers l) as [rs'|] eqn:E'; [|discriminate].
      injection E as <-. simpl. f_equal. apply IH. reflexivity.
  - eexists. split; [reflexivity|]. apply length_map.
Qed.

(** Components of three entries a row are turned into parameters without
    an error, one logistic and one probability a row. *)
Lemma structure_rows_of_three (m : Logistic.matrix) :
  Forall (fun n => n = 3%nat) (Logistic.shape m) ->
  exists params,
    Logistic.structure_mixture_params m = Returned params
    /\ List.length (Logistic.components params) = List.length m
    /\ List.length (Logistic.probs params) = List.length m.
Proof.
  intros Hm.
  assert (Hrow : forall row, In row m -> exists a b c, row = [a; b; c]).
  { intros row Hin. unfold Logistic.shape in Hm. rewrite Forall_forall in Hm.
    specialize (Hm (List.length row) (in_map _ _ _ Hin)).
    destruct row as [|a [|b [|c [|? ?]]]]; try discriminate. eauto. }
  unfold Logistic.structure_mixture_params.
  destruct (mapM_exists (fun component : list Logistic.npfloat => Np.getitem component 2) m)
    as [ws [Ews Hws]].
  { intros row Hin. destruct (Hrow row Hin) as [a [b [c ->]]]. eexists. reflexivity. }
  rewrite Ews. cbn [bind].
  destruct (log_softmax_total ws) as [logps [El Hl]]. rewrite El. cbn [bind].
  match goal with
  | |- context [mapM ?f m] => destruct (mapM_exists f m) as [cs [Ecs Hcs]]
  end.
  { intros row Hin. destruct (Hrow row Hin) as [a [b [c ->]]]. eexists. reflexivity. }
  rewrite Ecs. cbn [bind]. eexists. split; [reflexivity|].
  cbn [Logistic.components Logistic.probs]. rewrite length_map. split; lia.
Qed.

Lemma shape_initialize_components (num_components : nat) (draws : list (R * R * R)) :
  Forall (fun n => n = 3%nat)
         (Logistic.shape (Logistic.initialize_components num_components draws)).
Proof.
  unfold Logistic.shape, Logistic.initialize_components. rewrite map_map.
  apply Forall_forall. intros n Hin. apply in_map_iff in Hin.
  destruct Hin as [[[u0 u1] u2] [<- _]]. reflexivity.
Qed.

Lemma shape_madd (a : Logistic.matrix) :
  forall b, Logistic.shape b = Logistic.shape a ->
            Logistic.shape (Logistic.madd a b) = Logistic.shape a.
Proof.
  unfold Logistic.shape, Logistic.madd.
  induction a as [|ra a IH]; intros [|rb b] H; simpl in *; try discriminate;
    [reflexivity|].
  injection H as Hr Hrest. f_equal.
  - rewrite length_map, length_combine, Hr. apply Nat.min_id.
  - apply IH. exact Hrest.
Qed.

Lemma shape_mscale (c : R) (a : Logistic.matrix) :
  Logistic.shape (Logistic.mscale c a) = Logistic.shape a.
Proof.
  unfold Logistic.shape, Logistic.mscale. rewrite map_map.
  apply map_ext. intros row. apply length_map.
Qed.

Section Descent.

Variable grad_mixture_logpdf : list R -> Logistic.matrix -> Logistic.matrix.
Variable clip_grads : Logistic.matrix -> R -> Logistic.matrix.

(** The loop is left at the first pass whose NaN test fires, with the
    components as they stand at that pass. *)
Lemma descend_first_nan (data : list R) (k : nat) :
  forall (n : nat) (components : Logistic.matrix),
    (k < n)%nat ->
    (forall j, (j < k)%nat ->
               Logistic.diverged grad_mixture_logpdf clip_grads data
                 (Logistic.after grad_mixture_logpdf clip_grads j data components)
               = false) ->
    Logistic.diverged grad_mixture_logpdf clip_grads data
      (Logistic.after grad_mixture_logpdf clip_grads k data components) = true ->
    Logistic.descend grad_mixture_logpdf clip_grads n data components
    = Logistic.after grad_mixture_logpdf clip_grads k data components.
Proof.
  induction k as [|k IH]; intros n components Hn Hbefore Hat.
  - destruct n as [|n]; [lia|]. simpl in *. rewrite Hat. reflexivity.
  - destruct n as [|n]; [lia|]. simpl.
    pose proof (Hbefore 0%nat ltac:(lia)) as H0. simpl in H0. rewrite H0.
    apply IH; [lia | | exact Hat].
    intros j Hj. apply (Hbefore (S j)). lia.
Qed.

(** When the clipped gradient has the shape of the components, so have
    the components after every pass. *)
Lemma shape_after (data : list R) (k : nat) :
  (forall m, Logistic.shape (clip_grads (grad_mixture_logpdf data m) 1) = Logistic.shape m) ->
  forall components,
    Logistic.shape (Logistic.after grad_mixture_logpdf clip_grads k data components)
    = Logistic.shape components.
Proof.
  intros Hshape. induction k as [|k IH]; intros components; simpl; [reflexivity|].
  rewrite IH. unfold Logistic.update. apply shape_madd.
  rewrite shape_mscale. apply Hshape.
Qed.

End Descent.




(** ** Structure and destructure (C2) *)

Lemma as_array_numbers (l : list R) : as_array (VList (map VNum l)) = Returned l.
Proof.
  simpl. rewrite (mapM_Returned _ (fun v => match v with VNum r => r | _ => 0 end)).
  - rewrite map_map. simpl. rewrite map_id. reflexivity.
  - intros v Hin. apply in_map_iff in Hin. destruct Hin as [r [<- _]]. reflexivity.
Qed.

(** A point density goes through [structure(destructure())] unchanged, the
    way the package's test calls it. *)
Lemma PointDensity_structure_destructure
      (bin_sizes xs densities : list R) (s : Scale.Scale) (normalized traceable : bool)
      (cumulative_normed_ps : option (list R)) (d : PointDensity.PointDensity) :
  Scale.low s < Scale.high s ->
  PointDensity.__init__ bin_sizes xs densities (Some s) normalized traceable
    cumulative_normed_ps = Returned d ->
  PointDensity.structure bin_sizes (PointDensity.destructure d) = Returned d.
Proof.
  intros Hs H. unfold PointDensity.__init__ in H.
  apply bind_Returned in H. destruct H as [bp [Ebp H]]. injection H as <-.
  unfold PointDensity.structure, PointDensity.destructure. cbn.
  rewrite (Scale_init_ok _ _ Hs). cbn. rewrite Ebp. cbn.
  destruct s. reflexivity.
Qed.

(** A truncated mixture whose components are logistics without metadata,
    as [from_params] builds them, goes through [structure] of the payload
    of [destructure] unchanged. *)
Lemma TruncatedMixture_structure_payload (d : TruncatedMixture.TruncatedLogisticMixture) :
  Forall (fun c => exists l s, c = LocationScale.__init__ LocationScale.Logistic l s None)
         (TruncatedMixture.components d) ->
  exists params,
    subscript (TruncatedMixture.destructure d) 1 = Returned params
    /\ TruncatedMixture.structure params = Returned d.
Proof.
  intros Hc. eexists. split; [reflexivity|].
  unfold TruncatedMixture.structure. cbn [unpack3 items bind].
  rewrite (mapM_Returned _
             (fun v => match v with
                       | VTuple [VNum l; VNum s] =>
                           LocationScale.__init__ LocationScale.Logistic l s None
                       | _ => LocationScale.__init__ LocationScale.Logistic 0 0 None
                       end))
    by (intros v Hin; apply in_map_iff in Hin; destruct Hin as [c [<- _]]; reflexivity).
  cbn [bind subscript nth_error]. rewrite as_array_numbers. cbn [bind as_num].
  rewrite map_map.
  replace (map _ (TruncatedMixture.components d)) with (TruncatedMixture.components d).
  - destruct d. reflexivity.
  - symmetry. rewrite <- (map_id (TruncatedMixture.components d)) at 2.
    apply map_ext_in. intros c Hin.
    rewrite Forall_forall in Hc. destruct (Hc c Hin) as [l [s ->]].
    unfold LocationScale.__init__. simpl. f_equal.
    apply Rmax_left. apply Rmax_r.
Qed.

(** C2, on the code.  For every histogram distribution, [structure]
    applied to the result of [destructure] raises [IndexError], whether the
    result is passed as it is or spread over the positional parameters, and
    whether it is the whole result or its numeric payload: [destructure]
    returns four items (the class, the tuple of the five attributes, and the
    two items of the scale) and [structure] reads seven positional
    parameters. *)
Theorem HistogramDist_structure_rejects_destructure :
  forall h : Histogram.HistogramDist,
    Histogram.structure [Histogram.destructure h] = Raised IndexError
    /\ (exists params,
           items (Histogram.destructure h) = Returned params
           /\ List.length params = 4%nat
           /\ Histogram.structure params = Raised IndexError)
    /\ (exists payload fields,
           subscript (Histogram.destructure h) 1 = Returned payload
           /\ Histogram.structure [payload] = Raised IndexError
           /\ items payload = Returned fields
           /\ List.length fields = 5%nat
           /\ Histogram.structure fields = Raised IndexError).
Proof.
  intros h. split; [reflexivity|]. split.
  - eexists. split; [reflexivity|]. split; reflexivity.
  - do 2 eexists. split; [reflexivity|]. split; [reflexivity|].
    split; [reflexivity|]. split; reflexivity.
Qed.

(** * Further properties of the code *)

(** ** Location-scale distributions *)

Lemma expit_opp (y : R) : Np.expit (- y) = 1 - Np.expit y.
Proof.
  unfold Np.expit. rewrite Ropp_involutive, exp_Ropp.
  pose proof (exp_pos y). field. split; lra.
Qed.

Lemma LS_scale_pos cls loc scale metadata :
  0 < LocationScale.scale (LocationScale.__init__ cls loc scale metadata).
Proof. simpl. pose proof (Rmax_r scale 0.0000001). lra. Qed.

(** X1.  The cdf of a location-scale distribution built by the constructor
    lies between 0 and 1, never decreases, is one half at the location, is
    symmetric about the location, and is 0 and 1 at minus and plus
    infinity. *)
Theorem LSDistribution_cdf_shape :
  forall cls loc scale metadata x y,
    let d := LocationScale.__init__ cls loc scale metadata in
    0 <= LocationScale.cdf_ d (Fin x) <= 1
    /\ (x <= y -> LocationScale.cdf_ d (Fin x) <= LocationScale.cdf_ d (Fin y))
    /\ LocationScale.cdf_ d (Fin loc) = 1 / 2
    /\ LocationScale.cdf_ d (Fin (loc + x)) + LocationScale.cdf_ d (Fin (loc - x)) = 1
    /\ LocationScale.cdf_ d NInf = 0
    /\ LocationScale.cdf_ d PInf = 1.
Proof.
  intros cls loc scale metadata x y d. subst d.
  pose proof (LS_scale_pos cls loc scale metadata) as Hs.
  unfold LocationScale.cdf_. simpl in *.
  set (s := Rmax scale 0.0000001) in *.
  split.
  { pose proof (expit_pos ((x - loc) / s)). pose proof (expit_lt_1 ((x - loc) / s)). lra. }
  split.
  { intros [H| ->]; [|lra]. apply Rlt_le. apply expit_increasing. unfold Rdiv.
    apply Rmult_lt_compat_r; [apply Rinv_0_lt_compat; exact Hs | lra]. }
  split.
  { replace ((loc - loc) / s) with 0 by (field; lra). apply expit_0. }
  split; [|split; reflexivity].
  replace ((loc - x - loc) / s) with (- ((loc + x - loc) / s)) by (field; lra).
  rewrite expit_opp. lra.
Qed.

(** X2.  Multiplying a distribution by a positive factor that keeps the
    scale at or above the floor rescales the variable: the cdf of the
    product at [x * t] is the cdf of the distribution at [t].  The product
    has the class of the distribution and no metadata. *)
Theorem LSDistribution_mul_rescales :
  forall (d : LocationScale.LSDistribution) (x t : R),
    0 < x ->
    0.0000001 <= LocationScale.scale d * x ->
    LocationScale.cdf_ (LocationScale.__mul__ d x) (Fin (x * t))
    = LocationScale.cdf_ d (Fin t)
    /\ LocationScale.cls (LocationScale.__mul__ d x) = LocationScale.cls d
    /\ LocationScale.metadata (LocationScale.__mul__ d x) = None.
Proof.
  intros d x t Hx Hs. split; [|split; reflexivity].
  unfold LocationScale.__mul__, LocationScale.cdf_. simpl.
  rewrite Rmax_left by exact Hs.
  assert (Hd : LocationScale.scale d <> 0) by (intros E; rewrite E in Hs; lra).
  assert (Hx' : x <> 0) by lra.
  f_equal. field. repeat split; assumption.
Qed.

(** The logistic at 1 of scale 2, doubled. *)
Lemma LSDistribution_mul_rescales_witness :
  LocationScale.cdf_
    (LocationScale.__mul__ (LocationScale.__init__ LocationScale.Logistic 1 2 None) 2)
    (Fin (2 * 3))
  = LocationScale.cdf_ (LocationScale.__init__ LocationScale.Logistic 1 2 None) (Fin 3)
  /\ LocationScale.cls
       (LocationScale.__mul__ (LocationScale.__init__ LocationScale.Logistic 1 2 None) 2)
     = LocationScale.cls (LocationScale.__init__ LocationScale.Logistic 1 2 None)
  /\ LocationScale.metadata
       (LocationScale.__mul__ (LocationScale.__init__ LocationScale.Logistic 1 2 None) 2)
     = None.
Proof.
  apply (LSDistribution_mul_rescales
           (LocationScale.__init__ LocationScale.Logistic 1 2 None) 2 3).
  - lra.
  - simpl. rewrite Rmax_left by lra. lra.
Defined.

(** ** Interval conditions on distributions that answer 0 and 1 at infinity *)

(** X3.  When the distribution's cdf answers 0 at minus infinity and 1 at
    plus infinity, as the location-scale distributions and the truncated
    mixture do, the loss of an interval condition is the weight times the
    square of the difference between the probability of the interval, an
    open bound counting as 0 or 1, and the target. *)
Theorem Interval_loss_open_bounds :
  forall {D : Type} `{Distribution D} (self : Conditions.IntervalCondition) (dist : D)
         (h : heap),
    live h (Conditions.min self) ->
    live h (Conditions.max self) ->
    cdf dist NInf = Returned 0 ->
    cdf dist PInf = Returned 1 ->
    fst (Conditions.Interval.loss self dist h)
    = (cdf_at_min <- match oval (Conditions.min self) with
                     | NInf => Returned 0
                     | v => cdf dist v
                     end ;;
       cdf_at_max <- match oval (Conditions.max self) with
                     | PInf => Returned 1
                     | v => cdf dist v
                     end ;;
       Returned (Conditions.weight self
                 * (cdf_at_max - cdf_at_min - Conditions.p self) ^ 2)).
Proof.
  intros D HD self dist h Hmin Hmax H0 H1.
  rewrite Interval_loss_queries_both_bounds by assumption.
  destruct (oval (Conditions.min self)) eqn:Emin;
    destruct (oval (Conditions.max self)) eqn:Emax;
    rewrite ?H0, ?H1; reflexivity.
Qed.

(** The condition "one half of the mass lies below one half" on the
    standard logistic. *)
Lemma Interval_loss_open_bounds_witness :
  fst (Conditions.Interval.loss below_half
         (LocationScale.__init__ LocationScale.Logistic 0 1 None) 3%nat)
  = (cdf_at_min <- Returned 0 ;;
     cdf_at_max <- cdf (LocationScale.__init__ LocationScale.Logistic 0 1 None)
                     (Fin (1 / 2)) ;;
     Returned (1 * (cdf_at_max - cdf_at_min - 1 / 2) ^ 2)).
Proof.
  apply (Interval_loss_open_bounds below_half
           (LocationScale.__init__ LocationScale.Logistic 0 1 None) 3%nat).
  - unfold live. simpl. lia.
  - unfold live. simpl. lia.
  - reflexivity.
  - reflexivity.
Defined.

(** ** Truncated mixtures *)

Lemma LS_cdf_pos (c : LocationScale.LSDistribution) (x : R) :
  0 < LocationScale.cdf_ c (Fin x).
Proof. apply expit_pos. Qed.

Lemma LS_cdf_increasing (c : LocationScale.LSDistribution) (x y : R) :
  0 < LocationScale.scale c -> x < y ->
  LocationScale.cdf_ c (Fin x) < LocationScale.cdf_ c (Fin y).
Proof.
  intros Hs H. apply expit_increasing. unfold Rdiv.
  apply Rmult_lt_compat_r; [apply Rinv_0_lt_compat; exact Hs | lra].
Qed.

(** The cdf of a mixture with positive weights and scales is positive and
    strictly increasing. *)
Lemma mixture_cdf_shape (components : list LocationScale.LSDistribution) (probs : list R)
      (x y : R) :
  Forall (fun c => 0 < LocationScale.scale c) components ->
  Forall (fun p => 0 < p) probs ->
  components <> [] -> probs <> [] ->
  x < y ->
  0 < TruncatedMixture.mixture_cdf components probs (Fin x)
  /\ TruncatedMixture.mixture_cdf components probs (Fin x)
     < TruncatedMixture.mixture_cdf components probs (Fin y).
Proof.
  intros Hc Hp Hcn Hpn Hxy. unfold TruncatedMixture.mixture_cdf.
  destruct components as [|c components]; [congruence|].
  destruct probs as [|p probs]; [congruence|]. clear Hcn Hpn.
  inversion Hc as [|? ? Hc0 Hc']; subst. inversion Hp as [|? ? Hp0 Hp']; subst.
  assert (Hrest :
            0 <= Np.sum (map (fun '(c, p) => LocationScale.cdf_ c (Fin x) * p)
                           (combine components probs))
            /\ Np.sum (map (fun '(c, p) => LocationScale.cdf_ c (Fin x) * p)
                         (combine components probs))
               <= Np.sum (map (fun '(c, p) => LocationScale.cdf_ c (Fin y) * p)
                            (combine components probs))).
  { clear Hc Hp Hc0 Hp0. revert probs Hp'.
    induction Hc' as [|c' cs Hc1 Hcs IH]; intros probs Hp'.
    - simpl. lra.
    - destruct probs as [|p' ps]; [simpl; lra|].
      inversion Hp' as [|? ? Hp1 Hps]; subst.
      destruct (IH ps Hps) as [I1 I2].
      cbn [combine map]. unfold Np.sum in *. cbn [fold_right].
      pose proof (Rmult_lt_0_compat _ _ (LS_cdf_pos c' x) Hp1).
      pose proof (Rmult_lt_compat_r _ _ _ Hp1 (LS_cdf_increasing c' x y Hc1 Hxy)).
      lra. }
  cbn [combine map]. unfold Np.sum in *. cbn [fold_right].
  pose proof (Rmult_lt_0_compat _ _ (LS_cdf_pos c x) Hp0).
  pose proof (Rmult_lt_compat_r _ _ _ Hp0 (LS_cdf_increasing c x y Hc0 Hxy)).
  lra.
Qed.

(** The cdf of a mixture with nonnegative weights and positive scales is
    nonnegative and never decreases. *)
Lemma mixture_cdf_monotone (components : list LocationScale.LSDistribution) :
  forall (probs : list R) (x y : R),
    Forall (fun c => 0 < LocationScale.scale c) components ->
    Forall (fun p => 0 <= p) probs ->
    x <= y ->
    0 <= TruncatedMixture.mixture_cdf components probs (Fin x)
    /\ TruncatedMixture.mixture_cdf components probs (Fin x)
       <= TruncatedMixture.mixture_cdf components probs (Fin y).
Proof.
  unfold TruncatedMixture.mixture_cdf.
  induction components as [|c components IH]; intros probs x y Hc Hp Hxy.
  - simpl. lra.
  - destruct probs as [|p probs]; [simpl; lra|].
    inversion Hc as [|? ? Hc0 Hc']; subst. inversion Hp as [|? ? Hp0 Hp']; subst.
    destruct (IH probs x y Hc' Hp' Hxy) as [I1 I2].
    cbn [combine map]. unfold Np.sum in *. cbn [fold_right].
    assert (H0 : 0 <= LocationScale.cdf_ c (Fin x) * p)
      by (apply Rmult_le_pos; [apply Rlt_le, LS_cdf_pos | exact Hp0]).
    assert (H1 : LocationScale.cdf_ c (Fin x) * p <= LocationScale.cdf_ c (Fin y) * p).
    { apply Rmult_le_compat_r; [exact Hp0|].
      destruct Hxy as [Hlt| ->]; [|lra].
      apply Rlt_le. apply LS_cdf_increasing; assumption. }
    lra.
Qed.

(** X4.  For a truncated mixture with positive scales, nonnegative weights,
    floor below ceiling and a positive mass inside: the cdf is 0 below the
    floor and at minus infinity, 1 above the ceiling and at plus infinity,
    and never decreases between them; at the floor itself it is at least 0
    and at the ceiling itself at least 1. *)
Theorem TruncatedLogisticMixture_cdf_boundaries :
  forall d : TruncatedMixture.TruncatedLogisticMixture,
    Forall (fun c => 0 < LocationScale.scale c) (TruncatedMixture.components d) ->
    Forall (fun p => 0 <= p) (TruncatedMixture.probs d) ->
    TruncatedMixture.floor d < TruncatedMixture.ceiling d ->
    0 < TruncatedMixture.p_inside d ->
    (forall x, x < TruncatedMixture.floor d -> TruncatedMixture.cdf_ d (Fin x) = 0)
    /\ (forall x, TruncatedMixture.ceiling d < x -> TruncatedMixture.cdf_ d (Fin x) = 1)
    /\ TruncatedMixture.cdf_ d NInf = 0
    /\ TruncatedMixture.cdf_ d PInf = 1
    /\ (forall x y,
           TruncatedMixture.floor d <= x -> x <= y -> y <= TruncatedMixture.ceiling d ->
           TruncatedMixture.cdf_ d (Fin x) <= TruncatedMixture.cdf_ d (Fin y))
    /\ 0 <= TruncatedMixture.cdf_ d (Fin (TruncatedMixture.floor d))
    /\ 1 <= TruncatedMixture.cdf_ d (Fin (TruncatedMixture.ceiling d)).
Proof.
  intros d Hc Hp Hfc Hin.
  assert (Hmid : forall x,
             TruncatedMixture.floor d <= x -> x <= TruncatedMixture.ceiling d ->
             TruncatedMixture.cdf_ d (Fin x)
             = TruncatedMixture.mixture_cdf (TruncatedMixture.components d)
                 (TruncatedMixture.probs d) (Fin x) / TruncatedMixture.p_inside d).
  { intros x H1 H2. unfold TruncatedMixture.cdf_. simpl.
    rewrite (proj2 (Rltb_false x (TruncatedMixture.floor d))) by lra.
    rewrite (proj2 (Rltb_false (TruncatedMixture.ceiling d) x)) by lra.
    reflexivity. }
  split.
  { intros x Hx. unfold TruncatedMixture.cdf_. simpl.
    rewrite (proj2 (Rltb_true x (TruncatedMixture.floor d))) by lra. reflexivity. }
  split.
  { intros x Hx. unfold TruncatedMixture.cdf_. simpl.
    rewrite (proj2 (Rltb_false x (TruncatedMixture.floor d))) by lra.
    rewrite (proj2 (Rltb_true (TruncatedMixture.ceiling d) x)) by lra. reflexivity. }
  split; [reflexivity|]. split; [reflexivity|]. split.
  { intros x y H1 H2 H3. rewrite !Hmid by lra.
    destruct (mixture_cdf_monotone _ _ x y Hc Hp H2) as [_ Hle].
    unfold Rdiv. apply Rmult_le_compat_r;
      [apply Rlt_le, Rinv_0_lt_compat; exact Hin | exact Hle]. }
  destruct (mixture_cdf_monotone _ _ (TruncatedMixture.floor d)
              (TruncatedMixture.ceiling d) Hc Hp ltac:(lra)) as [Bf Bfc].
  split.
  { rewrite Hmid by lra. unfold Rdiv. apply Rmult_le_pos;
      [exact Bf | apply Rlt_le, Rinv_0_lt_compat; exact Hin]. }
  rewrite Hmid by lra.
  unfold TruncatedMixture.p_inside in *.
  set (Bc := TruncatedMixture.mixture_cdf _ _ (Fin (TruncatedMixture.ceiling d))) in *.
  set (Bfl := TruncatedMixture.mixture_cdf _ _ (Fin (TruncatedMixture.floor d))) in *.
  apply (Rmult_le_reg_r (1 - (Bfl + (1 - Bc)))); [exact Hin|].
  replace (Bc / (1 - (Bfl + (1 - Bc))) * (1 - (Bfl + (1 - Bc)))) with Bc
    by (field; lra).
  lra.
Qed.

(** The standard logistic kept between -1 and 0. *)
Lemma TruncatedLogisticMixture_cdf_boundaries_witness :
  0 <= TruncatedMixture.cdf_ one_logistic (Fin (TruncatedMixture.floor one_logistic))
  /\ 1 <= TruncatedMixture.cdf_ one_logistic (Fin (TruncatedMixture.ceiling one_logistic)).
Proof.
  pose proof (TruncatedLogisticMixture_cdf_boundaries one_logistic) as H.
  assert (H1 : Forall (fun c => 0 < LocationScale.scale c)
                 (TruncatedMixture.components one_logistic)).
  { repeat constructor. simpl. rewrite Rmax_left by lra. lra. }
  assert (H2 : Forall (fun p => 0 <= p) (TruncatedMixture.probs one_logistic)).
  { repeat constructor. lra. }
  assert (H3 : TruncatedMixture.floor one_logistic < TruncatedMixture.ceiling one_logistic)
    by (simpl; lra).
  assert (H4 : 0 < TruncatedMixture.p_inside one_logistic).
  { assert (Hp : Forall (fun p => 0 < p) (TruncatedMixture.probs one_logistic))
      by (repeat constructor; lra).
    destruct (mixture_cdf_shape _ _ _ _ H1 Hp ltac:(discriminate) ltac:(discriminate) H3)
      as [_ Hlt].
    unfold TruncatedMixture.p_inside. lra. }
  destruct (H H1 H2 H3 H4) as [_ [_ [_ [_ [_ [A B]]]]]].
  split; assumption.
Defined.

(** X5.  Whenever [from_params] returns a mixture for a floor not above
    the ceiling, every component's location lies between
    [floor - 2 * (ceiling - floor)] and [floor + 3 * (ceiling - floor)],
    there are as many components as probabilities, one for every three raw
    parameters, every component is a logistic without metadata, and the
    floor and ceiling are those of the fixed parameters. *)
Theorem from_params_locations_bounded :
  forall (fixed_params : TruncatedMixture.fixed_params_t) (opt_params : list R)
         (floor ceiling : R) (d : TruncatedMixture.TruncatedLogisticMixture),
    TruncatedMixture.lookup fixed_params "floor" = Returned floor ->
    TruncatedMixture.lookup fixed_params "ceiling" = Returned ceiling ->
    floor <= ceiling ->
    TruncatedMixture.from_params fixed_params opt_params = Returned d ->
    Forall (fun c =>
              floor - 2 * (ceiling - floor) <= LocationScale.loc c
              <= floor + 3 * (ceiling - floor)
              /\ LocationScale.cls c = LocationScale.Logistic
              /\ LocationScale.metadata c = None)
           (TruncatedMixture.components d)
    /\ List.length opt_params = (3 * List.length (TruncatedMixture.components d))%nat
    /\ List.length (TruncatedMixture.probs d)
       = List.length (TruncatedMixture.components d)
    /\ TruncatedMixture.floor d = floor
    /\ TruncatedMixture.ceiling d = ceiling.
Proof.
  intros fixed_params opt_params floor ceiling d Ef Ec Hfc H.
  unfold TruncatedMixture.from_params in H. rewrite Ef, Ec in H. cbn [bind] in H.
  apply bind_Returned in H. destruct H as [rows [Er H]].
  apply bind_Returned in H. destruct H as [probs [Es H]].
  injection H as <-. cbn [TruncatedMixture.components TruncatedMixture.probs
                          TruncatedMixture.floor TruncatedMixture.ceiling].
  apply softmax_Returned in Es. destruct Es as [Ep _].
  assert (Hlen : forall l rows', TruncatedMixture.reshape3 l = Returned rows' ->
                                 List.length l = (3 * List.length rows')%nat).
  { clear. intros l. remember (List.length l) as n eqn:En.
    revert l En. induction n as [n IH] using lt_wf_ind. intros l En rows' E.
    destruct l as [|a [|b [|c l]]]; simpl in E; try discriminate.
    - injection E as <-. simpl in *. lia.
    - apply bind_Returned in E. destruct E as [rs [E1 E2]]. injection E2 as <-.
      simpl in *. specialize (IH (List.length l) ltac:(lia) l eq_refl rs E1). lia. }
  split; [|split; [|split; [|split; reflexivity]]].
  - apply Forall_forall. intros c Hin.
    apply in_map_iff in Hin. destruct Hin as [[l s] [<- Hin]].
    apply in_combine_l in Hin. apply in_map_iff in Hin.
    destruct Hin as [[[c0 c1] c2] [<- _]].
    pose proof (expit_pos c0). pose proof (expit_lt_1 c0).
    simpl. split; [split; nra | split; reflexivity].
  - rewrite (Hlen _ _ Er). rewrite length_map, length_combine, !length_map.
    rewrite Nat.min_id. reflexivity.
  - rewrite Ep. rewrite !length_map, length_combine, !length_map.
    rewrite Nat.min_id. reflexivity.
Qed.

(** Two components between floor 0 and ceiling 1. *)
Lemma from_params_locations_bounded_witness :
  exists d,
    TruncatedMixture.from_params [("floor"%string, 0); ("ceiling"%string, 1)]
      [0; 1; 0; 2; -3; 1] = Returned d
    /\ Forall (fun c =>
                 0 - 2 * (1 - 0) <= LocationScale.loc c <= 0 + 3 * (1 - 0)
                 /\ LocationScale.cls c = LocationScale.Logistic
                 /\ LocationScale.metadata c = None)
              (TruncatedMixture.components d)
    /\ List.length [0; 1; 0; 2; -3; 1]
       = (3 * List.length (TruncatedMixture.components d))%nat.
Proof.
  eexists. split; [reflexivity|].
  split;
    apply (from_params_locations_bounded
             [("floor"%string, 0); ("ceiling"%string, 1)] [0; 1; 0; 2; -3; 1] 0 1 _
             eq_refl eq_refl ltac:(lra) eq_refl).
Defined.

(** X6.  For bounds [scale_min < scale_max], normalizing a truncated
    mixture and denormalizing the result with the same bounds gives back
    the floor, the ceiling, the probabilities and every component's
    location, class and metadata; when no component's scale is below the
    floor 0.0000001, before or after normalizing, it gives back the
    mixture itself. *)
Theorem TruncatedLogisticMixture_normalize_round_trip :
  forall (d : TruncatedMixture.TruncatedLogisticMixture) (scale_min scale_max : R),
    scale_min < scale_max ->
    exists d' d'',
      TruncatedMixture.normalize d scale_min scale_max = Returned d'
      /\ TruncatedMixture.floor d'
         = (TruncatedMixture.floor d - scale_min) / (scale_max - scale_min)
      /\ TruncatedMixture.ceiling d'
         = (TruncatedMixture.ceiling d - scale_min) / (scale_max - scale_min)
      /\ TruncatedMixture.probs d' = TruncatedMixture.probs d
      /\ TruncatedMixture.denormalize d' scale_min scale_max = Returned d''
      /\ TruncatedMixture.floor d'' = TruncatedMixture.floor d
      /\ TruncatedMixture.ceiling d'' = TruncatedMixture.ceiling d
      /\ TruncatedMixture.probs d'' = TruncatedMixture.probs d
      /\ map LocationScale.loc (TruncatedMixture.components d'')
         = map LocationScale.loc (TruncatedMixture.components d)
      /\ map LocationScale.cls (TruncatedMixture.components d'')
         = map LocationScale.cls (TruncatedMixture.components d)
      /\ map LocationScale.metadata (TruncatedMixture.components d'')
         = map LocationScale.metadata (TruncatedMixture.components d)
      /\ (Forall (fun c => 0.0000001 <= LocationScale.scale c
                           /\ 0.0000001 <= LocationScale.scale c / (scale_max - scale_min))
                 (TruncatedMixture.components d) ->
          d'' = d).
Proof.
  intros d scale_min scale_max H.
  set (s := {| Scale.low := scale_min; Scale.high := scale_max |}).
  set (w := scale_max - scale_min).
  assert (Hw : 0 < w) by (unfold w; lra).
  set (norm := fun c : LocationScale.LSDistribution =>
                 LocationScale.__init__ (LocationScale.cls c)
                   (Scale.normalize_point s (LocationScale.loc c))
                   (LocationScale.scale c / Scale.range s) (LocationScale.metadata c)).
  set (denorm := fun c : LocationScale.LSDistribution =>
                   LocationScale.__init__ (LocationScale.cls c)
                     (Scale.denormalize_point s (LocationScale.loc c))
                     (LocationScale.scale c * Scale.range s) (LocationScale.metadata c)).
  assert (En : forall l, mapM (fun c => LocationScale.normalize c scale_min scale_max) l
                         = Returned (map norm l)).
  { intros l. apply mapM_Returned. intros c _. unfold LocationScale.normalize.
    rewrite (Scale_init_ok _ _ H). reflexivity. }
  assert (Ed : forall l, mapM (fun c => LocationScale.denormalize c scale_min scale_max) l
                         = Returned (map denorm l)).
  { intros l. apply mapM_Returned. intros c _. unfold LocationScale.denormalize.
    rewrite (Scale_init_ok _ _ H). reflexivity. }
  unfold TruncatedMixture.normalize, TruncatedMixture.denormalize.
  rewrite En, (Scale_init_ok _ _ H). cbn [bind].
  do 2 eexists. split; [reflexivity|].
  cbn [TruncatedMixture.floor TruncatedMixture.ceiling TruncatedMixture.probs
       TruncatedMixture.components].
  split; [reflexivity|]. split; [reflexivity|]. split; [reflexivity|].
  rewrite Ed. cbn [bind]. split; [reflexivity|].
  cbn [TruncatedMixture.floor TruncatedMixture.ceiling TruncatedMixture.probs
       TruncatedMixture.components]. fold s.
  assert (Hpt : forall x, Scale.denormalize_point s (Scale.normalize_point s x) = x)
    by (intros x; apply normalize_denormalize_point; simpl; exact H).
  split; [apply Hpt|]. split; [apply Hpt|]. split; [reflexivity|].
  rewrite !map_map.
  split; [apply map_ext; intros c; simpl; apply Hpt|].
  split; [reflexivity|]. split; [reflexivity|].
  intros Hsc. destruct d as [comps probs fl ce]. simpl in *.
  rewrite !Hpt. f_equal.
  rewrite <- (map_id comps) at 2. apply map_ext_in. intros c Hin.
  rewrite Forall_forall in Hsc. destruct (Hsc c Hin) as [H1 H2].
  destruct c as [k l sc m]. unfold norm, denorm, LocationScale.__init__. simpl in *.
  rewrite Hpt. unfold Scale.range. simpl. fold w.
  rewrite (Rmax_left (sc / w)) by exact H2.
  replace (sc / w * w) with sc by (field; lra).
  rewrite Rmax_left by exact H1. reflexivity.
Qed.

(** The standard logistic kept between -1 and 0, on the scale from -2 to 2. *)
Lemma TruncatedLogisticMixture_normalize_round_trip_witness :
  exists d' d'',
    TruncatedMixture.normalize one_logistic (-2) 2 = Returned d'
    /\ TruncatedMixture.denormalize d' (-2) 2 = Returned d''
    /\ TruncatedMixture.floor d'' = -1.
Proof.
  destruct (TruncatedLogisticMixture_normalize_round_trip one_logistic (-2) 2
              ltac:(lra)) as [d' [d'' [H1 [_ [_ [_ [H2 [H3 _]]]]]]]].
  exists d', d''. split; [exact H1|]. split; [exact H2 | exact H3].
Defined.

(** X7.  A truncated mixture whose components are logistics built without
    metadata, as [from_params] builds them, is given back by [structure]
    applied to the numeric payload of [destructure]. *)
Theorem TruncatedLogisticMixture_structure_payload_round_trip :
  forall d : TruncatedMixture.TruncatedLogisticMixture,
    Forall (fun c => exists l s, c = LocationScale.__init__ LocationScale.Logistic l s None)
           (TruncatedMixture.components d) ->
    exists params,
      TruncatedMixture.destructure d = VTuple [VClass CTruncatedLogisticMixture; params]
      /\ TruncatedMixture.structure params = Returned d.
Proof.
  intros d Hc. destruct (TruncatedMixture_structure_payload d Hc) as [params [E1 E2]].
  exists params. split; [|exact E2].
  unfold TruncatedMixture.destructure in *. cbn in E1. injection E1 as <-. reflexivity.
Qed.

(** The standard logistic kept between -1 and 0. *)
Lemma TruncatedLogisticMixture_structure_payload_round_trip_witness :
  exists params,
    TruncatedMixture.destructure one_logistic
    = VTuple [VClass CTruncatedLogisticMixture; params]
    /\ TruncatedMixture.structure params = Returned one_logistic.
Proof.
  apply (TruncatedLogisticMixture_structure_payload_round_trip one_logistic).
  repeat constructor. exists 0, 1. reflexivity.
Defined.

(** ** Point densities *)

Lemma argmin_from_range (l : list R) :
  forall best besti i,
    Np.argmin_from best besti i l = besti
    \/ (i <= Np.argmin_from best besti i l < i + List.length l)%nat.
Proof.
  induction l as [|x l IH]; intros best besti i; simpl; [left; reflexivity|].
  destruct (Rltb x best).
  - destruct (IH x i (S i)) as [E|E]; right; lia.
  - destruct (IH best besti (S i)) as [E|E]; [left; exact E | right; lia].
Qed.

Lemma argmin_lt (l : list R) (i : nat) :
  Np.argmin l = Returned i -> (i < List.length l)%nat.
Proof.
  destruct l as [|x l]; [discriminate|]. intros [= <-]. simpl.
  destruct (argmin_from_range l x 0%nat 1%nat) as [E|E]; lia.
Qed.

Lemma argmin_nonempty (l : list R) : l <> [] -> exists i, Np.argmin l = Returned i.
Proof. destruct l; [congruence|]. intros _. eexists. reflexivity. Qed.

Lemma getitem_lt {A : Type} (l : list A) (i : nat) :
  (i < List.length l)%nat -> exists x, Np.getitem l i = Returned x /\ In x l.
Proof.
  intros H. unfold Np.getitem. destruct (nth_error l i) as [x|] eqn:E.
  - exists x. split; [reflexivity|]. eapply nth_error_In. exact E.
  - apply nth_error_None in E. lia.
Qed.

Lemma nearest_lt (self : PointDensity.PointDensity) (x : ereal) :
  PointDensity.normed_xs self <> [] ->
  exists i, PointDensity.nearest self x = Returned i
            /\ (i < List.length (PointDensity.normed_xs self))%nat.
Proof.
  intros Hne. unfold PointDensity.nearest.
  destruct x as [r| |];
    match goal with
    | |- context [Np.argmin ?l] =>
        destruct (argmin_nonempty l) as [i Ei];
        [destruct (PointDensity.normed_xs self); [congruence | discriminate]|];
        exists i; split; [exact Ei|];
        apply argmin_lt in Ei; rewrite length_map in Ei; exact Ei
    end.
Qed.

(** X8.  A point density with at least one point, and a cumulative array at
    least as long as its points, has cdf 0 at every point below its scale
    and at minus infinity, and cdf 1 at every point above its scale and at
    plus infinity. *)
Theorem PointDensity_cdf_off_scale :
  forall (d : PointDensity.PointDensity) (x : R),
    PointDensity.normed_xs d <> [] ->
    (List.length (PointDensity.normed_xs d)
     <= List.length (PointDensity.cumulative_normed_ps d))%nat ->
    Scale.low (PointDensity.scale d) < Scale.high (PointDensity.scale d) ->
    (x < Scale.low (PointDensity.scale d) ->
     PointDensity.cdf_ d (Fin x) = Returned 0)
    /\ (Scale.high (PointDensity.scale d) < x ->
        PointDensity.cdf_ d (Fin x) = Returned 1)
    /\ PointDensity.cdf_ d NInf = Returned 0
    /\ PointDensity.cdf_ d PInf = Returned 1.
Proof.
  intros d x Hne Hlen Hs.
  assert (Hget : forall q, exists c,
               (bin <- PointDensity.nearest d q ;;
                Np.getitem (PointDensity.cumulative_normed_ps d) bin) = Returned c).
  { intros q. destruct (nearest_lt d q Hne) as [i [Ei Hi]]. rewrite Ei. cbn [bind].
    destruct (getitem_lt (PointDensity.cumulative_normed_ps d) i ltac:(lia)) as [c [Ec _]].
    exists c. exact Ec. }
  assert (Hcdf : forall q, exists c,
               PointDensity.cdf_ d q
               = Returned (Np.where_ (elt (Scale.normalize_query (PointDensity.scale d) q)
                                        (Fin 0)) 0
                             (Np.where_ (elt (Fin 1)
                                           (Scale.normalize_query (PointDensity.scale d) q))
                                1 c))).
  { intros q. unfold PointDensity.cdf_.
    destruct (nearest_lt d (Scale.normalize_query (PointDensity.scale d) q) Hne)
      as [i [Ei Hi]].
    rewrite Ei. cbn [bind].
    destruct (getitem_lt (PointDensity.cumulative_normed_ps d) i ltac:(lia)) as [c [Ec _]].
    rewrite Ec. cbn [bind]. exists c. reflexivity. }
  assert (Hr : 0 < Scale.range (PointDensity.scale d)) by (unfold Scale.range; lra).
  split; [|split; [|split]].
  - intros Hx. destruct (Hcdf (Fin x)) as [c ->]. simpl.
    rewrite (proj2 (Rltb_true _ 0)); [reflexivity|].
    unfold Scale.normalize_point. apply Rmult_lt_reg_r with (Scale.range (PointDensity.scale d));
      [exact Hr|].
    replace ((x - Scale.low (PointDensity.scale d)) / Scale.range (PointDensity.scale d)
             * Scale.range (PointDensity.scale d))
      with (x - Scale.low (PointDensity.scale d)) by (field; lra).
    lra.
  - intros Hx. destruct (Hcdf (Fin x)) as [c ->]. simpl.
    assert (Hgt : 1 < Scale.normalize_point (PointDensity.scale d) x).
    { unfold Scale.normalize_point.
      apply Rmult_lt_reg_r with (Scale.range (PointDensity.scale d)); [exact Hr|].
      replace ((x - Scale.low (PointDensity.scale d)) / Scale.range (PointDensity.scale d)
               * Scale.range (PointDensity.scale d))
        with (x - Scale.low (PointDensity.scale d)) by (field; lra).
      unfold Scale.range. lra. }
    rewrite (proj2 (Rltb_false _ 0)) by lra.
    rewrite (proj2 (Rltb_true 1 _)) by exact Hgt. reflexivity.
  - destruct (Hcdf NInf) as [c ->]. reflexivity.
  - destruct (Hcdf PInf) as [c ->]. reflexivity.
Qed.

(** The point density of the examples, as the constructor builds it. *)
Lemma init_two_points :
  PointDensity.__init__ [1 / 2; 1 / 2] [1 / 4; 3 / 4] [1; 1]
    (Some {| Scale.low := 0; Scale.high := 1 |}) true false None = Returned two_points.
Proof. reflexivity. Qed.

(** The point density of two points, queried at -1. *)
Lemma PointDensity_cdf_off_scale_witness :
  PointDensity.cdf_ two_points (Fin (-1)) = Returned 0.
Proof.
  apply (PointDensity_cdf_off_scale two_points (-1)).
  - discriminate.
  - simpl. lia.
  - simpl. lra.
  - simpl. lra.
Defined.

Lemma cumsum_from_bounds (l : list R) :
  forall acc c,
    Forall (fun p => 0 <= p) l ->
    In c (Np.cumsum_from acc l) -> acc <= c <= acc + Np.sum l.
Proof.
  induction l as [|x l IH]; intros acc c Hl Hin; simpl in *; [contradiction|].
  inversion Hl as [|? ? Hx Hl']; subst.
  assert (Hsum : 0 <= Np.sum l).
  { clear -Hl'. induction Hl'; simpl; [lra|]. unfold Np.sum in *. simpl. lra. }
  unfold Np.sum in *. simpl.
  destruct Hin as [<-|Hin]; [lra|].
  specialize (IH _ _ Hl' Hin). lra.
Qed.

(** X9.  For a point density built by the constructor without a given
    cumulative array, whose bin probabilities are nonnegative and sum to at
    most 1, every value the cdf returns lies between 0 and 1. *)
Theorem PointDensity_cdf_bounded :
  forall (bin_sizes xs densities : list R) (s : Scale.Scale) (normalized traceable : bool)
         (d : PointDensity.PointDensity) (x : ereal) (v : R),
    PointDensity.__init__ bin_sizes xs densities (Some s) normalized traceable None
    = Returned d ->
    Forall (fun p => 0 <= p) (PointDensity.bin_probs d) ->
    Np.sum (PointDensity.bin_probs d) <= 1 ->
    PointDensity.cdf_ d x = Returned v ->
    0 <= v <= 1.
Proof.
  intros bin_sizes xs densities s normalized traceable d x v Hd Hp Hsum Hv.
  assert (Hc : PointDensity.cumulative_normed_ps d
               = 0 :: Np.cumsum (PointDensity.bin_probs d)).
  { unfold PointDensity.__init__ in Hd. apply bind_Returned in Hd.
    destruct Hd as [bp [_ Hd]]. injection Hd as <-. reflexivity. }
  unfold PointDensity.cdf_ in Hv.
  apply bind_Returned in Hv. destruct Hv as [bin [_ Hv]].
  apply bind_Returned in Hv. destruct Hv as [c [Ec Hv]]. injection Hv as <-.
  assert (Hin : In c (PointDensity.cumulative_normed_ps d)).
  { unfold Np.getitem in Ec.
    destruct (nth_error (PointDensity.cumulative_normed_ps d) bin) as [c'|] eqn:E;
      [|discriminate].
    injection Ec as <-. eapply nth_error_In. exact E. }
  assert (Hcb : 0 <= c <= 1).
  { rewrite Hc in Hin. destruct Hin as [<-|Hin]; [lra|].
    apply cumsum_from_bounds in Hin; [lra | exact Hp]. }
  unfold Np.where_.
  repeat match goal with |- context [if ?b then _ else _] => destruct b end; lra.
Qed.

(** The point density of two points, queried at one half. *)
Lemma PointDensity_cdf_bounded_witness :
  exists v, PointDensity.cdf_ two_points (Fin (1 / 2)) = Returned v /\ 0 <= v <= 1.
Proof.
  destruct (PointDensity.cdf_ two_points (Fin (1 / 2))) as [v|e] eqn:E.
  - exists v. split; [reflexivity|].
    apply (PointDensity_cdf_bounded [1 / 2; 1 / 2] [1 / 4; 3 / 4] [1; 1]
             {| Scale.low := 0; Scale.high := 1 |} true false two_points
             (Fin (1 / 2)) v init_two_points).
    + repeat constructor; simpl; lra.
    + simpl. lra.
    + exact E.
  - exfalso. unfold PointDensity.cdf_ in E.
    destruct (nearest_lt two_points
                (Scale.normalize_query (PointDensity.scale two_points) (Fin (1 / 2)))
                ltac:(discriminate)) as [i [Ei Hi]].
    rewrite Ei in E. cbn [bind] in E.
    destruct (getitem_lt (PointDensity.cumulative_normed_ps two_points) i
                ltac:(simpl in *; lia)) as [c [Ec _]].
    rewrite Ec in E. discriminate.
Defined.

(** X10.  A point density built by the constructor without a given
    cumulative array is given back by [normalize] followed by [denormalize]
    to its own scale; the density in between has the same points,
    densities, bin probabilities and cumulative array on the unit scale. *)
Theorem PointDensity_normalize_denormalize :
  forall (bin_sizes xs densities : list R) (s : Scale.Scale) (normalized traceable : bool)
         (d : PointDensity.PointDensity),
    PointDensity.__init__ bin_sizes xs densities (Some s) normalized traceable None
    = Returned d ->
    exists n,
      PointDensity.normalize bin_sizes d = Returned n
      /\ PointDensity.scale n = {| Scale.low := 0; Scale.high := 1 |}
      /\ PointDensity.normed_xs n = PointDensity.normed_xs d
      /\ PointDensity.normed_densities n = PointDensity.normed_densities d
      /\ PointDensity.bin_probs n = PointDensity.bin_probs d
      /\ PointDensity.cumulative_normed_ps n = PointDensity.cumulative_normed_ps d
      /\ PointDensity.denormalize bin_sizes n s = Returned d.
Proof.
  intros bin_sizes xs densities s normalized traceable d Hd.
  unfold PointDensity.__init__ in Hd. apply bind_Returned in Hd.
  destruct Hd as [bp [Ebp Hd]]. injection Hd as <-.
  unfold PointDensity.normalize, PointDensity.denormalize, PointDensity.__init__.
  rewrite Scale_init_unit. cbn. rewrite Ebp. cbn.
  eexists. split; [reflexivity|]. cbn. rewrite Ebp. cbn.
  repeat (split; [reflexivity|]). reflexivity.
Qed.

(** The point density of two points. *)
Lemma PointDensity_normalize_denormalize_witness :
  exists n,
    PointDensity.normalize [1 / 2; 1 / 2] two_points = Returned n
    /\ PointDensity.denormalize [1 / 2; 1 / 2] n {| Scale.low := 0; Scale.high := 1 |}
       = Returned two_points.
Proof.
  destruct (PointDensity_normalize_denormalize _ _ _ _ _ _ _ init_two_points)
    as [n [H1 [_ [_ [_ [_ [_ H2]]]]]]].
  exists n. split; assumption.
Defined.


(** ** Histograms *)

Lemma exp_minus_ln (x s : R) : 0 < s -> exp (x - ln s) = exp x / s.
Proof.
  intros Hs. unfold Rminus. rewrite exp_plus, exp_Ropp, exp_ln by exact Hs. reflexivity.
Qed.

Lemma from_params_shape (params : list R) (h : Histogram.HistogramDist) :
  Histogram.from_params params = Returned h ->
  h = {| Histogram.logps := map (fun xi => xi - ln (Np.sum (map exp params))) params;
         Histogram.ps := map (fun xi => exp xi / Np.sum (map exp params)) params;
         Histogram.cum_ps :=
           Np.cumsum (map (fun xi => exp xi / Np.sum (map exp params)) params);
         Histogram.normed_bins := Np.linspace 0 1 (List.length params);
         Histogram.size := List.length params;
         Histogram.scale := {| Scale.low := 0; Scale.high := 1 |};
         Histogram.true_bins :=
           Some (Scale.denormalize_points {| Scale.low := 0; Scale.high := 1 |}
                   (Np.linspace 0 1 (List.length params))) |}.
Proof.
  intros H.
  unfold Histogram.from_params, Np.log_softmax in H.
  cbn [bind] in H. unfold Histogram.__init__ in H. rewrite Scale_init_unit in H.
  cbn [bind] in H. rewrite length_map in H. injection H as <-.
  assert (E : map exp (map (fun xi => xi - ln (Np.sum (map exp params))) params)
              = map (fun xi => exp xi / Np.sum (map exp params)) params).
  { rewrite map_map. apply map_ext_in. intros x Hin.
    apply exp_minus_ln. apply sum_exp_pos. intros ->. contradiction. }
  rewrite E. reflexivity.
Qed.

Lemma from_params_total (params : list R) :
  exists h, Histogram.from_params params = Returned h.
Proof.
  unfold Histogram.from_params, Np.log_softmax.
  cbn [bind]. unfold Histogram.__init__. rewrite Scale_init_unit. cbn [bind].
  eexists. reflexivity.
Qed.

Lemma from_params_nonempty (params : list R) :
  params <> [] -> exists h, Histogram.from_params params = Returned h.
Proof. intros _. apply from_params_total. Qed.

Lemma softmax_probs (params : list R) :
  params <> [] ->
  Forall (fun p => 0 < p) (map (fun xi => exp xi / Np.sum (map exp params)) params)
  /\ Np.sum (map (fun xi => exp xi / Np.sum (map exp params)) params) = 1.
Proof.
  intros Hne. pose proof (softmax_Returned params _ (softmax_nonempty params Hne)) as H.
  destruct H as [_ [Hp Hs]]. split; [assumption | apply Hs; exact Hne].
Qed.



Lemma first_true_Some (l : list bool) :
  forall i, Np.first_true l = Some i ->
            (i < List.length l)%nat /\ nth_error l i = Some true.
Proof.
  induction l as [|b l IH]; intros i H; simpl in H; [discriminate|].
  destruct b.
  - injection H as <-. simpl. split; [lia | reflexivity].
  - destruct (Np.first_true l) as [j|]; [|discriminate]. injection H as <-.
    destruct (IH j eq_refl). simpl. split; [lia | assumption].
Qed.

Lemma first_true_None (l : list bool) :
  Np.first_true l = None -> forall b, In b l -> b = false.
Proof.
  induction l as [|a l IH]; intros H b Hin; simpl in *; [contradiction|].
  destruct a; [discriminate|].
  destruct (Np.first_true l); [discriminate|].
  destruct Hin as [<-|Hin]; [reflexivity | apply IH; [reflexivity | exact Hin]].
Qed.

Lemma first_true_all_false (l : list bool) :
  (forall b, In b l -> b = false) -> Np.first_true l = None.
Proof.
  induction l as [|a l IH]; intros H; simpl; [reflexivity|].
  rewrite (H a) by (left; reflexivity).
  rewrite IH by (intros; apply H; right; assumption). reflexivity.
Qed.

(** A lower threshold is met no later than a higher one. *)
Lemma first_true_mono (bins : list R) (t1 t2 : R) :
  t1 <= t2 ->
  forall j, Np.first_true (map (fun b => Rleb t2 b) bins) = Some j ->
            exists i, Np.first_true (map (fun b => Rleb t1 b) bins) = Some i
                      /\ (i <= j)%nat.
Proof.
  intros Ht. induction bins as [|b bins IH]; intros j H; simpl in *; [discriminate|].
  destruct (Rleb t2 b) eqn:E2.
  - injection H as <-. rewrite (proj2 (Rleb_true t1 b)) by (apply Rleb_true in E2; lra).
    exists 0%nat. split; [reflexivity | lia].
  - destruct (Np.first_true (map (fun b0 => Rleb t2 b0) bins)) as [j'|]; [|discriminate].
    injection H as <-.
    destruct (Rleb t1 b).
    + exists 0%nat. split; [reflexivity | lia].
    + destruct (IH j' eq_refl) as [i [Ei Hi]]. rewrite Ei.
      exists (S i). split; [reflexivity | lia].
Qed.

Lemma cumsum_from_pos (l : list R) :
  forall acc c,
    Forall (fun p => 0 < p) l -> In c (Np.cumsum_from acc l) -> acc < c.
Proof.
  induction l as [|x l IH]; intros acc c Hl Hin; simpl in *; [contradiction|].
  inversion Hl as [|? ? Hx Hl']; subst.
  destruct Hin as [<-|Hin]; [lra|]. specialize (IH _ _ Hl' Hin). lra.
Qed.

Lemma Forall_pos_nonneg (l : list R) :
  Forall (fun p => 0 < p) l -> Forall (fun p => 0 <= p) l.
Proof. intros H. eapply Forall_impl; [|exact H]. intros p Hp. simpl in Hp. lra. Qed.

(** Running totals of nonnegative numbers do not decrease. *)
Lemma cumsum_from_mono (l : list R) :
  forall acc i j a b,
    Forall (fun p => 0 <= p) l ->
    (i <= j)%nat ->
    nth_error (Np.cumsum_from acc l) i = Some a ->
    nth_error (Np.cumsum_from acc l) j = Some b ->
    a <= b.
Proof.
  induction l as [|x l IH]; intros acc i j a b Hl Hij Ha Hb; simpl in *.
  - destruct i; discriminate.
  - inversion Hl as [|? ? Hx Hl']; subst.
    destruct i as [|i]; destruct j as [|j]; simpl in *; try lia.
    + injection Ha as <-. injection Hb as <-. lra.
    + injection Ha as <-. apply nth_error_In in Hb.
      apply cumsum_from_bounds in Hb; [lra | exact Hl'].
    + apply (IH (acc + x) i j); [exact Hl' | lia | exact Ha | exact Hb].
Qed.

Lemma cumsum_from_length (l : list R) (acc : R) :
  List.length (Np.cumsum_from acc l) = List.length l.
Proof. revert acc. induction l as [|x l IH]; intros acc; simpl; [|rewrite IH]; reflexivity. Qed.

Lemma cumsum_from_last (l : list R) :
  forall acc, l <> [] ->
              nth_error (Np.cumsum_from acc l) (List.length l - 1) = Some (acc + Np.sum l).
Proof.
  induction l as [|x l IH]; intros acc Hne; [congruence|].
  destruct l as [|y l].
  - simpl. f_equal. unfold Np.sum. simpl. lra.
  - replace (List.length (x :: y :: l) - 1)%nat with (S (List.length (y :: l) - 1))
      by (simpl; lia).
    change (Np.cumsum_from acc (x :: y :: l))
      with ((acc + x) :: Np.cumsum_from (acc + x) (y :: l)).
    remember (List.length (y :: l) - 1)%nat as k eqn:Ek. cbn [nth_error]. subst k.
    rewrite IH by discriminate.
    f_equal. unfold Np.sum. simpl. lra.
Qed.

Lemma linspace_le_1 (n : nat) (b : R) : In b (Np.linspace 0 1 n) -> b <= 1.
Proof.
  unfold Np.linspace. intros H. apply in_map_iff in H. destruct H as [i [<- Hi]].
  apply in_seq in Hi. destruct (Nat.eq_dec n 1) as [->|Hn].
  - assert (i = 0%nat) by lia. subst. simpl. lra.
  - assert (Hpos : 0 < INR (n - 1)) by (apply lt_0_INR; lia).
    assert (Hle : INR i <= INR (n - 1)) by (apply le_INR; lia).
    replace (0 + INR i * ((1 - 0) / INR (n - 1))) with (INR i / INR (n - 1))
      by (field; lra).
    apply (Rmult_le_reg_r (INR (n - 1))); [exact Hpos|].
    replace (INR i / INR (n - 1) * INR (n - 1)) with (INR i) by (field; lra). lra.
Qed.

Lemma linspace_last (n : nat) : (2 <= n)%nat -> In 1 (Np.linspace 0 1 n).
Proof.
  intros Hn. unfold Np.linspace. apply in_map_iff. exists (n - 1)%nat. split.
  - assert (Hpos : 0 < INR (n - 1)) by (apply lt_0_INR; lia). field. lra.
  - apply in_seq. lia.
Qed.

Lemma in_first_true {A : Type} (f : A -> bool) (l : list A) (a : A) :
  In a l -> f a = true -> exists j, Np.first_true (map f l) = Some j.
Proof.
  intros Hin Hf. destruct (Np.first_true (map f l)) as [j|] eqn:E; [eauto|].
  pose proof (first_true_None _ E (f a) (in_map f l a Hin)). congruence.
Qed.

(** The bin a finite point falls into, for a histogram on the unit scale. *)
Lemma bin_of_unit (h : Histogram.HistogramDist) (x : R) :
  Histogram.scale h = {| Scale.low := 0; Scale.high := 1 |} ->
  Histogram.normed_bins h <> [] ->
  Histogram.bin_of h (Fin x)
  = Returned (match Np.first_true (map (fun b => Rleb x b) (Histogram.normed_bins h)) with
              | Some i => i
              | None => 0%nat
              end).
Proof.
  intros Hs Hne. unfold Histogram.bin_of. rewrite Hs.
  assert (E : map (fun b => ele (Scale.normalize_query
                                   {| Scale.low := 0; Scale.high := 1 |} (Fin x)) (Fin b))
                (Histogram.normed_bins h)
              = map (fun b => Rleb x b) (Histogram.normed_bins h)).
  { apply map_ext. intros b. simpl. unfold Scale.normalize_point, Scale.range. simpl.
    replace ((x - 0) / (1 - 0)) with x by (field; lra). reflexivity. }
  rewrite E. unfold Np.argmax.
  destruct (Histogram.normed_bins h) as [|b bins]; [congruence|]. reflexivity.
Qed.



Lemma nth_error_map_seq {A : Type} (f : nat -> A) (n : nat) :
  forall a i, (i < n)%nat -> nth_error (map f (seq a n)) i = Some (f (a + i)%nat).
Proof.
  induction n as [|n IH]; intros a i Hi; [lia|].
  destruct i as [|i]; simpl.
  - rewrite Nat.add_0_r. reflexivity.
  - rewrite IH by lia. f_equal. f_equal. lia.
Qed.

Lemma sum_pos_head_lt (p : R) (l : list R) :
  l <> [] -> Forall (fun q => 0 < q) l -> p < Np.sum (p :: l).
Proof.
  intros Hne Hl. unfold Np.sum. simpl.
  destruct l as [|q l]; [congruence|]. inversion Hl as [|? ? Hq Hl']; subst. simpl.
  assert (0 <= fold_right Rplus 0 l).
  { clear -Hl'. induction Hl'; simpl; lra. }
  lra.
Qed.

Lemma argmax_all_false (l : list bool) :
  l <> [] -> (forall b, In b l -> b = false) -> Np.argmax l = Returned 0%nat.
Proof.
  intros Hne H. unfold Np.argmax. rewrite (first_true_all_false l H).
  destruct l; [congruence | reflexivity].
Qed.



Lemma sum_repeat (c : R) (n : nat) : Np.sum (repeat c n) = INR n * c.
Proof.
  unfold Np.sum. induction n as [|n IH]; [simpl; lra|].
  rewrite S_INR. cbn [repeat fold_right]. rewrite IH. lra.
Qed.

Lemma dot_repeat (a b : R) (n : nat) : Np.dot (repeat a n) (repeat b n) = INR n * (a * b).
Proof.
  unfold Np.dot, Np.sum. induction n as [|n IH]; [simpl; lra|].
  rewrite S_INR. cbn [repeat combine map fold_right]. rewrite IH. lra.
Qed.

(** X14.  The initial parameters for [num_bins >= 1] bins give the uniform
    histogram: every bin has probability [1 / num_bins], and its entropy is
    [ln num_bins]. *)
Theorem Histogram_initial_params_uniform :
  forall num_bins : nat,
    (1 <= num_bins)%nat ->
    exists h,
      Histogram.from_params (Histogram.initialize_params num_bins) = Returned h
      /\ Histogram.size h = num_bins
      /\ Histogram.ps h = repeat (/ INR num_bins) num_bins
      /\ Histogram.entropy h = ln (INR num_bins).
Proof.
  intros n Hn. unfold Histogram.initialize_params.
  assert (Hne : repeat (- INR n) n <> []) by (destruct n; [lia | discriminate]).
  destruct (from_params_nonempty _ Hne) as [h Eh]. exists h. split; [exact Eh|].
  rewrite (from_params_shape _ _ Eh).
  assert (Hpos : 0 < INR n) by (apply lt_0_INR; lia).
  pose proof (exp_pos (- INR n)) as He.
  unfold Histogram.entropy. cbn [Histogram.size Histogram.ps Histogram.logps].
  rewrite !map_repeat, repeat_length, sum_repeat.
  replace (exp (- INR n) / (INR n * exp (- INR n))) with (/ INR n) by (field; lra).
  split; [reflexivity|]. split; [reflexivity|].
  rewrite dot_repeat. rewrite ln_mult by lra. rewrite ln_exp. field. lra.
Qed.

(** Four bins. *)
Lemma Histogram_initial_params_uniform_witness :
  exists h,
    Histogram.from_params (Histogram.initialize_params 4) = Returned h
    /\ Histogram.size h = 4%nat
    /\ Histogram.ps h = repeat (/ INR 4) 4
    /\ Histogram.entropy h = ln (INR 4).
Proof. apply (Histogram_initial_params_uniform 4). lia. Defined.

(** X15.  Denormalizing a histogram built by [from_params] onto a scale
    with [low < high] keeps the probabilities, the cumulative
    probabilities and the normalized bins, and the cdf of the result at a
    true-scale point is the cdf of the histogram at the normalized point. *)
Theorem Histogram_denormalize_cdf :
  forall (params : list R) (h : Histogram.HistogramDist) (s : Scale.Scale),
    Histogram.from_params params = Returned h ->
    Scale.low s < Scale.high s ->
    exists h',
      Histogram.denormalize h s = Returned h'
      /\ Histogram.scale h' = s
      /\ Histogram.ps h' = Histogram.ps h
      /\ Histogram.cum_ps h' = Histogram.cum_ps h
      /\ Histogram.normed_bins h' = Histogram.normed_bins h
      /\ (forall u, cdf h' (Fin (Scale.denormalize_point s u)) = cdf h (Fin u)).
Proof.
  intros params h s Eh Hs.
  rewrite (from_params_shape _ _ Eh).
  unfold Histogram.denormalize, Histogram.__init__. cbn [bind Histogram.logps].
  eexists. split; [reflexivity|].
  cbn [Histogram.scale Histogram.ps Histogram.cum_ps Histogram.normed_bins].
  assert (E : map exp (map (fun xi => xi - ln (Np.sum (map exp params))) params)
              = map (fun xi => exp xi / Np.sum (map exp params)) params).
  { rewrite map_map. apply map_ext_in. intros x Hin.
    apply exp_minus_ln. apply sum_exp_pos. intros ->. contradiction. }
  rewrite E, length_map.
  split; [reflexivity|]. split; [reflexivity|]. split; [reflexivity|].
  split; [reflexivity|].
  intros u. simpl cdf. unfold Histogram.cdf_, Histogram.bin_of.
  cbn [Histogram.scale Histogram.normed_bins Histogram.cum_ps].
  f_equal. f_equal. apply map_ext. intros b. simpl. f_equal.
  unfold Scale.normalize_point, Scale.denormalize_point, Scale.range. simpl.
  field. lra.
Qed.

(** Two equal bins onto the scale from 0 to 10. *)
Lemma Histogram_denormalize_cdf_witness :
  exists h',
    Histogram.denormalize two_bins {| Scale.low := 0; Scale.high := 10 |} = Returned h'
    /\ Histogram.ps h' = Histogram.ps two_bins.
Proof.
  destruct (Histogram_denormalize_cdf [0; 0] two_bins {| Scale.low := 0; Scale.high := 10 |}
              from_params_two_bins ltac:(simpl; lra)) as [h' [H1 [_ [H2 _]]]].
  exists h'. split; assumption.
Defined.

Lemma combine_app_left {A B : Type} (l extra : list A) (r : list B) :
  List.length l = List.length r -> combine (l ++ extra) r = combine l r.
Proof.
  revert r. induction l as [|a l IH]; intros r H; destruct r as [|b r];
    simpl in *; try discriminate.
  - destruct extra; reflexivity.
  - rewrite IH by lia. reflexivity.
Qed.

(** X16.  [static_loss] pairs classes and parameters as [zip] does: with
    no class or no parameter tuple it returns 0 whatever the distribution
    parameters are, and classes beyond the parameter tuples are ignored.
    An error of the first pair's condition loss is the error of
    [static_loss], whatever pairs follow. *)
Theorem static_loss_pairs_like_zip :
  forall {cond_class cond_param condition : Type}
         (structure_condition : cond_class -> cond_param -> outcome condition)
         (loss : condition -> Histogram.HistogramDist -> outcome R)
         (dist_params : list R) (cond_classes extra : list cond_class)
         (cond_params : list cond_param),
    Histogram.static_loss structure_condition loss dist_params [] cond_params = Returned 0
    /\ Histogram.static_loss structure_condition loss dist_params cond_classes []
       = Returned 0
    /\ (List.length cond_classes = List.length cond_params ->
        Histogram.static_loss structure_condition loss dist_params
          (cond_classes ++ extra) cond_params
        = Histogram.static_loss structure_condition loss dist_params
            cond_classes cond_params)
    /\ (forall cond_class_ cond_param_ e,
           Histogram.static_condition_loss structure_condition loss dist_params
             cond_class_ cond_param_ = Raised e ->
           Histogram.static_loss structure_condition loss dist_params
             (cond_class_ :: cond_classes) (cond_param_ :: cond_params)
           = Raised e).
Proof.
  intros. unfold Histogram.static_loss. split; [reflexivity|]. split.
  { destruct cond_classes; reflexivity. }
  split.
  { intros H. rewrite combine_app_left by exact H. reflexivity. }
  intros k q e He.
  cbn [combine fold_left bind]. rewrite He. cbn [bind].
  apply fold_Raised. intros [? ?]. reflexivity.
Qed.

(** One percentile condition and no distribution parameters: the
    histogram has no bins, and the cdf that the condition's loss asks for
    raises. *)
Lemma static_loss_pairs_like_zip_witness :
  Histogram.static_loss (fun cond_class cond_param => cond_class cond_param)
    Conditions.Percentile.loss [] [Conditions.Percentile.structure]
    [VTuple [VNum 0; VNum (1 / 2); VNum 1]] = Raised ValueError.
Proof.
  refine (proj2 (proj2 (proj2
            (static_loss_pairs_like_zip (fun cond_class cond_param => cond_class cond_param)
               Conditions.Percentile.loss [] [] [] [])))
            Conditions.Percentile.structure (VTuple [VNum 0; VNum (1 / 2); VNum 1])
            ValueError _).
  unfold Histogram.static_condition_loss, Histogram.from_params, Np.log_softmax.
  cbn [bind map]. unfold Histogram.__init__. rewrite Scale_init_unit. cbn [bind].
  unfold Conditions.Percentile.structure. cbn [unpack3 as_num bind].
  unfold Conditions.Percentile.__init__.
  rewrite (proj2 (Rleb_true 0 0)) by lra. rewrite (proj2 (Rleb_true 0 1)) by lra.
  reflexivity.
Defined.

Lemma first_true_at (l : list bool) :
  forall k,
    nth_error l k = Some true ->
    (forall j, (j < k)%nat -> nth_error l j = Some false) ->
    Np.first_true l = Some k.
Proof.
  induction l as [|b l IH]; intros k Hk Hb.
  - destruct k; discriminate.
  - destruct k as [|k]; simpl in *.
    + injection Hk as ->. reflexivity.
    + pose proof (Hb 0%nat ltac:(lia)) as H0. simpl in H0. injection H0 as ->.
      rewrite (IH k Hk); [reflexivity|].
      intros j Hj. apply (Hb (S j)). lia.
Qed.

(** The bin of the point [i / n] on the grid of [n] evenly spaced bins is
    bin [i]. *)
Lemma linspace_bin_of_fraction (n i : nat) :
  (i < n)%nat ->
  Np.first_true (map (fun b => Rleb (INR i / INR n) b) (Np.linspace 0 1 n)) = Some i.
Proof.
  intros Hi. unfold Np.linspace. rewrite map_map.
  assert (Hn : 0 < INR n) by (apply lt_0_INR; lia).
  apply first_true_at.
  - rewrite nth_error_map_seq by exact Hi. f_equal. simpl. apply Rleb_true.
    destruct (Nat.eq_dec n 1) as [->|Hn1].
    + assert (i = 0%nat) by lia. subst. simpl. lra.
    + assert (Hm : 0 < INR (n - 1)) by (apply lt_0_INR; lia).
      assert (Hle : INR (n - 1) <= INR n) by (apply le_INR; lia).
      assert (H0 : 0 <= INR i) by apply pos_INR.
      replace (0 + INR i * ((1 - 0) / INR (n - 1))) with (INR i / INR (n - 1))
        by (field; lra).
      apply (Rmult_le_reg_r (INR n * INR (n - 1))); [nra|].
      replace (INR i / INR n * (INR n * INR (n - 1))) with (INR i * INR (n - 1))
        by (field; lra).
      replace (INR i / INR (n - 1) * (INR n * INR (n - 1))) with (INR i * INR n)
        by (field; lra).
      nra.
  - intros j Hj. rewrite nth_error_map_seq by lia. f_equal. simpl. apply Rleb_false.
    assert (Hn2 : (2 <= n)%nat) by lia.
    assert (Hm : 0 < INR (n - 1)) by (apply lt_0_INR; lia).
    assert (Hnat : (j * n < i * (n - 1))%nat) by nia.
    apply lt_INR in Hnat. rewrite !mult_INR in Hnat.
    replace (0 + INR j * ((1 - 0) / INR (n - 1))) with (INR j / INR (n - 1))
      by (field; lra).
    apply (Rmult_lt_reg_r (INR n * INR (n - 1))); [nra|].
    replace (INR i / INR n * (INR n * INR (n - 1))) with (INR i * INR (n - 1))
      by (field; lra).
    replace (INR j / INR (n - 1) * (INR n * INR (n - 1))) with (INR j * INR n)
      by (field; lra).
    exact Hnat.
Qed.

Lemma getitem_neg_last {A : Type} (l : list A) (x : A) :
  Np.getitem_neg l 1 = Returned x -> nth_error l (List.length l - 1) = Some x.
Proof.
  unfold Np.getitem_neg, Np.getitem. simpl.
  destruct (rev l) as [|a r] eqn:E; simpl; [discriminate|].
  intros H. injection H as ->.
  assert (El : l = rev r ++ [x]) by (rewrite <- (rev_involutive l), E; reflexivity).
  rewrite El. rewrite length_app. simpl.
  rewrite nth_error_app2 by lia.
  replace (List.length (rev r) + 1 - 1 - List.length (rev r))%nat with 0%nat by lia.
  reflexivity.
Qed.

(** X17.  For a histogram built by [from_params], whose last cumulative
    probability is [top]: [ppf] raises [IndexError] for a probability above
    [top]; for [q <= top] it returns a point [v] with [0 <= v < 1] at which
    the cdf is at least [q]; and it is nondecreasing in [q].  Without bins
    it raises [IndexError] for every [q]. *)
Theorem Histogram_ppf_inverts_cdf :
  forall (params : list R) (h : Histogram.HistogramDist),
    Histogram.from_params params = Returned h ->
    (forall top,
        Np.getitem_neg (Histogram.cum_ps h) 1 = Returned top ->
        (forall q, top < q -> Histogram.ppf h q = Raised IndexError)
        /\ (forall q, q <= top ->
                      exists v c,
                        Histogram.ppf h q = Returned v
                        /\ 0 <= v < 1
                        /\ cdf h (Fin v) = Returned c
                        /\ q <= c))
    /\ (forall q1 q2 v1 v2,
           q1 <= q2 ->
           Histogram.ppf h q1 = Returned v1 ->
           Histogram.ppf h q2 = Returned v2 ->
           v1 <= v2)
    /\ (params = [] -> forall q, Histogram.ppf h q = Raised IndexError).
Proof.
  intros params h Eh.
  rewrite (from_params_shape _ _ Eh).
  split; [|split].
  - intros top Etop. cbn [Histogram.cum_ps] in Etop.
    assert (Hne : params <> []) by (intros ->; discriminate).
    destruct (softmax_probs params Hne) as [Hp Hsum].
    set (ps := map (fun xi => exp xi / Np.sum (map exp params)) params) in *.
    set (n := List.length params).
    assert (Hcl : List.length (Np.cumsum ps) = n)
      by (unfold Np.cumsum; rewrite cumsum_from_length; unfold ps; rewrite length_map;
          reflexivity).
    assert (Hpne : ps <> []) by (unfold ps; destruct params; [congruence | discriminate]).
    assert (Hn : 0 < INR n)
      by (apply lt_0_INR; unfold n; destruct params; [congruence | simpl; lia]).
    assert (Htop : top = 1).
    { apply getitem_neg_last in Etop. rewrite Hcl in Etop.
      unfold Np.cumsum in Etop. rewrite <- Hcl in Etop. unfold Np.cumsum in Etop.
      rewrite cumsum_from_length in Etop.
      rewrite cumsum_from_last in Etop by exact Hpne. injection Etop as <-. lra. }
    subst top.
    unfold Histogram.ppf. cbn [Histogram.cum_ps Histogram.scale]. rewrite Hcl.
    split.
    + intros q Hq. rewrite first_true_all_false; [reflexivity|].
      intros b Hb. apply in_map_iff in Hb. destruct Hb as [c [<- Hc]].
      apply Rleb_false.
      pose proof (cumsum_from_bounds ps 0 c (Forall_pos_nonneg _ Hp) Hc). lra.
    + intros q Hq.
      destruct (in_first_true (fun c => Rleb q c) (Np.cumsum ps) 1) as [i Ei].
      { unfold Np.cumsum. eapply nth_error_In.
        rewrite cumsum_from_last by exact Hpne. f_equal. lra. }
      { apply Rleb_true. exact Hq. }
      rewrite Ei. pose proof (first_true_Some _ _ Ei) as [Hlt Hnth].
      rewrite length_map, Hcl in Hlt.
      rewrite nth_error_map in Hnth.
      destruct (nth_error (Np.cumsum ps) i) as [c|] eqn:Ec; [|discriminate].
      injection Hnth as Hqc. apply Rleb_true in Hqc.
      assert (Hv : Scale.denormalize_point {| Scale.low := 0; Scale.high := 1 |}
                     (INR i / INR n) = INR i / INR n)
        by (unfold Scale.denormalize_point, Scale.range; simpl; field; lra).
      rewrite Hv. exists (INR i / INR n), c. split; [reflexivity|].
      split.
      { split.
        - apply Rmult_le_pos; [apply pos_INR | left; apply Rinv_0_lt_compat; exact Hn].
        - apply (Rmult_lt_reg_r (INR n)); [exact Hn|].
          replace (INR i / INR n * INR n) with (INR i) by (field; lra).
          rewrite Rmult_1_l. apply lt_INR. exact Hlt. }
      split; [|exact Hqc].
      simpl cdf. unfold Histogram.cdf_.
      rewrite bin_of_unit;
        [|reflexivity
         |simpl; unfold Np.linspace; fold n; destruct n; [simpl in Hn; lra | discriminate]].
      cbn [Histogram.normed_bins Histogram.cum_ps bind]. fold n.
      rewrite linspace_bin_of_fraction by exact Hlt.
      unfold Np.getitem. rewrite Ec. reflexivity.
  - intros q1 q2 v1 v2 Hq E1 E2.
    unfold Histogram.ppf in E1, E2. cbn [Histogram.cum_ps Histogram.scale] in E1, E2.
    set (ps := map (fun xi => exp xi / Np.sum (map exp params)) params) in *.
    destruct (Np.first_true (map (fun c => Rleb q2 c) (Np.cumsum ps))) as [j|] eqn:Ej;
      [|discriminate].
    destruct (first_true_mono (Np.cumsum ps) q1 q2 Hq j Ej) as [i [Ei Hij]].
    rewrite Ei in E1. injection E1 as <-. injection E2 as <-.
    pose proof (first_true_Some _ _ Ej) as [Hlt _]. rewrite length_map in Hlt.
    assert (Hn : 0 < INR (List.length (Np.cumsum ps))) by (apply lt_0_INR; lia).
    unfold Scale.denormalize_point, Scale.range. simpl.
    apply le_INR in Hij.
    assert (INR i / INR (List.length (Np.cumsum ps))
            <= INR j / INR (List.length (Np.cumsum ps))).
    { unfold Rdiv. apply Rmult_le_compat_r; [left; apply Rinv_0_lt_compat; exact Hn|].
      exact Hij. }
    lra.
  - intros -> q. reflexivity.
Qed.

(** Two equal bins: the median. *)
Lemma Histogram_ppf_inverts_cdf_witness :
  exists v c,
    Histogram.ppf two_bins (1 / 2) = Returned v
    /\ 0 <= v < 1
    /\ cdf two_bins (Fin v) = Returned c
    /\ 1 / 2 <= c.
Proof.
  apply (proj2 (proj1 (Histogram_ppf_inverts_cdf [0; 0] two_bins from_params_two_bins)
                  1 eq_refl)).
  lra.
Defined.

(** ** The mixture fit by gradient ascent *)

Lemma mapM_map {A B C : Type} (f : B -> outcome C) (g : A -> B) (l : list A) :
  mapM f (map g l) = mapM (fun a => f (g a)) l.
Proof. induction l as [|a l IH]; simpl; [reflexivity|]. rewrite IH. reflexivity. Qed.

Lemma mapM_ext {A B : Type} (f g : A -> outcome B) (l : list A) :
  (forall a, f a = g a) -> mapM f l = mapM g l.
Proof.
  intros H. induction l as [|a l IH]; simpl; [reflexivity|]. rewrite H, IH. reflexivity.
Qed.

Lemma map_const_repeat {A B : Type} (f : A -> B) (c : B) (l : list A) :
  (forall a, f a = c) -> map f l = repeat c (List.length l).
Proof.
  intros H. induction l as [|a l IH]; simpl; [reflexivity|]. rewrite H, IH. reflexivity.
Qed.

(** The rows of a matrix of numbers with three columns. *)
Lemma structure_numeric_rows (rows : list (R * R * R)) :
  Logistic.structure_mixture_params
    (map (fun '(a, b, c) => [Logistic.Num a; Logistic.Num b; Logistic.Num c]) rows)
  = Returned
      {| Logistic.components :=
           map (fun '(a, b, _) =>
                  {| Logistic.loc := Logistic.Num a; Logistic.scale := Logistic.Num b |})
               rows;
         Logistic.probs :=
           map (fun '(_, _, c) =>
                  Logistic.Num
                    (exp c / Np.sum (map exp (map (fun '(_, _, c') => c') rows))))
               rows |}.
Proof.
  unfold Logistic.structure_mixture_params.
  set (ws := map (fun '(_, _, c') => c') rows).
  set (S := Np.sum (map exp ws)) in *.
  rewrite mapM_map.
  rewrite (mapM_Returned _ (fun '(_, _, c) => Logistic.Num c))
    by (intros [[a b] c] _; reflexivity).
  cbn [bind]. unfold Logistic.log_softmax.
  replace (map (fun '(_, _, c) => Logistic.Num c) rows) with (map Logistic.Num ws)
    by (unfold ws; rewrite map_map; apply map_ext; intros [[a b] c]; reflexivity).
  rewrite numbers_Num. unfold Np.log_softmax.
  cbn [fmap bind]. fold S. rewrite mapM_map.
  rewrite (mapM_Returned _ (fun '(a, b, _) =>
                              {| Logistic.loc := Logistic.Num a;
                                 Logistic.scale := Logistic.Num b |}))
    by (intros [[a b] c] _; reflexivity).
  cbn [bind]. f_equal. f_equal.
  unfold ws. rewrite !map_map. apply map_ext_in. intros [[a b] c] Hin. simpl. f_equal.
  apply exp_minus_ln. unfold S, ws. apply sum_exp_pos. intros E.
  apply map_eq_nil in E. rewrite E in Hin. contradiction.
Qed.



Section Passes.

Variable grad_mixture_logpdf : list R -> Logistic.matrix -> Logistic.matrix.
Variable clip_grads : Logistic.matrix -> R -> Logistic.matrix.

(** The loop is left after some number of passes, at most the budget, none
    of which met the NaN test; it is left early only when the test fires. *)
Lemma descend_passes (data : list R) (n : nat) :
  forall components,
    exists k,
      (k <= n)%nat
      /\ Logistic.descend grad_mixture_logpdf clip_grads n data components
         = Logistic.after grad_mixture_logpdf clip_grads k data components
      /\ (forall j, (j < k)%nat ->
                    Logistic.diverged grad_mixture_logpdf clip_grads data
                      (Logistic.after grad_mixture_logpdf clip_grads j data components)
                    = false)
      /\ ((k < n)%nat ->
          Logistic.diverged grad_mixture_logpdf clip_grads data
            (Logistic.after grad_mixture_logpdf clip_grads k data components) = true).
Proof.
  induction n as [|n IH]; intros components.
  - exists 0%nat. split; [lia|]. split; [reflexivity|]. split; intros; lia.
  - simpl.
    destruct (Logistic.diverged grad_mixture_logpdf clip_grads data components) eqn:E.
    + exists 0%nat. split; [lia|]. split; [reflexivity|].
      split; [intros; lia | intros _; exact E].
    + destruct (IH (Logistic.update grad_mixture_logpdf clip_grads data components))
        as [k [Hk [Ek [Hb Ha]]]].
      exists (S k). split; [lia|]. split; [exact Ek|]. split.
      * intros j Hj. destruct j as [|j]; [exact E|]. apply Hb. lia.
      * intros Hlt. apply Ha. lia.
Qed.

End Passes.

(** X19.  [fit_mixture] makes at most a thousand passes: its result is
    [structure_mixture_params] of the components after some [k <= 1000]
    updates, none of the first [k] passes met the NaN test, and [k] is below
    1000 only when the test fired at pass [k]. *)
Theorem fit_mixture_pass_budget :
  forall (grad_mixture_logpdf : list R -> Logistic.matrix -> Logistic.matrix)
         (clip_grads : Logistic.matrix -> R -> Logistic.matrix)
         (data : list R) (num_components : nat) (draws : list (R * R * R)),
    exists k,
      (k <= 1000)%nat
      /\ Logistic.fit_mixture grad_mixture_logpdf clip_grads data num_components draws
         = Logistic.structure_mixture_params
             (Logistic.after grad_mixture_logpdf clip_grads k data
                (Logistic.initialize_components num_components draws))
      /\ (forall j, (j < k)%nat ->
                    Logistic.diverged grad_mixture_logpdf clip_grads data
                      (Logistic.after grad_mixture_logpdf clip_grads j data
                         (Logistic.initialize_components num_components draws))
                    = false)
      /\ ((k < 1000)%nat ->
          Logistic.diverged grad_mixture_logpdf clip_grads data
            (Logistic.after grad_mixture_logpdf clip_grads k data
               (Logistic.initialize_components num_components draws)) = true).
Proof.
  intros grad clip data num_components draws.
  destruct (descend_passes grad clip data 1000
              (Logistic.initialize_components num_components draws))
    as [k [Hk [Ek [Hb Ha]]]].
  exists k. split; [exact Hk|]. split; [|split; assumption].
  unfold Logistic.fit_mixture. rewrite Ek. reflexivity.
Qed.

(** X20.  The initial components of [num_components >= 1] components, for
    random draws in [0, 1): locations and scales lie in [1, 1.1), and
    turning them into parameters gives every component the probability
    [1 / num_components]. *)
Theorem initialize_components_uniform :
  forall (num_components : nat) (draws : list (R * R * R)),
    (1 <= num_components <= List.length draws)%nat ->
    Forall (fun '(u0, u1, u2) => 0 <= u0 < 1 /\ 0 <= u1 < 1 /\ 0 <= u2 < 1) draws ->
    exists params locs scales,
      Logistic.structure_mixture_params
        (Logistic.initialize_components num_components draws) = Returned params
      /\ map Logistic.loc (Logistic.components params) = map Logistic.Num locs
      /\ map Logistic.scale (Logistic.components params) = map Logistic.Num scales
      /\ List.length locs = num_components
      /\ List.length scales = num_components
      /\ Forall (fun l => 1 <= l < 1.1) locs
      /\ Forall (fun s => 1 <= s < 1.1) scales
      /\ Logistic.probs params
         = repeat (Logistic.Num (/ INR num_components)) num_components.
Proof.
  intros n draws [H1 H2] Hd.
  set (rows := map (fun '(u0, u1, _) => (u0 * 0.1 + 1, u1 * 0.1 + 1, - INR n))
                 (firstn n draws)).
  assert (Hlen : List.length (firstn n draws) = n) by (rewrite length_firstn; lia).
  assert (Hrows : rows <> []).
  { intros E. apply (f_equal (@List.length _)) in E. unfold rows in E.
    rewrite length_map, Hlen in E. simpl in E. lia. }
  assert (Em : Logistic.initialize_components n draws
               = map (fun '(a, b, c) => [Logistic.Num a; Logistic.Num b; Logistic.Num c])
                   rows).
  { unfold Logistic.initialize_components, rows. rewrite map_map.
    apply map_ext. intros [[u0 u1] u2]. reflexivity. }
  rewrite Em, (structure_numeric_rows rows).
  assert (Ew : map (fun '(_, _, c') => c') rows = repeat (- INR n) n).
  { unfold rows. rewrite map_map.
    rewrite (map_const_repeat _ (- INR n)) by (intros [[u0 u1] u2]; reflexivity).
    rewrite Hlen. reflexivity. }
  rewrite Ew, map_repeat, sum_repeat.
  eexists.
  exists (map (fun '(u0, _, _) => u0 * 0.1 + 1) (firstn n draws)),
    (map (fun '(_, u1, _) => u1 * 0.1 + 1) (firstn n draws)).
  assert (Hdf : Forall (fun '(u0, u1, u2) => 0 <= u0 < 1 /\ 0 <= u1 < 1 /\ 0 <= u2 < 1)
                  (firstn n draws)).
  { apply Forall_forall. intros u Hu. rewrite Forall_forall in Hd. apply Hd.
    rewrite <- (firstn_skipn n draws). apply in_or_app. left. exact Hu. }
  split; [reflexivity|]. cbn [Logistic.components Logistic.probs]. unfold rows.
  split; [rewrite !map_map; apply map_ext; intros [[u0 u1] u2]; reflexivity|].
  split; [rewrite !map_map; apply map_ext; intros [[u0 u1] u2]; reflexivity|].
  split; [rewrite length_map; exact Hlen|].
  split; [rewrite length_map; exact Hlen|].
  split.
  { apply Forall_forall. intros l Hl. apply in_map_iff in Hl.
    destruct Hl as [[[u0 u1] u2] [<- Hu]]. rewrite Forall_forall in Hdf.
    specialize (Hdf _ Hu). simpl in Hdf. lra. }
  split.
  { apply Forall_forall. intros l Hl. apply in_map_iff in Hl.
    destruct Hl as [[[u0 u1] u2] [<- Hu]]. rewrite Forall_forall in Hdf.
    specialize (Hdf _ Hu). simpl in Hdf. lra. }
  rewrite map_map.
  assert (Hpos : 0 < INR n) by (apply lt_0_INR; lia).
  pose proof (exp_pos (- INR n)).
  rewrite (map_const_repeat _ (Logistic.Num (/ INR n))).
  - rewrite Hlen. reflexivity.
  - intros [[u0 u1] u2]. simpl. f_equal. field. lra.
Qed.

(** One component from the draw (0.5, 0.25, 0.75). *)
Lemma initialize_components_uniform_witness :
  exists params locs scales,
    Logistic.structure_mixture_params
      (Logistic.initialize_components 1 [(1 / 2, 1 / 4, 3 / 4)]) = Returned params
    /\ map Logistic.loc (Logistic.components params) = map Logistic.Num locs
    /\ map Logistic.scale (Logistic.components params) = map Logistic.Num scales
    /\ List.length locs = 1%nat
    /\ List.length scales = 1%nat
    /\ Forall (fun l => 1 <= l < 1.1) locs
    /\ Forall (fun s => 1 <= s < 1.1) scales
    /\ Logistic.probs params = repeat (Logistic.Num (/ INR 1)) 1.
Proof.
  apply (initialize_components_uniform 1 [(1 / 2, 1 / 4, 3 / 4)]).
  - simpl. lia.
  - repeat constructor; lra.
Defined.

(** ** The mixture log likelihood *)

Lemma getitem_negate_0 (row : list Logistic.npfloat) :
  Np.getitem (match row with
              | a :: b :: rest => a :: Logistic.nopp b :: rest
              | _ => row
              end) 0 = Np.getitem row 0.
Proof. destruct row as [|a [|b rest]]; reflexivity. Qed.

Lemma getitem_negate_1 (row : list Logistic.npfloat) :
  Np.getitem (match row with
              | a :: b :: rest => a :: Logistic.nopp b :: rest
              | _ => row
              end) 1 = fmap Logistic.nopp (Np.getitem row 1).
Proof. destruct row as [|a [|b rest]]; reflexivity. Qed.

Lemma getitem_negate_2 (row : list Logistic.npfloat) :
  Np.getitem (match row with
              | a :: b :: rest => a :: Logistic.nopp b :: rest
              | _ => row
              end) 2 = Np.getitem row 2.
Proof. destruct row as [|a [|b rest]]; reflexivity. Qed.

Lemma nabs_nopp (x : Logistic.npfloat) : Logistic.nabs (Logistic.nopp x) = Logistic.nabs x.
Proof. destruct x; simpl; [rewrite Rabs_Ropp|]; reflexivity. Qed.

Lemma combine_map_l {A B C : Type} (g : A -> B) (l : list A) (r : list C) :
  combine (map g l) r = map (fun '(a, c) => (g a, c)) (combine l r).
Proof.
  revert r. induction l as [|a l IH]; intros r; [reflexivity|].
  destruct r as [|c r]; [reflexivity|]. simpl. rewrite IH. reflexivity.
Qed.

Lemma datum_logpdf_negate (datum : R) (components : Logistic.matrix) :
  Logistic.datum_logpdf datum (negate_scales components)
  = Logistic.datum_logpdf datum components.
Proof.
  unfold Logistic.datum_logpdf, negate_scales.
  rewrite mapM_map.
  rewrite (mapM_ext _ (fun component => Np.getitem component 2))
    by (intros row; apply getitem_negate_2).
  destruct (mapM (fun component => Np.getitem component 2) components) as [ws|e];
    [|reflexivity].
  cbn [bind]. destruct (Logistic.log_softmax ws) as [weights|e]; [|reflexivity].
  cbn [bind]. rewrite combine_map_l, mapM_map.
  match goal with
  | |- bind (mapM ?f ?l) _ = bind (mapM ?g ?l) _ =>
      rewrite (mapM_ext f g); [reflexivity|]
  end.
  intros [row weight]. rewrite getitem_negate_0, getitem_negate_1.
  destruct (Np.getitem row 0) as [loc|e]; [|reflexivity]. cbn [bind].
  destruct (Np.getitem row 1) as [c1|e]; [|reflexivity]. cbn [bind fmap].
  rewrite nabs_nopp. reflexivity.
Qed.

(** X21.  The mixture log likelihood does not depend on the signs of the
    scale entries of the components: changing the sign of every second
    entry leaves the result, value or error, unchanged. *)
Theorem mixture_logpdf_scale_sign :
  forall (data : list R) (components : Logistic.matrix),
    Logistic.mixture_logpdf data (negate_scales components)
    = Logistic.mixture_logpdf data components.
Proof.
  intros data components. unfold Logistic.mixture_logpdf.
  apply fold_left_ext. intros score datum.
  rewrite datum_logpdf_negate. reflexivity.
Qed.

(** X22.  For a single component of numbers [(loc, scale, weight)] with a
    scale entry other than 0, the mixture log likelihood is the sum over the
    data of the logistic log density with location [loc] and scale
    [|scale|], whatever the weight. *)
Theorem mixture_logpdf_single_component :
  forall (data : list R) (loc scale weight : R),
    scale <> 0 ->
    Logistic.mixture_logpdf data
      [[Logistic.Num loc; Logistic.Num scale; Logistic.Num weight]]
    = Returned
        (Logistic.Num
           (Np.sum (map (fun x =>
                           Logistic.std_logistic_logpdf ((x - loc) / Rabs scale)
                           - ln (Rabs scale)) data))).
Proof.
  intros data loc scale weight _. unfold Logistic.mixture_logpdf.
  assert (Hd : forall datum,
             Logistic.datum_logpdf datum
               [[Logistic.Num loc; Logistic.Num scale; Logistic.Num weight]]
             = Returned (Logistic.Num
                           (Logistic.std_logistic_logpdf ((datum - loc) / Rabs scale)
                            - ln (Rabs scale)))).
  { intros datum. unfold Logistic.datum_logpdf. cbn.
    replace (weight - ln (exp weight + 0)) with 0 by (rewrite Rplus_0_r, ln_exp; lra).
    rewrite !Rplus_0_r, ln_exp. reflexivity. }
  assert (Hf : forall l a,
             fold_left (fun score datum =>
                          s <- score ;;
                          l <- Logistic.datum_logpdf datum
                                 [[Logistic.Num loc; Logistic.Num scale;
                                   Logistic.Num weight]] ;;
                          Returned (Logistic.nadd s l)) l (Returned (Logistic.Num a))
             = Returned
                 (Logistic.Num
                    (a + Np.sum (map (fun x =>
                                        Logistic.std_logistic_logpdf
                                          ((x - loc) / Rabs scale)
                                        - ln (Rabs scale)) l)))).
  { induction l as [|x l IH]; intros a.
    - simpl. unfold Np.sum. simpl. do 2 f_equal. lra.
    - cbn [fold_left bind]. rewrite Hd. cbn [bind Logistic.nadd]. rewrite IH.
      do 2 f_equal. unfold Np.sum. simpl. lra. }
  rewrite Hf. do 2 f_equal. lra.
Qed.

(** Two data points and the component (1, -2, 5). *)
Lemma mixture_logpdf_single_component_witness :
  Logistic.mixture_logpdf [0; 3]
    [[Logistic.Num 1; Logistic.Num (-2); Logistic.Num 5]]
  = Returned
      (Logistic.Num
         (Np.sum (map (fun x =>
                         Logistic.std_logistic_logpdf ((x - 1) / Rabs (-2))
                         - ln (Rabs (-2))) [0; 3]))).
Proof. apply (mixture_logpdf_single_component [0; 3] 1 (-2) 5). lra. Defined.

(** ** Point densities from parameters *)

Lemma sum_map_mult_r (l : list R) (c : R) :
  Np.sum (map (fun p => p * c) l) = Np.sum l * c.
Proof.
  unfold Np.sum. induction l as [|x l IH]; simpl; [lra|]. rewrite IH. lra.
Qed.




(** ** Endpoints of a point density *)

Lemma Reqb_true (a b : R) : Reqb a b = true <-> a = b.
Proof. unfold Reqb. destruct (Req_dec_T a b); split; auto; discriminate. Qed.

Lemma Reqb_false (a b : R) : Reqb a b = false <-> a <> b.
Proof.
  unfold Reqb. destruct (Req_dec_T a b); split; intros; try discriminate; auto;
    contradiction.
Qed.

Lemma Reqb_refl (a : R) : Reqb a a = true.
Proof. apply Reqb_true. reflexivity. Qed.

Lemma getitem_Returned {A : Type} (l : list A) (i : nat) (x : A) :
  Np.getitem l i = Returned x <-> nth_error l i = Some x.
Proof.
  unfold Np.getitem. destruct (nth_error l i); split; intros H;
    try discriminate; congruence.
Qed.

Lemma getitem_app_l {A : Type} (l l' : list A) (i : nat) (x : A) :
  Np.getitem l i = Returned x -> Np.getitem (l ++ l') i = Returned x.
Proof.
  rewrite !getitem_Returned. intros H. rewrite nth_error_app1; [exact H|].
  apply nth_error_Some. congruence.
Qed.

Lemma getitem_map {A B : Type} (f : A -> B) (l : list A) (i : nat) (x : A) :
  Np.getitem l i = Returned x -> Np.getitem (map f l) i = Returned (f x).
Proof. rewrite !getitem_Returned. intros H. rewrite nth_error_map, H. reflexivity. Qed.

Lemma getitem_neg_cons {A : Type} (a : A) (l : list A) (k : nat) (x : A) :
  Np.getitem_neg l k = Returned x -> Np.getitem_neg (a :: l) k = Returned x.
Proof. unfold Np.getitem_neg. simpl. apply getitem_app_l. Qed.

Lemma getitem_neg_snoc {A : Type} (l : list A) (a : A) :
  Np.getitem_neg (l ++ [a]) 1 = Returned a.
Proof. unfold Np.getitem_neg. rewrite rev_unit. reflexivity. Qed.

Lemma getitem_neg_map {A B : Type} (f : A -> B) (l : list A) (k : nat) (x : A) :
  Np.getitem_neg l k = Returned x -> Np.getitem_neg (map f l) k = Returned (f x).
Proof. unfold Np.getitem_neg. rewrite <- map_rev. apply getitem_map. Qed.

Lemma getitem_neg_le {A : Type} (l : list A) (k : nat) :
  (1 <= k <= List.length l)%nat -> exists x, Np.getitem_neg l k = Returned x.
Proof.
  intros H. unfold Np.getitem_neg.
  destruct (getitem_lt (rev l) (k - 1)) as [x [E _]]; [rewrite length_rev; lia|].
  exists x. exact E.
Qed.

(** Points that start at 0 and end at 1 are left as they are. *)
Lemma add_endpoints_fixed (xs densities : list R) :
  Np.getitem xs 0 = Returned 0 ->
  Np.getitem_neg xs 1 = Returned 1 ->
  PointDensity.add_endpoints xs densities = Returned (xs, densities).
Proof.
  intros H0 H1. unfold PointDensity.add_endpoints. rewrite H0. cbn [bind].
  rewrite Reqb_refl. cbn [negb bind]. rewrite H1. cbn [bind].
  rewrite Reqb_refl. reflexivity.
Qed.

(** X24.  On at least two points and two densities, where the first two
    points differ unless the first is 0 and the last two differ unless the
    last is 1 (so that no ratio of differences is zero), [add_endpoints]
    returns points that start at 0 and end at 1, with as many densities
    added as points, and applying it to its own result changes nothing.  On
    fewer than two points, in a list or a numpy array, it raises
    [IndexError]. *)
Theorem add_endpoints_idempotent :
  forall xs densities : list R,
    (forall x0 x1 xm xn : R,
        (2 <= List.length densities)%nat ->
        Np.getitem xs 0 = Returned x0 ->
        Np.getitem xs 1 = Returned x1 ->
        Np.getitem_neg xs 2 = Returned xm ->
        Np.getitem_neg xs 1 = Returned xn ->
        (x0 <> 0 -> x1 <> x0) ->
        (xn <> 1 -> xn <> xm) ->
        exists xs' densities',
          PointDensity.add_endpoints xs densities = Returned (xs', densities')
          /\ Np.getitem xs' 0 = Returned 0
          /\ Np.getitem_neg xs' 1 = Returned 1
          /\ (List.length xs' + List.length densities
              = List.length xs + List.length densities')%nat
          /\ PointDensity.add_endpoints xs' densities' = Returned (xs', densities'))
    /\ ((List.length xs < 2)%nat ->
        PointDensity.add_endpoints xs densities = Raised IndexError).
Proof.
  intros xs densities. split.
  - intros x0 x1 xm xn Hd E0 E1 Em En _ _.
    destruct (getitem_lt densities 0 ltac:(lia)) as [d0 [Ed0 _]].
    destruct (getitem_lt densities 1 ltac:(lia)) as [d1 [Ed1 _]].
    assert (Hsnd : forall xs1 ds1 : list R,
               (2 <= List.length ds1)%nat ->
               Np.getitem xs1 0 = Returned 0 ->
               Np.getitem_neg xs1 2 = Returned xm ->
               Np.getitem_neg xs1 1 = Returned xn ->
               exists xs' ds',
                 (xn <- Np.getitem_neg xs1 1 ;;
                  if negb (Reqb xn 1)
                  then
                    xm <- Np.getitem_neg xs1 2 ;;
                    dn <- Np.getitem_neg ds1 1 ;;
                    dm <- Np.getitem_neg ds1 2 ;;
                    Returned (xs1 ++ [1],
                              ds1 ++ [Rmax ((dn - dm) / ((xn - xm) / (1 - xn)) + dn) 0])
                  else Returned (xs1, ds1)) = Returned (xs', ds')
                 /\ Np.getitem xs' 0 = Returned 0
                 /\ Np.getitem_neg xs' 1 = Returned 1
                 /\ (List.length xs' + List.length ds1
                     = List.length xs1 + List.length ds')%nat).
    { intros xs1 ds1 H2 H0 Hm Hn.
      destruct (getitem_neg_le ds1 1 ltac:(lia)) as [dn Edn].
      destruct (getitem_neg_le ds1 2 ltac:(lia)) as [dm Edm].
      rewrite Hn. cbn [bind]. destruct (Reqb xn 1) eqn:Eq; cbn [negb].
      - apply Reqb_true in Eq. subst xn.
        exists xs1, ds1. split; [reflexivity|]. split; [exact H0|].
        split; [exact Hn | lia].
      - rewrite Hm. cbn [bind]. rewrite Edn. cbn [bind]. rewrite Edm. cbn [bind].
        eexists. eexists. split; [reflexivity|].
        split; [apply getitem_app_l; exact H0|].
        split; [apply getitem_neg_snoc|]. rewrite !length_app. simpl. lia. }
    unfold PointDensity.add_endpoints. rewrite E0. cbn [bind].
    destruct (Reqb x0 0) eqn:Eq0; cbn [negb bind].
    + apply Reqb_true in Eq0. subst x0.
      destruct (Hsnd xs densities Hd E0 Em En) as [xs' [ds' [E [H0 [H1 Hl]]]]].
      exists xs', ds'. split; [exact E|]. split; [exact H0|]. split; [exact H1|].
      split; [exact Hl|]. apply add_endpoints_fixed; assumption.
    + rewrite E1. cbn [bind]. rewrite Ed0. cbn [bind]. rewrite Ed1. cbn [bind].
      destruct (Hsnd (0 :: xs)
                  (Rmax ((d0 - d1) / ((x1 - x0) / x0) + d0) 0 :: densities)
                  ltac:(simpl; lia) eq_refl
                  (getitem_neg_cons 0 xs 2 xm Em) (getitem_neg_cons 0 xs 1 xn En))
        as [xs' [ds' [E [H0 [H1 Hl]]]]].
      exists xs', ds'. split; [exact E|]. split; [exact H0|]. split; [exact H1|].
      split; [simpl in Hl; lia|]. apply add_endpoints_fixed; assumption.
  - intros Hlen. unfold PointDensity.add_endpoints.
    destruct xs as [|x [|y xs]]; [reflexivity | | simpl in Hlen; lia].
    cbn [Np.getitem nth_error bind].
    destruct (Reqb x 0) eqn:Eq; cbn [negb]; [|reflexivity].
    cbn [bind]. unfold Np.getitem_neg. cbn.
    apply Reqb_true in Eq. subst x.
    rewrite (proj2 (Reqb_false 0 1)) by lra. reflexivity.
Qed.

(** The three points of the package's test. *)
Lemma add_endpoints_idempotent_witness :
  exists xs' densities',
    PointDensity.add_endpoints [1 / 4; 1 / 2; 3 / 4] [1 / 4; 1 / 2; 3 / 4]
    = Returned (xs', densities')
    /\ Np.getitem xs' 0 = Returned 0
    /\ Np.getitem_neg xs' 1 = Returned 1
    /\ PointDensity.add_endpoints xs' densities' = Returned (xs', densities').
Proof.
  destruct (proj1 (add_endpoints_idempotent [1 / 4; 1 / 2; 3 / 4] [1 / 4; 1 / 2; 3 / 4])
              (1 / 4) (1 / 2) (1 / 2) (3 / 4))
    as [xs' [ds' [H1 [H2 [H3 [_ H4]]]]]].
  - simpl. lia.
  - reflexivity.
  - reflexivity.
  - reflexivity.
  - reflexivity.
  - intros _. lra.
  - intros _. lra.
  - exists xs', ds'. split; [exact H1|]. split; [exact H2|]. split; [exact H3 | exact H4].
Defined.

(** X25.  When the densities lie on a line [a * x + b] over at least two
    points, the first point is not 0, the last is not 1, and the first two
    and the last two points are distinct, [add_endpoints] extends the line
    to 0 and to 1: the added densities are [b] and [a + b], each raised to 0
    when negative. *)
Theorem add_endpoints_extends_line :
  forall (a b x0 x1 xm xn : R) (xs : list R),
    Np.getitem xs 0 = Returned x0 ->
    Np.getitem xs 1 = Returned x1 ->
    Np.getitem_neg xs 2 = Returned xm ->
    Np.getitem_neg xs 1 = Returned xn ->
    x0 <> 0 -> x1 <> x0 -> xn <> 1 -> xn <> xm ->
    PointDensity.add_endpoints xs (map (fun x => a * x + b) xs)
    = Returned (0 :: xs ++ [1],
                Rmax b 0 :: map (fun x => a * x + b) xs ++ [Rmax (a + b) 0]).
Proof.
  intros a b x0 x1 xm xn xs E0 E1 Em En H0 H1 Hn Hm.
  unfold PointDensity.add_endpoints.
  rewrite E0. cbn [bind]. rewrite (proj2 (Reqb_false x0 0)) by exact H0. cbn [negb].
  rewrite E1. cbn [bind].
  rewrite (getitem_map _ _ _ _ E0), (getitem_map _ _ _ _ E1). cbn [bind].
  rewrite (getitem_neg_cons 0 xs 1 xn En). cbn [bind].
  rewrite (proj2 (Reqb_false xn 1)) by exact Hn. cbn [negb].
  rewrite (getitem_neg_cons 0 xs 2 xm Em). cbn [bind].
  rewrite (getitem_neg_cons _ _ 1 _ (getitem_neg_map (fun x => a * x + b) xs 1 xn En)).
  rewrite (getitem_neg_cons _ _ 2 _ (getitem_neg_map (fun x => a * x + b) xs 2 xm Em)).
  cbn [bind].
  replace ((a * x0 + b - (a * x1 + b)) / ((x1 - x0) / x0) + (a * x0 + b)) with b
    by (field; split; [exact H0 | lra]).
  replace ((a * xn + b - (a * xm + b)) / ((xn - xm) / (1 - xn)) + (a * xn + b))
    with (a + b) by (field; split; lra).
  reflexivity.
Qed.

(** The three points of the package's test, on the line of slope 1. *)
Lemma add_endpoints_extends_line_witness :
  PointDensity.add_endpoints [1 / 4; 1 / 2; 3 / 4]
    (map (fun x => 1 * x + 0) [1 / 4; 1 / 2; 3 / 4])
  = Returned (0 :: [1 / 4; 1 / 2; 3 / 4] ++ [1],
              Rmax 0 0 :: map (fun x => 1 * x + 0) [1 / 4; 1 / 2; 3 / 4]
                ++ [Rmax (1 + 0) 0]).
Proof.
  apply (add_endpoints_extends_line 1 0 (1 / 4) (1 / 2) (1 / 2) (3 / 4)
           [1 / 4; 1 / 2; 3 / 4]); try reflexivity; lra.
Defined.

(** ** Mean and variance of a point density *)

Lemma sum_cons (x : R) (l : list R) : Np.sum (x :: l) = x + Np.sum l.
Proof. reflexivity. Qed.

Lemma dot_cons (x y : R) (a b : list R) : Np.dot (x :: a) (y :: b) = x * y + Np.dot a b.
Proof. reflexivity. Qed.

Lemma dot_comm (a : list R) : forall b, Np.dot a b = Np.dot b a.
Proof.
  induction a as [|x a IH]; intros [|y b]; try reflexivity.
  rewrite !dot_cons, IH. lra.
Qed.

Lemma dot_bounds (lo hi : R) (xs : list R) :
  forall ps,
    List.length xs = List.length ps ->
    Forall (fun x => lo <= x <= hi) xs ->
    Forall (fun p => 0 <= p) ps ->
    lo * Np.sum ps <= Np.dot xs ps <= hi * Np.sum ps.
Proof.
  induction xs as [|x xs IH]; intros [|p ps] Hlen Hx Hp; simpl in Hlen; try discriminate.
  - unfold Np.dot, Np.sum. simpl. lra.
  - inversion Hx as [|? ? Hx0 Hx']; subst. inversion Hp as [|? ? Hp0 Hp']; subst.
    injection Hlen as Hlen. specialize (IH ps Hlen Hx' Hp').
    rewrite dot_cons, sum_cons.
    assert (lo * p <= x * p) by (apply Rmult_le_compat_r; lra).
    assert (x * p <= hi * p) by (apply Rmult_le_compat_r; lra).
    lra.
Qed.

(** X26.  For a point density with as many bin probabilities as points,
    points between 0 and 1, nonnegative bin probabilities that sum to 1 and
    a scale with low < high, [mean] returns a value between the scale's low
    and high, and [variance] returns a value between 0 and the square of the
    scale's width.  When the numbers of points and of bin probabilities
    differ, both raise [TypeError]. *)
Theorem PointDensity_mean_variance_bounds :
  forall d : PointDensity.PointDensity,
    (List.length (PointDensity.normed_xs d) = List.length (PointDensity.bin_probs d) ->
     Forall (fun x => 0 <= x <= 1) (PointDensity.normed_xs d) ->
     Forall (fun p => 0 <= p) (PointDensity.bin_probs d) ->
     Np.sum (PointDensity.bin_probs d) = 1 ->
     Scale.low (PointDensity.scale d) < Scale.high (PointDensity.scale d) ->
     exists m v,
       PointDensity.mean d = Returned m
       /\ Scale.low (PointDensity.scale d) <= m <= Scale.high (PointDensity.scale d)
       /\ PointDensity.variance d = Returned v
       /\ 0 <= v
          <= (Scale.high (PointDensity.scale d) - Scale.low (PointDensity.scale d)) ^ 2)
    /\ (List.length (PointDensity.normed_xs d) <> List.length (PointDensity.bin_probs d) ->
        PointDensity.mean d = Raised TypeError
        /\ PointDensity.variance d = Raised TypeError).
Proof.
  intros d. split.
  - intros Hlen Hx Hp Hsum Hs.
    set (lo := Scale.low (PointDensity.scale d)) in *.
    set (hi := Scale.high (PointDensity.scale d)) in *.
    set (txs := Scale.denormalize_points (PointDensity.scale d) (PointDensity.normed_xs d)).
    assert (Htl : List.length txs = List.length (PointDensity.bin_probs d)).
    { unfold txs, Scale.denormalize_points. rewrite length_map. exact Hlen. }
    assert (Htx : Forall (fun x => lo <= x <= hi) txs).
    { unfold txs, Scale.denormalize_points. apply Forall_forall. intros x Hin.
      apply in_map_iff in Hin. destruct Hin as [u [<- Hu]].
      rewrite Forall_forall in Hx. specialize (Hx u Hu).
      unfold Scale.denormalize_point, Scale.range. fold lo hi. nra. }
    assert (Em : PointDensity.mean d = Returned (Np.dot txs (PointDensity.bin_probs d))).
    { unfold PointDensity.mean, Np.dot_1d. fold txs.
      rewrite (proj2 (Nat.eqb_eq _ _) Htl). reflexivity. }
    pose proof (dot_bounds lo hi txs _ Htl Htx Hp) as Hm. rewrite Hsum in Hm.
    set (m := Np.dot txs (PointDensity.bin_probs d)) in *.
    exists m, (Np.dot (PointDensity.bin_probs d) (map (fun x => (x - m) ^ 2) txs)).
    split; [exact Em|]. split; [lra|]. split.
    + unfold PointDensity.variance. rewrite Em. cbn [bind]. fold txs.
      unfold Np.dot_1d. rewrite length_map, Htl, Nat.eqb_refl. reflexivity.
    + rewrite dot_comm.
      assert (Hsq : Forall (fun y => 0 <= y <= (hi - lo) ^ 2)
                           (map (fun x => (x - m) ^ 2) txs)).
      { apply Forall_forall. intros y Hin. apply in_map_iff in Hin.
        destruct Hin as [x [<- Hxin]]. rewrite Forall_forall in Htx.
        specialize (Htx x Hxin).
        assert (0 <= (hi - lo - (x - m)) * (hi - lo + (x - m)))
          by (apply Rmult_le_pos; lra).
        split; [apply pow2_ge_0 | simpl; lra]. }
      pose proof (dot_bounds 0 ((hi - lo) ^ 2) _ (PointDensity.bin_probs d)
                    ltac:(rewrite length_map; exact Htl) Hsq Hp) as Hv.
      rewrite Hsum in Hv. lra.
  - intros Hlen.
    assert (Em : PointDensity.mean d = Raised TypeError).
    { unfold PointDensity.mean, Np.dot_1d, Scale.denormalize_points.
      rewrite length_map. rewrite (proj2 (Nat.eqb_neq _ _) Hlen). reflexivity. }
    split; [exact Em|]. unfold PointDensity.variance. rewrite Em. reflexivity.
Qed.

(** The point density of two points: its mean lies on its scale. *)
Lemma PointDensity_mean_variance_bounds_witness :
  exists m v,
    PointDensity.mean two_points = Returned m
    /\ Scale.low (PointDensity.scale two_points) <= m
       <= Scale.high (PointDensity.scale two_points)
    /\ PointDensity.variance two_points = Returned v
    /\ 0 <= v
       <= (Scale.high (PointDensity.scale two_points)
           - Scale.low (PointDensity.scale two_points)) ^ 2.
Proof.
  apply (proj1 (PointDensity_mean_variance_bounds two_points)).
  - reflexivity.
  - simpl. repeat constructor; lra.
  - simpl. repeat constructor; lra.
  - unfold Np.sum. simpl. lra.
  - simpl. lra.
Defined.

(** ** The density of a point density off its scale *)

(** X27.  A point density with at least one point, and at least as many
    densities as points, has density 0 at every point below or above its
    scale and at both infinities.  Without points [pdf] raises
    [ValueError]. *)
Theorem PointDensity_pdf_off_scale :
  forall (d : PointDensity.PointDensity) (x : R),
    Scale.low (PointDensity.scale d) < Scale.high (PointDensity.scale d) ->
    (PointDensity.normed_xs d <> [] ->
     (List.length (PointDensity.normed_xs d)
      <= List.length (PointDensity.normed_densities d))%nat ->
     (x < Scale.low (PointDensity.scale d) \/ Scale.high (PointDensity.scale d) < x ->
      PointDensity.pdf d (Fin x) = Returned 0)
     /\ PointDensity.pdf d NInf = Returned 0
     /\ PointDensity.pdf d PInf = Returned 0)
    /\ (PointDensity.normed_xs d = [] ->
        forall q, PointDensity.pdf d q = Raised ValueError).
Proof.
  intros d x Hs. split.
  - intros Hne Hlen.
    assert (Hpdf : forall q, exists v,
                 PointDensity.pdf d q
                 = Returned (Np.where_
                               (elt (Scale.normalize_query (PointDensity.scale d) q) (Fin 0)
                                || elt (Fin 1)
                                       (Scale.normalize_query (PointDensity.scale d) q))
                               0 v)).
    { intros q. unfold PointDensity.pdf.
      destruct (nearest_lt d (Scale.normalize_query (PointDensity.scale d) q) Hne)
        as [i [Ei Hi]].
      rewrite Ei. cbn [bind].
      destruct (getitem_lt (PointDensity.normed_xs d) i Hi) as [nx [Ex _]].
      destruct (getitem_lt (PointDensity.normed_densities d) i ltac:(lia)) as [nd [En _]].
      rewrite Ex, En. cbn [bind]. eexists. reflexivity. }
    assert (Hr : 0 < Scale.range (PointDensity.scale d)) by (unfold Scale.range; lra).
    assert (Hn : Scale.normalize_point (PointDensity.scale d) x
                 * Scale.range (PointDensity.scale d)
                 = x - Scale.low (PointDensity.scale d)).
    { unfold Scale.normalize_point. field. lra. }
    split; [|split].
    + intros Hx. destruct (Hpdf (Fin x)) as [v ->]. simpl.
      destruct Hx as [Hx|Hx].
      * rewrite (proj2 (Rltb_true _ 0)); [reflexivity|].
        apply Rmult_lt_reg_r with (Scale.range (PointDensity.scale d)); [exact Hr|].
        rewrite Hn. lra.
      * rewrite (proj2 (Rltb_true 1 _)); [rewrite orb_true_r; reflexivity|].
        apply Rmult_lt_reg_r with (Scale.range (PointDensity.scale d)); [exact Hr|].
        rewrite Hn. unfold Scale.range. lra.
    + destruct (Hpdf NInf) as [v ->]. reflexivity.
    + destruct (Hpdf PInf) as [v ->]. reflexivity.
  - intros He q. unfold PointDensity.pdf, PointDensity.nearest. rewrite He.
    destruct (Scale.normalize_query (PointDensity.scale d) q); reflexivity.
Qed.

(** The point density of two points, asked for its density at 2. *)
Lemma PointDensity_pdf_off_scale_witness :
  PointDensity.pdf two_points (Fin 2) = Returned 0.
Proof.
  apply (PointDensity_pdf_off_scale two_points 2).
  - simpl. lra.
  - discriminate.
  - simpl. lia.
  - right. simpl. lra.
Defined.

(** ** Normalized fixed parameters of a truncated mixture *)

Lemma TruncatedMixture_lookup_assign_same (d : TruncatedMixture.fixed_params_t)
      (k : string) (v : R) :
  TruncatedMixture.lookup (TruncatedMixture.assign d k v) k = Returned v.
Proof.
  induction d as [|[k' v'] d IH]; simpl.
  - rewrite String.eqb_refl. reflexivity.
  - destruct (String.eqb k k') eqn:E; simpl.
    + rewrite String.eqb_refl. reflexivity.
    + rewrite E. exact IH.
Qed.

Lemma TruncatedMixture_lookup_assign_other (d : TruncatedMixture.fixed_params_t)
      (k k0 : string) (v : R) :
  k0 <> k ->
  TruncatedMixture.lookup (TruncatedMixture.assign d k v) k0
  = TruncatedMixture.lookup d k0.
Proof.
  intros Hk. induction d as [|[k' v'] d IH]; simpl.
  - rewrite (proj2 (String.eqb_neq k0 k) Hk). reflexivity.
  - destruct (String.eqb k k') eqn:E; simpl.
    + apply String.eqb_eq in E. subst k'.
      rewrite (proj2 (String.eqb_neq k0 k) Hk). reflexivity.
    + rewrite IH. reflexivity.
Qed.

Lemma combine_map_same {A B C : Type} (f : A -> B) (g : A -> C) (l : list A) :
  combine (map f l) (map g l) = map (fun a => (f a, g a)) l.
Proof. induction l as [|a l IH]; simpl; [reflexivity|]. rewrite IH. reflexivity. Qed.

(** X28.  When [from_params] returns a mixture for some fixed parameters,
    [normalize_fixed_params] on a scale with [scale_min < scale_max] returns
    fixed parameters for which [from_params], on the same raw parameters,
    returns the mixture with the floor, the ceiling and every location
    normalized to that scale, and the same probabilities and component
    scales; every key other than the floor and the ceiling keeps its
    entry. *)
Theorem TruncatedMixture_normalize_fixed_params_from_params :
  forall (fixed_params : TruncatedMixture.fixed_params_t) (opt_params : list R)
         (scale_min scale_max : R) (d : TruncatedMixture.TruncatedLogisticMixture),
    scale_min < scale_max ->
    TruncatedMixture.from_params fixed_params opt_params = Returned d ->
    exists norm_fixed_params d',
      TruncatedMixture.normalize_fixed_params fixed_params scale_min scale_max
      = Returned norm_fixed_params
      /\ TruncatedMixture.from_params norm_fixed_params opt_params = Returned d'
      /\ TruncatedMixture.floor d'
         = Scale.normalize_point {| Scale.low := scale_min; Scale.high := scale_max |}
             (TruncatedMixture.floor d)
      /\ TruncatedMixture.ceiling d'
         = Scale.normalize_point {| Scale.low := scale_min; Scale.high := scale_max |}
             (TruncatedMixture.ceiling d)
      /\ map LocationScale.loc (TruncatedMixture.components d')
         = map (fun c => Scale.normalize_point
                           {| Scale.low := scale_min; Scale.high := scale_max |}
                           (LocationScale.loc c))
               (TruncatedMixture.components d)
      /\ map LocationScale.scale (TruncatedMixture.components d')
         = map LocationScale.scale (TruncatedMixture.components d)
      /\ TruncatedMixture.probs d' = TruncatedMixture.probs d
      /\ (forall k, k <> "floor"%string -> k <> "ceiling"%string ->
                    TruncatedMixture.lookup norm_fixed_params k
                    = TruncatedMixture.lookup fixed_params k).
Proof.
  intros fixed_params opt_params scale_min scale_max d Hs H.
  unfold TruncatedMixture.from_params in H.
  apply bind_Returned in H. destruct H as [f [Ef H]].
  apply bind_Returned in H. destruct H as [c [Ec H]].
  apply bind_Returned in H. destruct H as [rows [Er H]].
  apply bind_Returned in H. destruct H as [probs [Ep H]].
  injection H as <-.
  set (s := {| Scale.low := scale_min; Scale.high := scale_max |}).
  set (fp' := TruncatedMixture.assign
                (TruncatedMixture.assign fixed_params "floor" (Scale.normalize_point s f))
                "ceiling" (Scale.normalize_point s c)).
  assert (En : TruncatedMixture.normalize_fixed_params fixed_params scale_min scale_max
               = Returned fp').
  { unfold TruncatedMixture.normalize_fixed_params.
    rewrite (Scale_init_ok _ _ Hs). cbn [bind]. rewrite Ef. cbn [bind].
    rewrite Ec. reflexivity. }
  assert (Ef' : TruncatedMixture.lookup fp' "floor" = Returned (Scale.normalize_point s f)).
  { unfold fp'. rewrite TruncatedMixture_lookup_assign_other by discriminate.
    apply TruncatedMixture_lookup_assign_same. }
  assert (Ec' : TruncatedMixture.lookup fp' "ceiling"
                = Returned (Scale.normalize_point s c)).
  { unfold fp'. apply TruncatedMixture_lookup_assign_same. }
  exists fp'. eexists. split; [exact En|]. split.
  { unfold TruncatedMixture.from_params. rewrite Ef', Ec'. cbn [bind].
    rewrite Er. cbn [bind]. rewrite Ep. cbn [bind]. reflexivity. }
  cbn [TruncatedMixture.components TruncatedMixture.probs
       TruncatedMixture.floor TruncatedMixture.ceiling].
  split; [reflexivity|]. split; [reflexivity|].
  rewrite !combine_map_same, !map_map.
  split; [|split; [|split]].
  - apply map_ext. intros [[c0 c1] c2]. cbn [LocationScale.__init__ LocationScale.loc].
    unfold Scale.normalize_point, Scale.range, s. cbn [Scale.low Scale.high].
    field. lra.
  - apply map_ext. intros [[c0 c1] c2]. reflexivity.
  - reflexivity.
  - intros k Hkf Hkc. unfold fp'.
    rewrite !TruncatedMixture_lookup_assign_other by assumption. reflexivity.
Qed.

(** Two components with floor 2 and ceiling 4, normalized to the scale from
    0 to 10. *)
Lemma TruncatedMixture_normalize_fixed_params_from_params_witness :
  exists norm_fixed_params d',
    TruncatedMixture.normalize_fixed_params
      [("floor"%string, 2); ("ceiling"%string, 4)] 0 10 = Returned norm_fixed_params
    /\ TruncatedMixture.from_params norm_fixed_params [0; 1; 0; 2; -3; 1] = Returned d'
    /\ TruncatedMixture.floor d'
       = Scale.normalize_point {| Scale.low := 0; Scale.high := 10 |} 2.
Proof.
  destruct (TruncatedMixture_normalize_fixed_params_from_params
              [("floor"%string, 2); ("ceiling"%string, 4)] [0; 1; 0; 2; -3; 1] 0 10 _
              ltac:(lra) eq_refl) as [fp [d' [H1 [H2 [H3 _]]]]].
  exists fp, d'. split; [exact H1|]. split; [exact H2 | exact H3].
Defined.

(** ** A point density through destructure and structure *)

Lemma PointDensity_init_scale
      (bin_sizes xs densities : list R) (s : Scale.Scale) (normalized traceable : bool)
      (cumulative_normed_ps : option (list R)) (d : PointDensity.PointDensity) :
  PointDensity.__init__ bin_sizes xs densities (Some s) normalized traceable
    cumulative_normed_ps = Returned d ->
  PointDensity.scale d = s.
Proof.
  intros H. unfold PointDensity.__init__ in H.
  apply bind_Returned in H. destruct H as [bp [_ H]]. injection H as <-. reflexivity.
Qed.

(** X29.  A point density returned by the constructor or by [from_params],
    on a scale with low < high, comes back unchanged from [structure]
    applied to its [destructure]. *)
Theorem PointDensity_structure_inverts_destructure :
  forall (bin_sizes : list R) (d : PointDensity.PointDensity),
    Scale.low (PointDensity.scale d) < Scale.high (PointDensity.scale d) ->
    (exists xs densities s normalized traceable cumulative_normed_ps,
        PointDensity.__init__ bin_sizes xs densities (Some s) normalized traceable
          cumulative_normed_ps = Returned d)
    \/ (exists fixed_params opt_params scale traceable,
           PointDensity.from_params bin_sizes fixed_params opt_params scale traceable
           = Returned d) ->
    PointDensity.structure bin_sizes (PointDensity.destructure d) = Returned d.
Proof.
  intros bin_sizes d Hs
         [[xs [densities [s [normalized [traceable [cum H]]]]]]
         |[fixed_params [opt_params [scale [traceable H]]]]].
  - refine (PointDensity_structure_destructure bin_sizes xs densities s normalized
              traceable cum d _ H).
    rewrite <- (PointDensity_init_scale _ _ _ _ _ _ _ _ H). exact Hs.
  - unfold PointDensity.from_params in H.
    apply bind_Returned in H. destruct H as [s [_ H]].
    apply bind_Returned in H. destruct H as [xs [_ H]].
    apply bind_Returned in H. destruct H as [probs [_ H]].
    refine (PointDensity_structure_destructure bin_sizes xs _ s true true None d _ H).
    rewrite <- (PointDensity_init_scale _ _ _ _ _ _ _ _ H). exact Hs.
Qed.

(** The point density of two points through [structure(destructure())]. *)
Lemma PointDensity_structure_inverts_destructure_witness :
  PointDensity.structure [1 / 2; 1 / 2] (PointDensity.destructure two_points)
  = Returned two_points.
Proof.
  apply (PointDensity_structure_inverts_destructure [1 / 2; 1 / 2] two_points).
  - simpl. lra.
  - left. exists [1 / 4; 3 / 4], [1; 1], {| Scale.low := 0; Scale.high := 1 |},
      true, false, None. exact init_two_points.
Defined.

(** ** The loss of a percentile condition *)


